(** * The audio worker and its client, verified against their specification

    A shallow embedding of [audio_worker.py] (the [Recorder] state machine,
    its waveform pipeline and the line-protocol loop [main]) and of the
    response correlation of [audio_worker_client.py] ([_read_stdout],
    [_wait_for_locked] and the completion predicates of the commands).

    Conventions of the embedding:
    - a float sample, level or time stamp is a real number ([R]): rounding is
      not modelled, the arithmetic of the code is read over the reals;
    - a block delivered by the audio driver is a list of frames, a frame
      holds the sample of the first channel and those of the other channels
      (the stream is opened with at least one channel);
    - a Python [str] is held as the bytes of its UTF-8 encoding, a lone
      surrogate as the three bytes the same scheme gives it; whether the
      encoder of the output stream accepts a text is a parameter;
    - a decoded JSON value is a value of [json]; [json.loads] itself, the
      text of [str()] on a value that is not a string and [int()] on a
      string belong to the Python runtime and are taken as parameters;
    - what the code writes is returned as a list of [effect]s, in order:
      lines on the output stream and entries of the error-stream log; a
      line is written whole, or the write raises and nothing of it is
      written when the stream cannot encode it; the streams stay open;
    - an exception is a value of [exn]; a function that can raise returns a
      [result];
    - the cast of a sample to a 16-bit integer is numpy's and is taken as a
      parameter; writing the container is taken to succeed, and aborting and
      closing the driver stream is not modelled beyond forgetting the
      stream;
    - time is what the caller passes: the value of [time.time()] at a call,
      and for the client the sequence of what each turn of a wait meets. *)

From Stdlib Require Import Reals Lra Lia ZArith QArith Ascii String Sorted.
From stdpp Require Import gmap strings list.
Close Scope Q_scope.
Set Warnings "-register-all".

(** ** Python values *)

Module Py.

(** A Python float as [json.loads] can produce it. *)
Inductive pyfloat :=
| PFin (q : Q)
| PInf
| PNegInf
| PNaN.

(** A value decoded from one JSON text. [JNull] is Python's [None]. *)
Inductive json :=
| JNull
| JBool (b : bool)
| JInt (z : Z)
| JFloat (f : pyfloat)
| JStr (s : string)
| JArr (items : list json)
| JObj (fields : list (string * json)).

(** The exceptions the embedded code raises or lets through; each carries
    the text [str(e)] gives. *)
Inductive exn :=
| RuntimeError (msg : string)
| ValueError (msg : string)
| TypeError (msg : string)
| OverflowError (msg : string)
| AttributeError (msg : string)
| PortAudioError (msg : string)
| UnicodeEncodeError (msg : string)
| RecursionError (msg : string)
| BrokenPipeError (msg : string).

Definition str_exn (e : exn) : string :=
  match e with
  | RuntimeError m | ValueError m | TypeError m
  | OverflowError m | AttributeError m | PortAudioError m
  | UnicodeEncodeError m | RecursionError m | BrokenPipeError m => m
  end.

Inductive result (A : Type) :=
| Ok (a : A)
| Raise (e : exn).
Arguments Ok {A} a.
Arguments Raise {A} e.

(** Truth value of a decoded value ([if v:], [v or d], [not v]). *)
Definition truthy (v : json) : bool :=
  match v with
  | JNull => false
  | JBool b => b
  | JInt z => negb (z =? 0)%Z
  | JFloat (PFin q) => negb (Qeq_bool q 0)
  | JFloat _ => true
  | JStr s => negb (String.eqb s "")
  | JArr l => match l with [] => false | _ => true end
  | JObj o => match o with [] => false | _ => true end
  end.

(** [d.get(k)] on a decoded object: the value, or [None]. *)
Fixpoint lookup_field (o : list (string * json)) (k : string) : option json :=
  match o with
  | [] => None
  | (k', v) :: o' => if String.eqb k' k then Some v else lookup_field o' k
  end.

Definition dict_get (o : list (string * json)) (k : string) : json :=
  match lookup_field o k with
  | Some v => v
  | None => JNull
  end.

(** [v == s] for a string literal [s]. *)
Definition eq_str (v : json) (s : string) : bool :=
  match v with
  | JStr t => String.eqb t s
  | _ => false
  end.

(** [v == n] for an integer [n]: Python compares numbers by value, and
    [True == 1], [False == 0]. *)
Definition eq_int (v : json) (n : Z) : bool :=
  match v with
  | JInt z => (z =? n)%Z
  | JBool b => ((if b then 1 else 0) =? n)%Z
  | JFloat (PFin q) => Qeq_bool q (inject_Z n)
  | _ => false
  end.

(** [v in {s1, s2}] for a set of string literals: hashing [v] raises
    [TypeError] on a list or a dict. *)
Definition in_str_set (v : json) (names : list string) : result bool :=
  match v with
  | JArr _ => Raise (TypeError "unhashable type: 'list'")
  | JObj _ => Raise (TypeError "unhashable type: 'dict'")
  | JStr t => Ok (existsb (String.eqb t) names)
  | _ => Ok false
  end.

(** [str.strip()]. The white space Python strips is, below 128, tab, line
    feed, vertical tab, form feed, carriage return, the four separators 28
    to 31 and the space; *)
Definition is_space (c : ascii) : bool :=
  let n := nat_of_ascii c in
  ((9 <=? n) && (n <=? 13)) || ((28 <=? n) && (n <=? 32)).

(** on two bytes, U+0085 and U+00A0; *)
Definition is_space2 (c d : ascii) : bool :=
  let '(c, d) := (nat_of_ascii c, nat_of_ascii d) in
  (c =? 194) && ((d =? 133) || (d =? 160)).

(** on three bytes, U+1680, U+2000 to U+200A, U+2028, U+2029, U+202F,
    U+205F and U+3000. *)
Definition is_space3 (c d e : ascii) : bool :=
  let '(c, d, e) := (nat_of_ascii c, nat_of_ascii d, nat_of_ascii e) in
  ((c =? 225) && (d =? 154) && (e =? 128)) ||
  ((c =? 226) && (d =? 128) &&
   (((128 <=? e) && (e <=? 138)) || (e =? 168) || (e =? 169) || (e =? 175))) ||
  ((c =? 226) && (d =? 129) && (e =? 159)) ||
  ((c =? 227) && (d =? 128) && (e =? 128)).

Fixpoint lstrip (s : string) : string :=
  match s with
  | EmptyString => EmptyString
  | String c s1 =>
      if is_space c then lstrip s1
      else
        match s1 with
        | EmptyString => s
        | String d s2 =>
            if is_space2 c d then lstrip s2
            else
              match s2 with
              | EmptyString => s
              | String e s3 => if is_space3 c d e then lstrip s3 else s
              end
        end
  end.

(** [s] read from its end, put before [acc]. *)
Fixpoint reversed_onto (s acc : string) : string :=
  match s with
  | EmptyString => acc
  | String c s' => reversed_onto s' (String c acc)
  end.

Definition reversed (s : string) : string := reversed_onto s EmptyString.

(** [lstrip] on a text read from its end: the bytes of a character come
    last byte first. *)
Fixpoint lstrip_reversed (s : string) : string :=
  match s with
  | EmptyString => EmptyString
  | String c s1 =>
      if is_space c then lstrip_reversed s1
      else
        match s1 with
        | EmptyString => s
        | String d s2 =>
            if is_space2 d c then lstrip_reversed s2
            else
              match s2 with
              | EmptyString => s
              | String e s3 =>
                  if is_space3 e d c then lstrip_reversed s3 else s
              end
        end
  end.

Definition rstrip (s : string) : string :=
  reversed (lstrip_reversed (reversed s)).

Definition strip (s : string) : string := rstrip (lstrip s).

End Py.
Export Py.

(** ** The waveform pipeline: the arithmetic of [Recorder._send_waveform] *)

Module Waveform.
Open Scope R_scope.

Definition WAVEFORM_BARS : nat := 24.
Definition WAVEFORM_INTERVAL_S : R := 0.033.
Definition PEAK_WINDOW_SIZE : nat := 90.

(** One frame of a driver block: the sample of channel 0 and the samples of
    the remaining channels. *)
Definition frame : Type := R * list R.

(** One block handed to the capture callback ([indata]). *)
Definition chunk : Type := list frame.

(** [np.concatenate(chunks, axis=0)]. *)
Definition concatenate (cs : list chunk) : list frame := concat cs.

(** [audio[:, 0]]. *)
Definition first_channel (audio : list frame) : list R := map fst audio.

(** [np.abs] on a one-dimensional array. *)
Definition np_abs (audio : list R) : list R := map Rabs audio.

(** [audio[start:end]] for [start <= end]. *)
Definition slice (audio : list R) (start stop : nat) : list R :=
  firstn (stop - start) (skipn start audio).

Definition total (l : list R) : R := fold_right Rplus 0 l.

(** [np.mean]. *)
Definition mean (l : list R) : R := total l / INR (length l).

(** [float(np.sqrt(np.mean(chunk ** 2)))]. *)
Definition rms (l : list R) : R := sqrt (mean (map (fun x => x * x) l)).

(** [len(audio) // WAVEFORM_BARS], raised to 1. *)
Definition samples_per_bar (n : nat) : nat :=
  let spb := (n / WAVEFORM_BARS)%nat in
  if (spb <? 1)%nat then 1%nat else spb.

(** [start] and [end] of the loop body for index [i], [end] clamped to the
    length [n] of the array. *)
Definition bounds (n spb i : nat) : nat * nat :=
  let start := (i * spb)%nat in
  let stop := (start + spb)%nat in
  (start, if (n <? stop)%nat then n else stop).

(** The body of [for i in range(WAVEFORM_BARS)] for one [i]: the value
    appended to [raw_values]. *)
Definition bar (audio : list R) (spb i : nat) : R :=
  let '(start, stop) := bounds (length audio) spb i in
  if (start <? length audio)%nat then rms (slice audio start stop) else 0.

(** The loop itself: [todo] iterations are left, the next index is [i],
    [raw_values] is the list built so far. *)
Fixpoint bars_loop (audio : list R) (spb todo i : nat) (raw_values : list R)
  : list R :=
  match todo with
  | O => raw_values
  | S todo' => bars_loop audio spb todo' (S i) (raw_values ++ [bar audio spb i])
  end.

Definition raw_values (audio : list R) : list R :=
  bars_loop audio (samples_per_bar (length audio)) WAVEFORM_BARS 0 [].

(** [max(raw_values) if raw_values else 0]. *)
Definition py_max (l : list R) : R :=
  match l with
  | [] => 0
  | x :: l' => fold_left Rmax l' x
  end.

(** [self._peak_history.append(current_max)], then [pop(0)] when the window
    is exceeded. *)
Definition push_history (history : list R) (current_max : R) : list R :=
  let h := history ++ [current_max] in
  if (PEAK_WINDOW_SIZE <? length h)%nat then tl h else h.

Fixpoint insert_sorted (x : R) (l : list R) : list R :=
  match l with
  | [] => [x]
  | y :: l' => if Rle_dec x y then x :: l else y :: insert_sorted x l'
  end.

Definition sort (l : list R) : list R := fold_right insert_sorted [] l.

(** [np.percentile(a, 85)], linear interpolation: the virtual index is
    [85 * (n - 1) / 100]; its integer part selects the lower neighbour in the
    sorted array and its fractional part weighs the step to the upper one. *)
Definition percentile85 (a : list R) : R :=
  let s := sort a in
  let k := (85 * (length s - 1))%nat in
  let lo := nth (k / 100) s 0 in
  let hi := nth (S (k / 100)) s lo in
  lo + (hi - lo) * (INR (k mod 100) / 100).

(** [max(target_peak, 0.005)]. *)
Definition target_peak (history : list R) : R := Rmax (percentile85 history) 0.005.

(** [self._peak_level * 0.8 + target_peak * 0.2]. *)
Definition smooth (peak_level target : R) : R := peak_level * 0.8 + target * 0.2.

(** [[min(1.0, v / self._peak_level * 0.85) for v in raw_values]]. *)
Definition normalize (peak_level : R) (raw : list R) : list R :=
  map (fun v => Rmin 1 (v / peak_level * 0.85)) raw.

End Waveform.

(** ** What the worker writes *)

Module Wire.

(** A line of the worker's output stream ([_write_json]). The request id is
    echoed as it was decoded ([JNull] when the request had none). *)
Inductive reply :=
| Ready
| Started (id : json)
| Stopped (id : json) (wav_path : json) (frames : nat) (peak : R)
| Canceled (id : json)
| ShutdownAck
| Error (id : json) (error : string)
| WaveformEvent (values : list R) (raw_peak : R).

(** An entry of the error-stream log ([_log]); the entry records what is
    logged, not the text it is formatted to. *)
Inductive log_entry :=
| LogStatus (status : string)
| LogTraceback (e : exn)
| LogNonJson (line : string)
| LogUnknownType (msg_type : json).

Inductive effect :=
| Write (m : reply)
| Log (l : log_entry).

(** The texts of the strings of a decoded value, keys included. *)
Fixpoint json_texts (v : json) : list string :=
  match v with
  | JStr s => [s]
  | JArr items =>
      (fix of_items (l : list json) : list string :=
         match l with
         | [] => []
         | x :: l' => json_texts x ++ of_items l'
         end) items
  | JObj fields =>
      (fix of_fields (l : list (string * json)) : list string :=
         match l with
         | [] => []
         | (k, x) :: l' => k :: json_texts x ++ of_fields l'
         end) fields
  | _ => []
  end.

(** The texts a line of the output stream carries besides its keys, its
    type and its numbers, which are ASCII. *)
Definition reply_texts (m : reply) : list string :=
  match m with
  | Started id | Canceled id => json_texts id
  | Stopped id wav_path _ _ => json_texts id ++ json_texts wav_path
  | Error id error => json_texts id ++ [error]
  | Ready | ShutdownAck | WaveformEvent _ _ => []
  end.

(** Whether the output stream can take a line: [json.dumps] leaves the
    characters of the strings as they are ([ensure_ascii=False]), and
    writing raises when the encoder of the stream rejects one of them. *)
Definition writable (stdout_encodes : string -> bool) (m : reply) : bool :=
  forallb stdout_encodes (reply_texts m).

(** Whether the output stream can take a value of a request. *)
Definition encodable (stdout_encodes : string -> bool) (v : json) : bool :=
  forallb stdout_encodes (json_texts v).

End Wire.
Export Wire.

(** ** The recorder *)

Module Recorder.
Import Waveform.

(** An entry of [sd.query_devices()]. *)
Record device := { name : string; max_input_channels : Z }.

(** The audio driver as the recorder sees it: the devices it lists, and
    whether opening and starting an input stream raises. *)
Record driver := {
  query_devices : list device;
  open_stream : option nat -> Z -> Z -> option exn
}.

(** An open [sd.InputStream]. *)
Record stream := {
  stream_device : option nat;
  samplerate : Z;
  stream_channels : Z
}.

(** A written PCM container: its rate and its frames of 16-bit samples. *)
Record wav := { rate : Z; data : list (list Z) }.

(** The fields of a [Recorder]. *)
Record t := {
  _recording : bool;
  _stream : option stream;
  _chunks : list chunk;
  _sample_rate : option Z;
  _channels : option Z;
  _last_waveform_time : R;
  _waveform_buffer : list chunk;
  _peak_level : R;
  _peak_history : list R
}.

Definition __init__ : t := {|
  _recording := false;
  _stream := None;
  _chunks := [];
  _sample_rate := None;
  _channels := None;
  _last_waveform_time := 0%R;
  _waveform_buffer := [];
  _peak_level := 0.01%R;
  _peak_history := []
|}.

Section Methods.

(** [str(v)] for a decoded value that is not a string. *)
Variable py_str : json -> string.

(** The cast of [astype(np.int16)] on one sample. *)
Variable astype_int16 : R -> Z.

Definition str (v : json) : string :=
  match v with
  | JStr s => s
  | _ => py_str v
  end.

Definition AlreadyRecording : exn := RuntimeError "Already recording".

Definition DeviceNotFound (device_name : json) : exn :=
  RuntimeError ("Audio device '" +:+ str device_name +:+ "' not found").

(** The loop of [_resolve_device] from index [i] on. *)
Fixpoint resolve_from (devs : list device) (device_name : json) (i : nat)
  : option nat :=
  match devs with
  | [] => None
  | dev :: devs' =>
      if (0 <? max_input_channels dev)%Z && eq_str device_name (name dev)
      then Some i
      else resolve_from devs' device_name (S i)
  end.

Definition _resolve_device (device_name : json) (sd : driver) : option nat :=
  resolve_from (query_devices sd) device_name 0.

(** [Recorder.start]; [now] is the value of [time.time()]. *)
Definition start (sd : driver) (now : R) (self : t)
  (device_name : json) (sample_rate channels : Z) : t * result unit :=
  if _recording self then (self, Raise AlreadyRecording)
  else
    let resolved :=
      if truthy device_name then
        match _resolve_device device_name sd with
        | Some i => Ok (Some i)
        | None => Raise (DeviceNotFound device_name)
        end
      else Ok None in
    match resolved with
    | Raise e => (self, Raise e)
    | Ok device_index =>
        let armed (s : option stream) := {|
          _recording := true;
          _stream := s;
          _chunks := [];
          _sample_rate := Some sample_rate;
          _channels := Some channels;
          _last_waveform_time := now;
          _waveform_buffer := [];
          _peak_level := 0.01%R;
          _peak_history := []
        |} in
        match open_stream sd device_index sample_rate channels with
        | Some e => (armed (_stream self), Raise e)
        | None =>
            (armed (Some {| stream_device := device_index;
                            samplerate := sample_rate;
                            stream_channels := channels |}), Ok tt)
        end
    end.

(** [Recorder._send_waveform]. *)
Definition _send_waveform (self : t) : t * list effect :=
  match _waveform_buffer self with
  | [] => (self, [])
  | _ =>
      let audio := np_abs (first_channel (concatenate (_waveform_buffer self))) in
      let raw := raw_values audio in
      let current_max := py_max raw in
      let history := push_history (_peak_history self) current_max in
      let peak_level := smooth (_peak_level self) (target_peak history) in
      ({| _recording := _recording self;
          _stream := _stream self;
          _chunks := _chunks self;
          _sample_rate := _sample_rate self;
          _channels := _channels self;
          _last_waveform_time := _last_waveform_time self;
          _waveform_buffer := [];
          _peak_level := peak_level;
          _peak_history := history |},
       [Write (WaveformEvent (normalize peak_level raw) current_max)])
  end.

(** The capture callback registered by [start]; [status] is the text of the
    driver's status flags when one is set, [now] the value of [time.time()]. *)
Definition callback (self : t) (indata : chunk) (status : option string)
  (now : R) : t * list effect :=
  let logged :=
    match status with
    | Some flags => [Log (LogStatus flags)]
    | None => []
    end in
  if _recording self then
    let fed := {|
      _recording := _recording self;
      _stream := _stream self;
      _chunks := _chunks self ++ [indata];
      _sample_rate := _sample_rate self;
      _channels := _channels self;
      _last_waveform_time := _last_waveform_time self;
      _waveform_buffer := _waveform_buffer self ++ [indata];
      _peak_level := _peak_level self;
      _peak_history := _peak_history self
    |} in
    if Rge_dec (now - _last_waveform_time self) WAVEFORM_INTERVAL_S then
      let '(self', written) :=
        _send_waveform {|
          _recording := _recording fed;
          _stream := _stream fed;
          _chunks := _chunks fed;
          _sample_rate := _sample_rate fed;
          _channels := _channels fed;
          _last_waveform_time := now;
          _waveform_buffer := _waveform_buffer fed;
          _peak_level := _peak_level fed;
          _peak_history := _peak_history fed
        |} in
      (self', logged ++ written)
    else (fed, logged)
  else (self, logged).

(** All the samples of an array of frames, channel by channel within a
    frame. *)
Definition samples (audio : list frame) : list R :=
  concat (map (fun f => fst f :: snd f) audio).

(** [np.max] over a flattened array: it raises on an array of size 0. *)
Definition np_max (l : list R) : result R :=
  match l with
  | [] =>
      Raise (ValueError
        "zero-size array to reduction operation maximum which has no identity")
  | x :: l' => Ok (fold_left Rmax l' x)
  end.

(** [(audio * 32767).astype(np.int16)]. *)
Definition to_int16 (audio : list frame) : list (list Z) :=
  map (fun f => map (fun x => astype_int16 (x * 32767)%R) (fst f :: snd f)) audio.

(** [int(self._sample_rate or 16000)]. *)
Definition container_rate (self : t) : Z :=
  match _sample_rate self with
  | Some r => if (r =? 0)%Z then 16000%Z else r
  | None => 16000%Z
  end.

(** [Recorder.stop]; [files] maps a path to the container written there. *)
Definition stop (self : t) (files : gmap string wav) (wav_path : string)
  : t * gmap string wav * result (nat * R) :=
  if negb (_recording self) then (self, files, Ok (0%nat, 0%R))
  else
    let chunks := _chunks self in
    let self' := {|
      _recording := false;
      _stream := None;
      _chunks := [];
      _sample_rate := _sample_rate self;
      _channels := _channels self;
      _last_waveform_time := _last_waveform_time self;
      _waveform_buffer := _waveform_buffer self;
      _peak_level := _peak_level self;
      _peak_history := _peak_history self
    |} in
    match chunks with
    | [] => (self', files, Ok (0%nat, 0%R))
    | _ =>
        let audio := concatenate chunks in
        let frames := length audio in
        match np_max (map Rabs (samples audio)) with
        | Raise e => (self', files, Raise e)
        | Ok peak =>
            (self',
             <[wav_path := {| rate := container_rate self;
                              data := to_int16 audio |}]> files,
             Ok (frames, peak))
        end
    end.

(** [Recorder.cancel]. *)
Definition cancel (self : t) : t := {|
  _recording := false;
  _stream := None;
  _chunks := [];
  _sample_rate := _sample_rate self;
  _channels := _channels self;
  _last_waveform_time := _last_waveform_time self;
  _waveform_buffer := _waveform_buffer self;
  _peak_level := _peak_level self;
  _peak_history := _peak_history self
|}.

(** [Recorder.shutdown]. *)
Definition shutdown (self : t) : t := cancel self.

(** The states a recorder goes through: from [__init__] by the methods the
    protocol loop calls and by the capture callback. *)
Inductive reachable : t -> Prop :=
| reach_init : reachable __init__
| reach_start sd now self device_name sample_rate channels :
    reachable self ->
    reachable (fst (start sd now self device_name sample_rate channels))
| reach_callback self indata status now :
    reachable self ->
    reachable (fst (callback self indata status now))
| reach_stop self files wav_path :
    reachable self ->
    reachable (fst (fst (stop self files wav_path)))
| reach_cancel self :
    reachable self ->
    reachable (cancel self).

End Methods.
End Recorder.

(** ** The protocol loop of the worker: [main] *)

Module Worker.
Import Recorder.

(** The worker process: its recorder and the files it has written. *)
Record state := { recorder : Recorder.t; files : gmap string wav }.

(** What one turn of [for line in sys.stdin] ends with: the next line is
    read, [main] returns, or an exception leaves the loop. *)
Inductive control :=
| Continue
| Return (code : Z)
| Uncaught (e : exn).

(** What the loop consumes: a line of the input stream, read at time [now],
    or a block the driver hands to the capture callback. *)
Inductive input :=
| StdinLine (now : R) (line : string)
| DriverBlock (indata : Waveform.chunk) (status : option string) (now : R).

Definition type_name (v : json) : string :=
  match v with
  | JNull => "NoneType"
  | JBool _ => "bool"
  | JInt _ => "int"
  | JFloat _ => "float"
  | JStr _ => "str"
  | JArr _ => "list"
  | JObj _ => "dict"
  end.

Section Main.

(** [json.loads]: [None] when it raises. *)
Variable json_loads : string -> option json.

(** [int(s)] on a string. *)
Variable int_of_str : string -> result Z.

Variable py_str : json -> string.
Variable astype_int16 : R -> Z.
Variable sd : driver.

(** Whether the encoder of the output stream accepts a text, and the text
    of the [UnicodeEncodeError] it raises on a line it rejects. The error
    stream escapes what it cannot encode, so [_log] does not raise. *)
Variable stdout_encodes : string -> bool.
Variable encode_error : reply -> string.

(** [_write_json]: the line is written whole, or not at all when a text of
    it cannot be encoded. *)
Definition _write_json (m : reply) : result unit :=
  if writable stdout_encodes m then Ok tt
  else Raise (UnicodeEncodeError (encode_error m)).

(** [_write_json(m)] followed by [continue]. *)
Definition respond (st : state) (m : reply)
  : state * list effect * result (option Z) :=
  match _write_json m with
  | Ok _ => (st, [Write m], Ok None)
  | Raise e => (st, [], Raise e)
  end.

(** [int(v)] on a decoded value. *)
Definition py_int (v : json) : result Z :=
  match v with
  | JInt z => Ok z
  | JBool b => Ok (if b then 1 else 0)%Z
  | JFloat (PFin q) => Ok (Z.quot (Qnum q) (Zpos (Qden q)))
  | JFloat PNaN => Raise (ValueError "cannot convert float NaN to integer")
  | JFloat _ => Raise (OverflowError "cannot convert float infinity to integer")
  | JStr s => int_of_str s
  | _ =>
      Raise (TypeError
        ("int() argument must be a string, a bytes-like object or a real number, not '"
         +:+ type_name v +:+ "'"))
  end.

(** [int(v or default)]. *)
Definition int_or (v : json) (default : Z) : result Z :=
  py_int (if truthy v then v else JInt default).

(** The body of the second [try] of the loop, for a decoded object:
    [Ok (Some code)] when it returns from [main], [Ok None] when it reaches
    [continue] or the end of the body, [Raise e] when it raises. The line
    of [shutdown_ack] carries no text of the request. *)
Definition dispatch (now : R) (st : state) (message : list (string * json))
  : state * list effect * result (option Z) :=
  let msg_type := dict_get message "type" in
  let req_id := dict_get message "id" in
  if eq_str msg_type "shutdown" then
    ({| recorder := shutdown (recorder st); files := files st |},
     [Write ShutdownAck], Ok (Some 0%Z))
  else if eq_str msg_type "start" then
    match int_or (dict_get message "sample_rate") 16000 with
    | Raise e => (st, [], Raise e)
    | Ok sample_rate =>
        match int_or (dict_get message "channels") 1 with
        | Raise e => (st, [], Raise e)
        | Ok channels =>
            let '(r, outcome) :=
              start py_str sd now (recorder st)
                (dict_get message "device_name") sample_rate channels in
            let st' := {| recorder := r; files := files st |} in
            match outcome with
            | Raise e => (st', [], Raise e)
            | Ok _ => respond st' (Started req_id)
            end
        end
    end
  else if eq_str msg_type "stop" then
    let wav_path := dict_get message "wav_path" in
    if negb (truthy wav_path) then (st, [], Raise (ValueError "Missing wav_path"))
    else
      let '(r, fs, outcome) :=
        stop astype_int16 (recorder st) (files st) (str py_str wav_path) in
      let st' := {| recorder := r; files := fs |} in
      match outcome with
      | Raise e => (st', [], Raise e)
      | Ok (frames, peak) => respond st' (Stopped req_id wav_path frames peak)
      end
  else if eq_str msg_type "cancel" then
    respond {| recorder := cancel (recorder st); files := files st |}
      (Canceled req_id)
  else (st, [Log (LogUnknownType msg_type)], Ok None).

(** One turn of the loop on one line of the input stream. The handler of
    the second [try] logs the traceback and writes the error line; when that
    line cannot be written either, its exception leaves the loop. *)
Definition main_step (now : R) (st : state) (line : string)
  : state * list effect * control :=
  let line := strip line in
  if String.eqb line "" then (st, [], Continue)
  else
    match json_loads line with
    | None => (st, [Log (LogNonJson line)], Continue)
    | Some (JObj message) =>
        let '(st', written, outcome) := dispatch now st message in
        match outcome with
        | Ok (Some code) => (st', written, Return code)
        | Ok None => (st', written, Continue)
        | Raise e =>
            let failure := Error (dict_get message "id") (str_exn e) in
            match _write_json failure with
            | Ok _ =>
                (st', written ++ [Log (LogTraceback e); Write failure],
                 Continue)
            | Raise e' => (st', written ++ [Log (LogTraceback e)], Uncaught e')
            end
        end
    | Some v =>
        (st, [],
         Uncaught (AttributeError
           ("'" +:+ type_name v +:+ "' object has no attribute 'get'")))
    end.

(** The loop, with the capture callback running between its turns; the
    input stream ending makes [main] return 0. *)
Fixpoint main_loop (st : state) (inputs : list input)
  : state * list effect * control :=
  match inputs with
  | [] => (st, [], Return 0%Z)
  | DriverBlock indata status now :: inputs' =>
      let '(r, written) := callback (recorder st) indata status now in
      let '(st', written', c) :=
        main_loop {| recorder := r; files := files st |} inputs' in
      (st', written ++ written', c)
  | StdinLine now line :: inputs' =>
      match main_step now st line with
      | (st', written, Continue) =>
          let '(st'', written', c) := main_loop st' inputs' in
          (st'', written ++ written', c)
      | stopped => stopped
      end
  end.

(** [main]: a fresh recorder, the [ready] line, then the loop. *)
Definition main (fs : gmap string wav) (inputs : list input)
  : state * list effect * control :=
  let '(st, written, c) :=
    main_loop {| recorder := __init__; files := fs |} inputs in
  (st, Write Ready :: written, c).

End Main.
End Worker.

(** ** The client: the reader task and the response wait *)

Module Client.

(** A message of the inbound queue: a decoded object. *)
Definition message : Type := list (string * json).

(** The sentinel the reader puts when the output stream of the worker
    closes. *)
Definition eof : message := [("type", JStr "eof")].

(** The message the reader puts for a line that does not decode. *)
Definition stdout_message (line : string) : message :=
  [("type", JStr "stdout"); ("line", JStr line)].

(** The response [_wait_for_locked] makes up for the sentinel. *)
Definition worker_exited : message :=
  [("type", JStr "error"); ("error", JStr "Audio worker exited unexpectedly")].

(** The reader task while it runs: the inbound queue, oldest first, and the
    waveform messages it takes to the registered callback (the call and the
    conversion of its arguments sit in a [try] that swallows what they
    raise). *)
Record reader := { queue : list message; handed : list message }.

Section Reader.

Variable json_loads : string -> option json.

(** Whether a waveform callback is registered. *)
Variable cb : bool.

(** On a text [json.loads] raises on: [None] when what it raises is a
    [json.JSONDecodeError], the exception otherwise (a [RecursionError]
    on brackets nested too deep, a plain [ValueError] on a number of too
    many digits). *)
Variable loads_error : string -> option exn.

(** The body of [for line in proc.stdout] of [_read_stdout]: the reader
    after the line, or the exception that ends the task. The handler
    catches [json.JSONDecodeError] only. *)
Definition read_line (rd : reader) (line : string) : result reader :=
  let line := strip line in
  if String.eqb line "" then Ok rd
  else
    match json_loads line with
    | None =>
        match loads_error line with
        | None =>
            Ok {| queue := queue rd ++ [stdout_message line];
                  handed := handed rd |}
        | Some e => Raise e
        end
    | Some (JObj msg) =>
        if eq_str (dict_get msg "type") "waveform" then
          Ok {| queue := queue rd;
                handed := if cb then handed rd ++ [msg] else handed rd |}
        else Ok {| queue := queue rd ++ [msg]; handed := handed rd |}
    | Some v =>
        Raise (AttributeError
          ("'" +:+ Worker.type_name v +:+ "' object has no attribute 'get'"))
    end.

(** [_read_stdout] on the lines the worker writes until its output stream
    closes: the sentinel is put when the loop ends, not when it raises. *)
Fixpoint _read_stdout (rd : reader) (lines : list string) : reader * option exn :=
  match lines with
  | [] => ({| queue := queue rd ++ [eof]; handed := handed rd |}, None)
  | line :: lines' =>
      match read_line rd line with
      | Ok rd' => _read_stdout rd' lines'
      | Raise e => (rd, Some e)
      end
  end.

(** What a line adds to the queue when the reader gets past it: nothing
    when it is blank or decodes to a waveform message, the object it
    decodes to, or the [stdout] message of its text. *)
Definition queued (line : string) : list message :=
  let line := strip line in
  if String.eqb line "" then []
  else
    match json_loads line with
    | None => [stdout_message line]
    | Some (JObj msg) =>
        if eq_str (dict_get msg "type") "waveform" then [] else [msg]
    | Some _ => []
    end.

(** The waveform message of a line, if it decodes to one. *)
Definition waveform_of (line : string) : list message :=
  let line := strip line in
  if String.eqb line "" then []
  else
    match json_loads line with
    | Some (JObj msg) =>
        if eq_str (dict_get msg "type") "waveform" then [msg] else []
    | _ => []
    end.

End Reader.

(** [m.get("type") in names and m.get("id") == req_id]. *)
Definition terminal (names : list string) (req_id : Z) (m : message)
  : result bool :=
  match in_str_set (dict_get m "type") names with
  | Raise e => Raise e
  | Ok false => Ok false
  | Ok true => Ok (eq_int (dict_get m "id") req_id)
  end.

(** The predicates the commands wait with. *)
Definition start_recording_predicate := terminal ["started"; "error"].
Definition stop_recording_predicate := terminal ["stopped"; "error"].
Definition cancel_recording_predicate := terminal ["canceled"; "error"].

(** The predicate of the readiness handshake. *)
Definition ready_predicate (m : message) : result bool :=
  in_str_set (dict_get m "type") ["ready"; "error"].

(** What one turn of the loop of [_wait_for_locked] meets: the deadline has
    passed or the queue stayed empty until it, or a message is dequeued.
    Every caller passes a positive timeout, so a turn never blocks
    forever. *)
Inductive poll :=
| Expired
| Dequeued (m : message).

(** [_wait_for_locked]: the result, and the turns it has not used. A list
    of turns that runs out is a queue that stays empty to the deadline. *)
Fixpoint _wait_for_locked (predicate : message -> result bool)
  (polls : list poll) : result (option message) * list poll :=
  match polls with
  | [] => (Ok None, [])
  | Expired :: polls' => (Ok None, polls')
  | Dequeued m :: polls' =>
      if eq_str (dict_get m "type") "eof" then (Ok (Some worker_exited), polls')
      else
        match predicate m with
        | Raise e => (Raise e, polls')
        | Ok true => (Ok (Some m), polls')
        | Ok false => _wait_for_locked predicate polls'
        end
  end.

End Client.

(** ** The partition of the waveform pipeline as the specification words it *)

Module SpecWords.
Import Waveform.
Open Scope R_scope.

(** [segment_length = total_samples / 24], minimum 1. *)
Definition segment_length (total_samples : nat) : nat :=
  Nat.max (total_samples / 24) 1.

(** Segment [i] of 24 contiguous segments of [segment_length] samples, the
    trailing remainder folded into the last one; a segment beyond the sample
    count is empty. *)
Definition segment (audio : list R) (i : nat) : list R :=
  let len := segment_length (length audio) in
  if (i =? 23)%nat then skipn (i * len) audio
  else firstn len (skipn (i * len) audio).

(** The raw value of a bar: the RMS of its segment, 0 for a segment with no
    samples. *)
Definition bar_value (audio : list R) (i : nat) : R :=
  match segment audio i with
  | [] => 0
  | seg => rms seg
  end.

Definition raw_values (audio : list R) : list R :=
  map (bar_value audio) (seq 0 24).

End SpecWords.

(** ** Notions the statements use, and concrete worlds to run the code in *)

Module Scenario.
Import Waveform Recorder.

(** What the specification promises of a line of the output stream: a
    waveform event carries 24 values, each in the closed interval from 0 to
    1; nothing is asked of the other lines. *)
Definition waveform_in_range (e : effect) : Prop :=
  match e with
  | Write (WaveformEvent values _) =>
      length values = 24%nat /\ Forall (fun v => (0 <= v <= 1)%R) values
  | _ => True
  end.

(** [peak] is the largest absolute value among [l]. *)
Definition max_abs (peak : R) (l : list R) : Prop :=
  In peak (map Rabs l) /\ Forall (fun x => (Rabs x <= peak)%R) l.

(** A block as the driver hands it to the callback, with the status flags
    and the time of the call. *)
Definition block : Type := chunk * option string * R.

Definition block_data (b : block) : chunk := fst (fst b).

(** The capture callback called on each block in turn. *)
Fixpoint feed (self : Recorder.t) (blocks : list block) : Recorder.t :=
  match blocks with
  | [] => self
  | (indata, status, now) :: blocks' =>
      feed (fst (callback self indata status now)) blocks'
  end.

(** A device name matches no input-capable device. *)
Definition no_input_device (sd : driver) (device_name : string) : Prop :=
  Forall (fun dev => ~ ((0 < max_input_channels dev)%Z /\ name dev = device_name))
    (query_devices sd).

(** A driver with one microphone and one output-only device, on which every
    stream opens. *)
Definition desk : driver := {|
  query_devices :=
    [ {| name := "Built-in Microphone"; max_input_channels := 2 |};
      {| name := "Speakers"; max_input_channels := 0 |} ];
  open_stream := fun _ _ _ => None
|}.

(** The cast to a 16-bit integer of a sample in range: the fraction is
    dropped. *)
Definition truncate (x : R) : Z :=
  if Rle_dec 0 x then Int_part x else (- Int_part (- x))%Z.

(** A stand-in for [str()] where the text it gives is not looked at. *)
Definition type_text (v : json) : string := Worker.type_name v.

(** A decoder that knows the lines of a table and rejects every other
    text. *)
Fixpoint decode (table : list (string * json)) (line : string) : option json :=
  match table with
  | [] => None
  | (text, v) :: table' =>
      if String.eqb text line then Some v else decode table' line
  end.

(** A decoder that raises nothing but [json.JSONDecodeError]. *)
Definition decode_errors_only (line : string) : option exn := None.

(** An opening bracket and a number of 5000 digits, on which [json.loads]
    raises the [ValueError] of the limit on the digits of an integer. *)
Fixpoint ones (n : nat) : string :=
  match n with
  | O => EmptyString
  | S n' => String "1" (ones n')
  end.

Definition long_number : string := String "[" (ones 5000).

Definition digits_limit (line : string) : option exn :=
  if String.eqb line long_number then
    Some (ValueError
      ("Exceeds the limit (4300 digits) for integer string conversion: " +:+
       "value has 5000 digits; use sys.set_int_max_str_digits() " +:+
       "to increase the limit"))
  else None.

(** A stand-in for [int()] on a string where no string is converted. *)
Definition no_int (s : string) : result Z :=
  Raise (ValueError ("invalid literal for int() with base 10: " +:+ s)).

(** The encoder of an output stream that is strict UTF-8: it rejects a
    surrogate, whose bytes start with 237 and a byte from 160 on. *)
Fixpoint utf8_strict (s : string) : bool :=
  match s with
  | EmptyString => true
  | String c s' =>
      match s' with
      | EmptyString => true
      | String d _ =>
          negb ((nat_of_ascii c =? 237) && (160 <=? nat_of_ascii d)) &&
          utf8_strict s'
      end
  end.

(** A stand-in for the text of the [UnicodeEncodeError] of a line. *)
Definition encode_text (m : reply) : string :=
  "'utf-8' codec can't encode character: surrogates not allowed".

(** U+D800, a surrogate without its pair, and U+00A0, the no-break
    space. *)
Definition lone_surrogate : string :=
  String (ascii_of_nat 237)
    (String (ascii_of_nat 160) (String (ascii_of_nat 128) EmptyString)).

Definition no_break_space : string :=
  String (ascii_of_nat 194) (String (ascii_of_nat 160) EmptyString).

(** A recorder in the middle of a session: started on the default device,
    one block of two frames captured. *)
Definition in_session : Recorder.t :=
  feed (fst (start type_text desk 0 __init__ JNull 16000 1))
    [([(0.5%R, []); ((-0.25)%R, [])], None, 0%R)].

(** The message types the loop knows. *)
Definition recognized (msg_type : json) : bool :=
  existsb (eq_str msg_type) ["shutdown"; "start"; "stop"; "cancel"].

(** The field [k] of a request is missing, null or zero. *)
Definition defaulted (message : list (string * json)) (k : string) : Prop :=
  match lookup_field message k with
  | None | Some JNull => True
  | Some (JInt z) => z = 0%Z
  | Some (JFloat (PFin q)) => Qeq_bool q 0 = true
  | _ => False
  end.

(** A worker that has just started. *)
Definition fresh : Worker.state :=
  {| Worker.recorder := __init__; Worker.files := ∅ |}.

(** A start request without a rate, and with a null channel count. *)
Definition bare_start : list (string * json) :=
  [("type", JStr "start"); ("id", JInt 1); ("device_name", JNull);
   ("channels", JNull)].

End Scenario.

(** ** Reading what the worker wrote *)

Module Transcript.
Import Recorder.

(** The lines of the output stream among what was written, in order. *)
Fixpoint writes (written : list effect) : list reply :=
  match written with
  | [] => []
  | Write m :: written' => m :: writes written'
  | Log _ :: written' => writes written'
  end.

(** The request id a line of the output stream carries. *)
Definition reply_id (m : reply) : option json :=
  match m with
  | Started id | Stopped id _ _ _ | Canceled id | Error id _ => Some id
  | Ready | ShutdownAck | WaveformEvent _ _ => None
  end.

(** [m] is a terminal response to a request of type [msg_type]: the
    response of that type, or an error. *)
Definition answers (msg_type : string) (m : reply) : bool :=
  match m with
  | Started _ => String.eqb msg_type "start"
  | Stopped _ _ _ _ => String.eqb msg_type "stop"
  | Canceled _ => String.eqb msg_type "cancel"
  | Error _ _ => true
  | Ready | ShutdownAck | WaveformEvent _ _ => false
  end.

(** The line is a stop request for the given decoder. *)
Definition is_stop_request (json_loads : string -> option json) (line : string)
  : bool :=
  match json_loads (strip line) with
  | Some (JObj message) =>
      negb (String.eqb (strip line) "") &&
      eq_str (dict_get message "type") "stop"
  | _ => false
  end.

(** The device index [start] opens the stream on. *)
Definition device_index (sd : driver) (device_name : json) : option nat :=
  if truthy device_name then _resolve_device device_name sd else None.

(** The input is not a stop request. *)
Definition not_a_stop_request (json_loads : string -> option json)
  (i : Worker.input) : Prop :=
  match i with
  | Worker.StdinLine _ line => is_stop_request json_loads line = false
  | Worker.DriverBlock _ _ _ => True
  end.

(** The responses among the lines of the output stream: every line but the
    waveform events. *)
Fixpoint responses (ms : list reply) : list reply :=
  match ms with
  | [] => []
  | WaveformEvent _ _ :: ms' => responses ms'
  | m :: ms' => m :: responses ms'
  end.

(** A block of the driver as an input of the worker. *)
Definition block_input (b : Scenario.block) : Worker.input :=
  let '(indata, status, now) := b in Worker.DriverBlock indata status now.

(** The text of a JSON string without escapes. *)
Definition quoted (s : string) : string :=
  String (ascii_of_nat 34) s +:+ String (ascii_of_nat 34) EmptyString.

(** The text of a JSON object whose values are given as JSON texts. *)
Fixpoint members (fields : list (string * string)) : string :=
  match fields with
  | [] => ""
  | [(k, v)] => quoted k +:+ ": " +:+ v
  | (k, v) :: fields' => quoted k +:+ ": " +:+ v +:+ ", " +:+ members fields'
  end.

Definition object (fields : list (string * string)) : string :=
  "{" +:+ members fields +:+ "}".

Definition start_line : string :=
  object [("type", quoted "start"); ("id", "1")].
Definition stop_line : string :=
  object [("type", quoted "stop"); ("id", "2"); ("wav_path", quoted "take.wav")].
Definition bare_stop_line : string :=
  object [("type", quoted "stop"); ("id", "3")].
Definition cancel_line : string :=
  object [("type", quoted "cancel"); ("id", "4")].
Definition shutdown_line : string :=
  object [("type", quoted "shutdown")].

(** What [json.loads] gives on the lines of a short session. *)
Definition session_lines : list (string * json) :=
  [(start_line, JObj [("type", JStr "start"); ("id", JInt 1)]);
   (stop_line, JObj [("type", JStr "stop"); ("id", JInt 2);
                     ("wav_path", JStr "take.wav")]);
   (bare_stop_line, JObj [("type", JStr "stop"); ("id", JInt 3)]);
   (cancel_line, JObj [("type", JStr "cancel"); ("id", JInt 4)]);
   (shutdown_line, JObj [("type", JStr "shutdown")]);
   ("[1, 2]", JArr [JInt 1; JInt 2])].

(** A cancel request whose id is the escape of a lone surrogate, and what
    [json.loads] gives on it. *)
Definition surrogate_cancel_line : string :=
  object [("type", quoted "cancel"); ("id", quoted "\ud800")].

Definition surrogate_lines : list (string * json) :=
  [(surrogate_cancel_line,
    JObj [("type", JStr "cancel"); ("id", JStr Scenario.lone_surrogate)])].



(** A driver that lists the devices of [desk] and on which no stream
    opens. *)
Definition jammed : driver := {|
  query_devices := query_devices Scenario.desk;
  open_stream := fun _ _ _ =>
    Some (PortAudioError "Error opening InputStream: Device unavailable")
|}.

End Transcript.

(** ** The client: the supervisor of the worker and its commands

    The commands of [AudioWorkerClient] are read as functions of the fields
    they use and of a script of what they meet outside: the answers of
    [proc.poll()], the turns of a write and of a wait. Launching a process
    is taken to succeed; the locks are the write lock, whose acquisition is
    in the script, and the command lock, which every command holds from
    start to end and which is not modelled. *)

Module Supervisor.
Import Client.

(** What a method of the client raises: the built-in exceptions it raises
    itself, or an exception of [exn]. *)
Inductive raised :=
| TimeoutError (msg : string)
| FileNotFoundError (msg : string)
| AssertionError
| Exn (e : exn).

Inductive outcome (A : Type) :=
| Returns (a : A)
| Raises (e : raised).
Arguments Returns {A} a.
Arguments Raises {A} e.

(** What one turn of the loop of [_write_line] meets: the deadline has
    passed, [select] reports the pipe not writable until the deadline,
    [os.write] returns a count, or one of the two raises (a
    [BrokenPipeError] when the worker has closed its end). *)
Inductive write_turn :=
| Late
| NotWritable
| Wrote (written : Z)
| Broke (e : exn).

(** The loop of [_write_line] on [len] bytes of which [total] are written:
    what it returns or raises, and the number of bytes the pipe has taken.
    A list of turns that runs out is a deadline that has passed. *)
Fixpoint write_loop (len total : Z) (turns : list write_turn)
  : outcome unit * Z :=
  if (len <=? total)%Z then (Returns (), total)
  else
    match turns with
    | [] | Late :: _ | NotWritable :: _ =>
        (Raises (TimeoutError "Timed out writing to audio worker stdin"), total)
    | Broke e :: _ => (Raises (Exn e), total)
    | Wrote written :: turns' =>
        if (written <=? 0)%Z then
          (Raises (Exn (RuntimeError "Failed to write to audio worker stdin")),
           total)
        else write_loop len (total + written) turns'
    end.

(** What [_stop_locked] does to a worker process. *)
Inductive action :=
| CloseStdin
| Wait (seconds : nat)
| Terminate
| CloseStdout
| Kill.

(** The places where [_stop_locked] asks [proc.poll()]. *)
Inductive poll_site :=
| BeforeWait
| BeforeTerminate
| BeforeKill
| InHandler.

(** A worker process as a teardown meets it: whether it is still alive at
    each poll, and whether [terminate] and [kill] raise. Closing a pipe may
    raise too, and [_stop_locked] passes over that on the spot, as it does
    over the timeout of [proc.wait]. *)
Record teardown := {
  alive : poll_site -> bool;
  terminate_raises : bool;
  kill_raises : bool
}.

(** The body of [_stop_locked] for a process: the actions it takes, in
    order. The second component of [body] tells whether the outer [try]
    was left by an exception. *)
Definition escalate (force : bool) (t : teardown) : list action :=
  let waited :=
    if negb force && alive t BeforeWait then [Wait 1] else [] in
  let '(terminated, failed) :=
    if alive t BeforeTerminate then
      if terminate_raises t then ([Terminate], true)
      else ([Terminate; CloseStdout; Wait 2], false)
    else ([], false) in
  let '(body, failed) :=
    if failed then (waited ++ terminated, true)
    else if alive t BeforeKill then
      if kill_raises t then (waited ++ terminated ++ [Kill], true)
      else (waited ++ terminated ++ [Kill; Wait 1], false)
    else (waited ++ terminated, false) in
  let handler :=
    if failed && alive t InHandler then [Kill] else [] in
  [CloseStdin] ++ body ++ handler ++ [CloseStdout].

(** A line the client writes to the worker. *)
Inductive request :=
| StartRequest (id : Z) (device_name : option string) (sample_rate channels : Z)
| StopRequest (id : Z) (wav_path : string)
| CancelRequest (id : Z).

Definition request_id (r : request) : Z :=
  match r with
  | StartRequest id _ _ _ | StopRequest id _ | CancelRequest id => id
  end.

(** What the client does to the outside, in order: a worker is launched, a
    worker is torn down, a whole line is written to a worker. Workers are
    numbered in the order of their launch. *)
Inductive event :=
| Launched (worker : nat)
| Torn (worker : nat) (force : bool) (actions : list action)
| Sent (worker : nat) (r : request).

(** The fields of an [AudioWorkerClient] the commands use, and the record
    of what it did. *)
Record t := {
  _proc : option nat;
  _next_id : Z;
  _cleanup_registered : bool;
  log : list event
}.

Definition __init__ : t :=
  {| _proc := None; _next_id := 1; _cleanup_registered := false; log := [] |}.

(** [_write_line] on a line of [len] bytes: the assertion that there is a
    process, then the loop. The process was opened with a pipe for its
    input, which the second assertion finds, and the line is ASCII
    ([json.dumps] escapes the rest), so its encoding does not raise. *)
Definition _write_line (self : t) (len : Z) (turns : list write_turn)
  : outcome unit * Z :=
  match _proc self with
  | None => (Raises AssertionError, 0%Z)
  | Some _ => write_loop len 0 turns
  end.

(** The requests written, in order. *)
Fixpoint sent (l : list event) : list request :=
  match l with
  | [] => []
  | Sent _ r :: l' => r :: sent l'
  | _ :: l' => sent l'
  end.

(** The workers launched, in order. *)
Fixpoint launched_workers (l : list event) : list nat :=
  match l with
  | [] => []
  | Launched w :: l' => w :: launched_workers l'
  | _ :: l' => launched_workers l'
  end.

(** The workers torn down, in order. *)
Fixpoint torn_workers (l : list event) : list nat :=
  match l with
  | [] => []
  | Torn w _ _ :: l' => w :: torn_workers l'
  | _ :: l' => torn_workers l'
  end.

(** The number of workers launched so far: the number of the next one. *)
Definition launches (l : list event) : nat := length (launched_workers l).

(** What a call of [_ensure_running_locked] meets: whether the current
    process is alive, whether the file of the worker exists, and the turns
    of the wait of each handshake. *)
Record ensure_script := {
  running : bool;
  worker_file : bool;
  handshake1 : list poll;
  handshake2 : list poll
}.

(** What the sending and waiting part of a command meets: whether the write
    lock is acquired in time, the turns of the write, the turns of the
    wait. *)
Record exchange := {
  lock : bool;
  turns : list write_turn;
  polls : list poll
}.

Record attempt := { ensure : ensure_script; talk : exchange }.

(** How a handshake ends: the worker is ready, the attempt failed and the
    worker was torn down, or the wait raised. *)
Inductive launched :=
| Done
| Failed (last_error : raised)
| Propagated (e : exn).

Section Commands.

Variable py_str : json -> string.
Variable int_of_str : string -> result Z.

(** [float(s)] on a string. *)
Variable float_of_str : string -> result pyfloat.

(** How each worker behaves when it is torn down. *)
Variable tear : nat -> teardown.

(** The number of bytes of [json.dumps] of a request. *)
Variable dumps_len : request -> Z.

(** The path of the file of the worker. *)
Variable worker_path : string.

(** [self.is_running()]. *)
Definition is_running (self : t) (poll_is_none : bool) : bool :=
  match _proc self with
  | None => false
  | Some _ => poll_is_none
  end.

(** [_stop_locked]. *)
Definition _stop_locked (force : bool) (self : t) : t :=
  match _proc self with
  | None => self
  | Some worker =>
      {| _proc := None;
         _next_id := _next_id self;
         _cleanup_registered := _cleanup_registered self;
         log := log self ++ [Torn worker force (escalate force (tear worker))] |}
  end.

(** [message.get("error") or default], as the text of the [RuntimeError]
    made of it. *)
Definition error_text (m : message) (default : string) : string :=
  let v := dict_get m "error" in
  if truthy v then Recorder.str py_str v else default.

(** One turn of the loop of [_ensure_running_locked]: launch, wait for the
    handshake, tear down on failure. *)
Definition launch (self : t) (handshake : list poll) : t * launched :=
  let worker := launches (log self) in
  let started := {|
    _proc := Some worker;
    _next_id := _next_id self;
    _cleanup_registered := _cleanup_registered self;
    log := log self ++ [Launched worker]
  |} in
  match fst (_wait_for_locked ready_predicate handshake) with
  | Raise e => (started, Propagated e)
  | Ok (Some ready) =>
      if eq_str (dict_get ready "type") "ready" then
        ({| _proc := _proc started;
            _next_id := _next_id started;
            _cleanup_registered := true;
            log := log started |}, Done)
      else
        (_stop_locked true started,
         Failed (Exn (RuntimeError
           (error_text ready "Audio worker failed to start"))))
  | Ok None =>
      (_stop_locked true started,
       Failed (TimeoutError "Audio worker did not become ready in time"))
  end.

(** [_ensure_running_locked]. *)
Definition _ensure_running_locked (self : t) (es : ensure_script)
  : t * outcome unit :=
  if is_running self (running es) then (self, Returns ())
  else
    let self := _stop_locked true self in
    if negb (worker_file es) then
      (self,
       Raises (FileNotFoundError ("Missing audio worker at " +:+ worker_path)))
    else
      match launch self (handshake1 es) with
      | (self, Done) => (self, Returns ())
      | (self, Propagated e) => (self, Raises (Exn e))
      | (self, Failed _) =>
          match launch self (handshake2 es) with
          | (self, Done) => (self, Returns ())
          | (self, Propagated e) => (self, Raises (Exn e))
          | (self, Failed last_error) => (self, Raises last_error)
          end
      end.

(** Taking the write lock and writing the line of a request. *)
Definition send (self : t) (r : request) (x : exchange) : t * outcome unit :=
  if negb (lock x) then
    (self, Raises (TimeoutError "Timed out waiting for audio worker write lock"))
  else
    match fst (_write_line self (dumps_len r + 1) (turns x)) with
    | Raises e => (self, Raises e)
    | Returns _ =>
        ({| _proc := _proc self;
            _next_id := _next_id self;
            _cleanup_registered := _cleanup_registered self;
            log := log self ++
                   match _proc self with
                   | Some worker => [Sent worker r]
                   | None => []
                   end |}, Returns ())
    end.

(** [req_id = self._next_id; self._next_id += 1]. *)
Definition take_id (self : t) : t :=
  {| _proc := _proc self;
     _next_id := _next_id self + 1;
     _cleanup_registered := _cleanup_registered self;
     log := log self |}.

(** The wait of a command and what it makes of the message: the terminal
    response, or the exception for a timeout or an error response. *)
Definition await (predicate : message -> result bool) (x : exchange)
  (timed_out failed : string) : outcome message :=
  match fst (_wait_for_locked predicate (polls x)) with
  | Raise e => Raises (Exn e)
  | Ok None => Raises (TimeoutError timed_out)
  | Ok (Some m) =>
      if eq_str (dict_get m "type") "error" then
        Raises (Exn (RuntimeError (error_text m failed)))
      else Returns m
  end.

(** The body of the [try] of [start_recording]. *)
Definition try_start (self : t) (device_name : option string)
  (sample_rate channels : Z) (a : attempt) : t * outcome unit :=
  match _ensure_running_locked self (ensure a) with
  | (self, Raises e) => (self, Raises e)
  | (self, Returns _) =>
      let req_id := _next_id self in
      let self := take_id self in
      match send self (StartRequest req_id device_name sample_rate channels)
              (talk a) with
      | (self, Raises e) => (self, Raises e)
      | (self, Returns _) =>
          match await (start_recording_predicate req_id) (talk a)
                  "Timed out starting audio recording"
                  "Failed to start recording" with
          | Raises e => (self, Raises e)
          | Returns _ => (self, Returns ())
          end
      end
  end.

(** [start_recording]: the body is tried twice, with a forced teardown
    after each failure. *)
Definition start_recording (self : t) (device_name : option string)
  (sample_rate channels : Z) (first second : attempt) : t * outcome unit :=
  match try_start self device_name sample_rate channels first with
  | (self, Returns _) => (self, Returns ())
  | (self, Raises _) =>
      let self := _stop_locked true self in
      match try_start self device_name sample_rate channels second with
      | (self, Returns _) => (self, Returns ())
      | (self, Raises e) => (_stop_locked true self, Raises e)
      end
  end.

(** [float(v)] on a decoded value; an integer beyond the range of a double
    raises. *)
Definition py_float (v : json) : result pyfloat :=
  match v with
  | JInt z =>
      if (2 ^ 1024 - 2 ^ 970 <=? Z.abs z)%Z then
        Raise (OverflowError "int too large to convert to float")
      else Ok (PFin (inject_Z z))
  | JBool b => Ok (PFin (if b then 1 else 0)%Q)
  | JFloat f => Ok f
  | JStr s => float_of_str s
  | _ =>
      Raise (TypeError
        ("float() argument must be a string or a real number, not '"
         +:+ Worker.type_name v +:+ "'"))
  end.

(** [except (TypeError, ValueError)]; a [UnicodeEncodeError] is a
    [ValueError]. *)
Definition caught (e : exn) : bool :=
  match e with
  | TypeError _ | ValueError _ | UnicodeEncodeError _ => true
  | _ => false
  end.

(** The end of [stop_recording]: frames and peak out of the response. *)
Definition stopped_result (m : message) : outcome (Z * pyfloat) :=
  let frames := dict_get m "frames" in
  let peak := dict_get m "peak" in
  let parsed :=
    match Worker.int_or int_of_str frames 0 with
    | Raise e => Raise e
    | Ok n =>
        match py_float (if truthy peak then peak else JFloat (PFin 0)) with
        | Raise e => Raise e
        | Ok p => Ok (n, p)
        end
    end in
  match parsed with
  | Ok r => Returns r
  | Raise e => if caught e then Returns (0%Z, PFin 0) else Raises (Exn e)
  end.

(** [stop_recording]. *)
Definition stop_recording (self : t) (wav_path : string) (a : attempt)
  : t * outcome (Z * pyfloat) :=
  match _ensure_running_locked self (ensure a) with
  | (self, Raises e) => (self, Raises e)
  | (self, Returns _) =>
      let req_id := _next_id self in
      let self := take_id self in
      match send self (StopRequest req_id wav_path) (talk a) with
      | (self, Raises e) => (self, Raises e)
      | (self, Returns _) =>
          match await (stop_recording_predicate req_id) (talk a)
                  "Timed out stopping audio recording"
                  "Failed to stop recording" with
          | Raises e => (self, Raises e)
          | Returns m => (self, stopped_result m)
          end
      end
  end.

(** [cancel_recording]; [poll_is_none] is the answer of [proc.poll()] in
    [is_running]. *)
Definition cancel_recording (self : t) (poll_is_none : bool) (x : exchange)
  : t * outcome unit :=
  if negb (is_running self poll_is_none) then (self, Returns ())
  else
    let req_id := _next_id self in
    let self := take_id self in
    match send self (CancelRequest req_id) x with
    | (self, Raises e) => (self, Raises e)
    | (self, Returns _) =>
        match await (cancel_recording_predicate req_id) x
                "Timed out cancelling audio recording"
                "Failed to cancel recording" with
        | Raises e => (self, Raises e)
        | Returns _ => (self, Returns ())
        end
    end.

(** A call of the client, with what it meets. *)
Inductive call :=
| CallEnsure (es : ensure_script)
| CallStop (force : bool)
| CallStart (device_name : option string) (sample_rate channels : Z)
    (first second : attempt)
| CallStopRecording (wav_path : string) (a : attempt)
| CallCancel (poll_is_none : bool) (x : exchange).

(** The client after a call; what the call returned is dropped. *)
Definition after (self : t) (c : call) : t :=
  match c with
  | CallEnsure es => fst (_ensure_running_locked self es)
  | CallStop force => _stop_locked force self
  | CallStart device_name sample_rate channels first second =>
      fst (start_recording self device_name sample_rate channels first second)
  | CallStopRecording wav_path a => fst (stop_recording self wav_path a)
  | CallCancel poll_is_none x => fst (cancel_recording self poll_is_none x)
  end.

(** The client after a sequence of calls from its creation. *)
Definition run (calls : list call) : t := fold_left after calls __init__.

End Commands.

(** The seconds [_stop_locked] may spend in [proc.wait]. *)
Fixpoint waiting (actions : list action) : nat :=
  match actions with
  | [] => 0
  | Wait seconds :: actions' => seconds + waiting actions'
  | _ :: actions' => waiting actions'
  end.

(** The signals among the actions of a teardown, in order. *)
Fixpoint signals (actions : list action) : list action :=
  match actions with
  | [] => []
  | Terminate :: actions' => Terminate :: signals actions'
  | Kill :: actions' => Kill :: signals actions'
  | _ :: actions' => signals actions'
  end.

(** The workers of a client are in order: they were launched under the
    numbers 0, 1, 2, ..., they were torn down in that order, and every
    worker launched has been torn down but the current one, which is the
    last launched. *)
Definition one_worker (self : t) : Prop :=
  launched_workers (log self) = seq 0 (launches (log self)) /\
  match _proc self with
  | Some worker =>
      launches (log self) = S worker /\
      torn_workers (log self) = seq 0 worker
  | None => torn_workers (log self) = seq 0 (launches (log self))
  end.

(** The ids of the requests written grow strictly, start at 1 and are below
    the next id. *)
Definition fresh_ids (self : t) : Prop :=
  StronglySorted Z.lt (map request_id (sent (log self))) /\
  Forall (fun r => (1 <= request_id r < _next_id self)%Z) (sent (log self)) /\
  (1 <= _next_id self)%Z.

(** A stand-in for [float()] on a string where no string is converted. *)
Definition no_float (s : string) : result pyfloat :=
  Raise (ValueError ("could not convert string to float: " +:+ s)).

(** A worker that dies as soon as its input is closed. *)
Definition meek : teardown :=
  {| alive := fun _ => false; terminate_raises := false; kill_raises := false |}.

(** A worker that only [kill] ends. *)
Definition stubborn : teardown :=
  {| alive := fun site => match site with InHandler => false | _ => true end;
     terminate_raises := false; kill_raises := false |}.

(** The size of a request, for a run: every line has 20 bytes. *)
Definition twenty (r : request) : Z := 20.

(** A worker that answers the handshake. *)
Definition greets : list poll := [Dequeued [("type", JStr "ready")]].

(** An exchange in which the line is written in two pieces and the worker
    answers [m]. *)
Definition answered (m : message) : exchange :=
  {| lock := true; turns := [Wrote 12; Wrote 9]; polls := [Dequeued m] |}.

(** A first call on a new client: the worker is launched and answers. *)
Definition first_call (m : message) : attempt :=
  {| ensure := {| running := false; worker_file := true;
                  handshake1 := greets; handshake2 := [] |};
     talk := answered m |}.

(** A later call: the worker is alive and answers. *)
Definition later_call (m : message) : attempt :=
  {| ensure := {| running := true; worker_file := true;
                  handshake1 := []; handshake2 := [] |};
     talk := answered m |}.

(** A call in which the worker never becomes ready. *)
Definition mute_call : attempt :=
  {| ensure := {| running := false; worker_file := true;
                  handshake1 := []; handshake2 := [Expired] |};
     talk := {| lock := true; turns := []; polls := [] |} |}.

End Supervisor.

(** ** Properties of the waveform pipeline *)

Module WaveformFacts.
Import Waveform.
Open Scope R_scope.

Lemma bars_loop_map audio spb todo : forall i acc,
  bars_loop audio spb todo i acc = acc ++ map (bar audio spb) (seq i todo).
Proof.
  induction todo as [|todo IH]; intros i acc; simpl.
  - by rewrite app_nil_r.
  - rewrite IH, <- app_assoc. reflexivity.
Qed.

Lemma raw_values_map audio :
  raw_values audio =
  map (bar audio (samples_per_bar (length audio))) (seq 0 WAVEFORM_BARS).
Proof. unfold raw_values. by rewrite bars_loop_map. Qed.

Lemma raw_values_length audio : length (raw_values audio) = 24%nat.
Proof. rewrite raw_values_map, length_map, length_seq. reflexivity. Qed.

Lemma raw_values_nth audio i :
  (i < 24)%nat ->
  nth i (raw_values audio) 0 = bar audio (samples_per_bar (length audio)) i.
Proof.
  intros Hi. rewrite raw_values_map.
  rewrite (nth_indep _ 0 (bar audio (samples_per_bar (length audio)) 0%nat))
    by (rewrite length_map, length_seq; exact Hi).
  rewrite map_nth, seq_nth by exact Hi. reflexivity.
Qed.

Lemma samples_per_bar_max n : samples_per_bar n = Nat.max (n / 24) 1.
Proof.
  unfold samples_per_bar, WAVEFORM_BARS.
  destruct (Nat.ltb_spec (n / 24) 1); lia.
Qed.

Lemma samples_per_bar_pos n : (1 <= samples_per_bar n)%nat.
Proof. rewrite samples_per_bar_max. lia. Qed.

Lemma rms_nonneg l : 0 <= rms l.
Proof. unfold rms. apply sqrt_pos. Qed.

Lemma bar_nonneg audio spb i : 0 <= bar audio spb i.
Proof.
  unfold bar, bounds. destruct (_ <? length audio)%nat.
  - apply rms_nonneg.
  - lra.
Qed.

Lemma raw_values_nonneg audio : Forall (fun v => 0 <= v) (raw_values audio).
Proof.
  rewrite raw_values_map. apply Forall_map, Forall_forall.
  intros i _. apply bar_nonneg.
Qed.

Lemma target_peak_floor history : 0.005 <= target_peak history.
Proof. unfold target_peak. apply Rmax_r. Qed.

Lemma smooth_pos peak_level history :
  0 < peak_level -> 0 < smooth peak_level (target_peak history).
Proof.
  intros Hp. unfold smooth.
  pose proof (target_peak_floor history). lra.
Qed.

Lemma normalize_length peak_level raw :
  length (normalize peak_level raw) = length raw.
Proof. unfold normalize. apply length_map. Qed.

Lemma normalize_bounds peak_level raw :
  0 < peak_level ->
  Forall (fun v => 0 <= v) raw ->
  Forall (fun v => 0 <= v <= 1) (normalize peak_level raw).
Proof.
  intros Hp Hraw. unfold normalize. apply Forall_map.
  eapply Forall_impl; [exact Hraw|]. intros v Hv. simpl.
  assert (0 <= v / peak_level * 0.85).
  { apply Rmult_le_pos; [|lra].
    apply Rmult_le_pos; [exact Hv|]. left. by apply Rinv_0_lt_compat. }
  split.
  - by apply Rmin_glb; [lra|].
  - apply Rmin_l.
Qed.

End WaveformFacts.

(** ** The partition into bars *)

Module Partition.
Import Waveform WaveformFacts.
Open Scope R_scope.

Lemma firstn_skipn_add {A} (a b : nat) : forall l : list A,
  firstn a l ++ firstn b (skipn a l) = firstn (a + b) l.
Proof.
  induction a as [|a IH]; intros l; simpl.
  - reflexivity.
  - destruct l as [|x l]; simpl.
    + by rewrite firstn_nil.
    + by rewrite IH.
Qed.

(** The clamp of [end] changes nothing to the samples a slice holds. *)
Lemma slice_bounds audio spb i :
  let '(start, stop) := bounds (length audio) spb i in
  slice audio start stop = firstn spb (skipn start audio).
Proof.
  unfold bounds, slice.
  destruct (Nat.ltb_spec (length audio) (i * spb + spb)) as [Hlt|Hge].
  - rewrite !firstn_all2; [reflexivity| |]; rewrite length_skipn; lia.
  - f_equal. lia.
Qed.

Lemma concat_segments (audio : list R) spb todo :
  concat (map (fun i => firstn spb (skipn (i * spb) audio)) (seq 0 todo)) =
  firstn (todo * spb) audio.
Proof.
  induction todo as [|todo IH].
  - reflexivity.
  - rewrite seq_S, map_app, concat_app, IH. simpl.
    rewrite app_nil_r, firstn_skipn_add. f_equal. lia.
Qed.

(** The array the counterexample of the partition uses: 24 silent samples
    and one sample at full scale. *)
Lemma bar_23_of_25 :
  bar (repeat 0 24 ++ [1]) 1 23 = 0.
Proof.
  unfold bar, bounds, slice. simpl. unfold rms, mean, total. simpl.
  replace ((0 * 0 + 0) / 1) with 0 by lra. apply sqrt_0.
Qed.

Lemma spec_bar_23_of_25 :
  0 < SpecWords.bar_value (repeat 0 24 ++ [1]) 23.
Proof.
  unfold SpecWords.bar_value, SpecWords.segment, SpecWords.segment_length.
  simpl. unfold rms, mean, total. simpl.
  apply sqrt_lt_R0. lra.
Qed.

End Partition.

Module PartitionClaims.
Import Waveform WaveformFacts Partition.
Open Scope R_scope.

(** C2, as stated, fails: the specification folds the trailing remainder
    into the last segment, the code leaves it out. On 24 silent samples
    followed by one sample at full scale the last bar is 0 in the code and
    positive when the remainder is folded in. *)
Lemma remainder_is_not_folded :
  Waveform.raw_values (repeat 0 24 ++ [1]) <>
  SpecWords.raw_values (repeat 0 24 ++ [1]).
Proof.
  intros Heq.
  assert (H : nth 23 (Waveform.raw_values (repeat 0 24 ++ [1])) 0 =
              nth 23 (SpecWords.raw_values (repeat 0 24 ++ [1])) 0)
    by (rewrite Heq; reflexivity).
  rewrite raw_values_nth in H by lia.
  change (samples_per_bar (length (repeat 0 24 ++ [1]))) with 1%nat in H.
  rewrite bar_23_of_25 in H.
  pose proof spec_bar_23_of_25 as Hpos.
  change (nth 23 (SpecWords.raw_values (repeat 0 24 ++ [1])) 0)
    with (SpecWords.bar_value (repeat 0 24 ++ [1]) 23) in H.
  lra.
Qed.

(** C2, amended: with [n] samples and [spb = max (n / 24) 1], the pipeline
    computes exactly 24 raw values; bar [i] is the RMS of the [spb] samples
    from index [i * spb] on, clipped at the sample count, and 0 when that
    slice is empty; the slices follow one another and cover the first
    [24 * spb] samples, so the samples of a trailing remainder belong to no
    bar. *)
Theorem bars_partition (audio : list R) :
  let n := length audio in
  let spb := samples_per_bar n in
  let seg i := firstn spb (skipn (i * spb) audio) in
  spb = Nat.max (n / 24) 1 /\
  length (raw_values audio) = 24%nat /\
  raw_values audio =
    map (fun i => match seg i with [] => 0 | s => rms s end) (seq 0 24) /\
  Forall (fun i => length (seg i) = Nat.min spb (n - i * spb)) (seq 0 24) /\
  concat (map seg (seq 0 24)) = firstn (24 * spb) audio.
Proof.
  intros n spb seg. split; [|split; [|split; [|split]]].
  - apply samples_per_bar_max.
  - apply raw_values_length.
  - rewrite raw_values_map. apply map_ext. intros i.
    pose proof (slice_bounds audio spb i) as Hs.
    pose proof (samples_per_bar_pos n) as Hpos.
    unfold bar. fold n spb. unfold bounds in *. fold n in Hs. cbv zeta in *.
    rewrite Hs. fold (seg i).
    destruct (Nat.ltb_spec (i * spb) n) as [Hlt|Hge].
    + assert (Hlen : length (seg i) <> 0%nat).
      { unfold seg. rewrite length_firstn, length_skipn. fold n spb. lia. }
      destruct (seg i); [simpl in Hlen; lia | reflexivity].
    + unfold seg. rewrite skipn_all2 by (fold n; lia).
      by rewrite firstn_nil.
  - apply Forall_forall. intros i _. unfold seg.
    rewrite length_firstn, length_skipn. reflexivity.
  - apply concat_segments.
Qed.

End PartitionClaims.

(** ** Properties of the recorder *)

Module RecorderFacts.
Import Waveform WaveformFacts Recorder Scenario.
Open Scope R_scope.

Section Facts.

Variable py_str : json -> string.
Variable astype_int16 : R -> Z.

(** [_send_waveform] touches the pending buffer and the smoothing state
    only. *)
Lemma send_waveform_keeps self :
  let self' := fst (_send_waveform self) in
  _recording self' = _recording self /\
  _stream self' = _stream self /\
  _chunks self' = _chunks self /\
  _sample_rate self' = _sample_rate self /\
  _channels self' = _channels self.
Proof. unfold _send_waveform. destruct (_waveform_buffer self); simpl; auto. Qed.

Lemma send_waveform_peak_level self :
  0 < _peak_level self -> 0 < _peak_level (fst (_send_waveform self)).
Proof.
  intros Hp. unfold _send_waveform.
  destruct (_waveform_buffer self); simpl; [exact Hp|].
  by apply smooth_pos.
Qed.

Lemma send_waveform_in_range self :
  0 < _peak_level self ->
  Forall waveform_in_range (snd (_send_waveform self)).
Proof.
  intros Hp. unfold _send_waveform.
  destruct (_waveform_buffer self) as [|c cs]; cbn [snd]; [constructor|].
  constructor; [|constructor]. unfold waveform_in_range. split.
  - by rewrite normalize_length, raw_values_length.
  - apply normalize_bounds; [by apply smooth_pos | apply raw_values_nonneg].
Qed.

(** A non-empty pending buffer gives exactly one event, and empties. *)
Lemma send_waveform_emits self :
  _waveform_buffer self <> [] ->
  exists values raw_peak,
    snd (_send_waveform self) = [Write (WaveformEvent values raw_peak)] /\
    _waveform_buffer (fst (_send_waveform self)) = [].
Proof.
  intros Hb. unfold _send_waveform.
  destruct (_waveform_buffer self) as [|c cs]; [done|]. simpl. eauto.
Qed.

(** What the callback does to the session of a recording recorder. *)
Lemma callback_recording self indata status now :
  _recording self = true ->
  let self' := fst (callback self indata status now) in
  _recording self' = true /\
  _chunks self' = _chunks self ++ [indata] /\
  _sample_rate self' = _sample_rate self /\
  _stream self' = _stream self.
Proof.
  intros Hr. unfold callback. rewrite Hr.
  destruct (Rge_dec _ _); [|simpl; auto].
  match goal with |- context [_send_waveform ?s] =>
    pose proof (send_waveform_keeps s) as Hk;
    destruct (_send_waveform s) as [s' w] end.
  simpl in *. destruct Hk as (-> & -> & -> & -> & _). auto.
Qed.

(** An idle recorder ignores the blocks of the driver. *)
Lemma callback_idle self indata status now :
  _recording self = false -> fst (callback self indata status now) = self.
Proof. intros Hr. unfold callback. by rewrite Hr. Qed.

Lemma callback_peak_level self indata status now :
  0 < _peak_level self -> 0 < _peak_level (fst (callback self indata status now)).
Proof.
  intros Hp. unfold callback.
  destruct (_recording self); [|exact Hp].
  destruct (Rge_dec _ _); [|exact Hp].
  match goal with |- context [_send_waveform ?s] =>
    pose proof (send_waveform_peak_level s) as Hk;
    destruct (_send_waveform s) as [s' w] end.
  simpl in *. by apply Hk.
Qed.

Lemma callback_in_range self indata status now :
  0 < _peak_level self ->
  Forall waveform_in_range (snd (callback self indata status now)).
Proof.
  intros Hp. unfold callback.
  assert (Hlog : Forall waveform_in_range
            match status with
            | Some flags => [Log (LogStatus flags)]
            | None => []
            end).
  { destruct status; repeat constructor. }
  destruct (_recording self); [|exact Hlog].
  destruct (Rge_dec _ _); [|exact Hlog].
  match goal with |- context [_send_waveform ?s] =>
    pose proof (send_waveform_in_range s) as Hk;
    destruct (_send_waveform s) as [s' w] end.
  simpl in *. apply Forall_app. split; [exact Hlog|]. by apply Hk.
Qed.

Lemma start_peak_level sd now self device_name sample_rate channels :
  0 < _peak_level self ->
  0 < _peak_level (fst (start py_str sd now self device_name sample_rate channels)).
Proof.
  intros Hp. unfold start.
  destruct (_recording self); [exact Hp|].
  destruct (truthy device_name).
  - destruct (_resolve_device device_name sd); [|exact Hp].
    destruct (open_stream sd _ _ _); simpl; lra.
  - destruct (open_stream sd _ _ _); simpl; lra.
Qed.

Lemma stop_peak_level self files wav_path :
  _peak_level (fst (fst (stop astype_int16 self files wav_path))) = _peak_level self.
Proof.
  unfold stop. destruct (_recording self); simpl; [|reflexivity].
  destruct (_chunks self); [reflexivity|].
  destruct (np_max _); reflexivity.
Qed.

(** The smoothed reference level of a recorder is positive at all times:
    the division of the normalization is never by zero. *)
Lemma reachable_peak_level self :
  reachable py_str astype_int16 self -> 0 < _peak_level self.
Proof.
  induction 1.
  - simpl. lra.
  - by apply start_peak_level.
  - by apply callback_peak_level.
  - by rewrite stop_peak_level.
  - exact IHreachable.
Qed.

(** Feeding blocks to a recording recorder appends them, in order. *)
Lemma feed_recording blocks : forall self,
  _recording self = true ->
  _recording (feed self blocks) = true /\
  _chunks (feed self blocks) = _chunks self ++ map block_data blocks /\
  _sample_rate (feed self blocks) = _sample_rate self.
Proof.
  induction blocks as [|[[indata status] now] blocks IH]; intros self Hr; simpl.
  - by rewrite app_nil_r.
  - destruct (callback_recording self indata status now Hr) as (Hr' & Hc & Hs & _).
    destruct (IH _ Hr') as (-> & -> & ->).
    rewrite Hc, Hs, <- app_assoc. auto.
Qed.

Lemma feed_reachable blocks : forall self,
  reachable py_str astype_int16 self ->
  reachable py_str astype_int16 (feed self blocks).
Proof.
  induction blocks as [|[[indata status] now] blocks IH]; intros self Hr; simpl.
  - exact Hr.
  - apply IH. by apply reach_callback.
Qed.

Lemma fold_left_Rmax_ge l : forall x,
  x <= fold_left Rmax l x /\ Forall (fun y => y <= fold_left Rmax l x) l.
Proof.
  induction l as [|y l IH]; intros x; simpl.
  - split; [lra|constructor].
  - destruct (IH (Rmax x y)) as [H1 H2]. split.
    + pose proof (Rmax_l x y). lra.
    + constructor; [|exact H2]. pose proof (Rmax_r x y). lra.
Qed.

Lemma fold_left_Rmax_in l : forall x, In (fold_left Rmax l x) (x :: l).
Proof.
  induction l as [|y l IH]; intros x; simpl.
  - by left.
  - destruct (IH (Rmax x y)) as [H|H]; [|right; by right].
    unfold Rmax in H at 1. destruct (Rle_dec x y); [right; left | left]; exact H.
Qed.

(** [np.max(np.abs(audio))] on an array that holds a sample. *)
Lemma np_max_abs (l : list R) :
  l <> [] -> exists peak, np_max (map Rabs l) = Ok peak /\ max_abs peak l.
Proof.
  destruct l as [|x l]; [done|]. intros _. simpl.
  eexists. split; [reflexivity|]. split.
  - apply (fold_left_Rmax_in (map Rabs l) (Rabs x)).
  - destruct (fold_left_Rmax_ge (map Rabs l) (Rabs x)) as [H1 H2].
    constructor; [exact H1|]. by apply Forall_map in H2.
Qed.

Lemma samples_nil audio : samples audio = [] -> audio = [].
Proof. destruct audio as [|f audio]; [done|]. discriminate. Qed.

Lemma concatenate_length (cs : list chunk) :
  length (concatenate cs) = list_sum (map (@length frame) cs).
Proof.
  unfold concatenate. induction cs as [|c cs IH]; simpl.
  - reflexivity.
  - by rewrite length_app, IH.
Qed.

(** [stop] on a recording recorder that holds at least one frame. *)
Lemma stop_recording self files wav_path :
  _recording self = true ->
  concatenate (_chunks self) <> [] ->
  exists peak,
    max_abs peak (samples (concatenate (_chunks self))) /\
    snd (stop astype_int16 self files wav_path) =
      Ok (list_sum (map (@length frame) (_chunks self)), peak) /\
    snd (fst (stop astype_int16 self files wav_path)) =
      <[wav_path := {| rate := container_rate self;
                       data := to_int16 astype_int16 (concatenate (_chunks self)) |}]>
        files /\
    _recording (fst (fst (stop astype_int16 self files wav_path))) = false.
Proof.
  intros Hr Hne. rewrite <- concatenate_length.
  destruct (_chunks self) as [|c cs] eqn:Hc; [done|].
  destruct (np_max_abs (samples (concatenate (c :: cs)))) as (peak & Hmax & Hpk).
  { intros Hs. by apply samples_nil in Hs. }
  exists peak. unfold stop. rewrite Hr, Hc. cbn [negb]. cbv iota.
  rewrite Hmax. auto.
Qed.

(** [stop] on chunks that hold no frame at all: [np.max] raises, after the
    recorder has gone idle and before anything is written. *)
Lemma stop_on_empty_blocks self files wav_path :
  _recording self = true ->
  _chunks self <> [] ->
  concatenate (_chunks self) = [] ->
  snd (stop astype_int16 self files wav_path) =
    Raise (ValueError
      "zero-size array to reduction operation maximum which has no identity") /\
  snd (fst (stop astype_int16 self files wav_path)) = files.
Proof.
  intros Hr Hc He. unfold stop. rewrite Hr. cbn [negb]. cbv iota.
  destruct (_chunks self) as [|c cs]; [done|]. rewrite He. auto.
Qed.

Lemma to_int16_length audio : length (to_int16 astype_int16 audio) = length audio.
Proof. unfold to_int16. apply length_map. Qed.

(** The loop of [_resolve_device] finds nothing exactly when no input-capable
    device bears the name. *)
Lemma resolve_from_none devs device_name : forall i,
  Forall (fun dev => ~ ((0 < max_input_channels dev)%Z /\ name dev = device_name)) devs ->
  resolve_from devs (JStr device_name) i = None.
Proof.
  induction devs as [|dev devs IH]; intros i Hall; simpl; [reflexivity|].
  inversion Hall as [|? ? Hdev Hrest]; subst.
  destruct (Z.ltb_spec 0 (max_input_channels dev)) as [Hpos|Hnone]; simpl.
  - destruct (String.eqb_spec device_name (name dev)) as [->|Hneq].
    + exfalso. apply Hdev. auto.
    + by apply IH.
  - by apply IH.
Qed.

End Facts.
End RecorderFacts.

Module RecorderClaims.
Import Waveform WaveformFacts Recorder Scenario RecorderFacts.
Open Scope R_scope.

(** C1: whatever a recorder has been through, the event [_send_waveform]
    writes for the chunks pending since the previous tick carries exactly 24
    values, each between 0 and 1; so does every event the capture callback
    writes; and a pending buffer that is not empty gives one such event. *)
Theorem waveform_values_in_range py_str astype_int16 self :
  reachable py_str astype_int16 self ->
  Forall waveform_in_range (snd (_send_waveform self)) /\
  (forall indata status now,
     Forall waveform_in_range (snd (callback self indata status now))) /\
  (_waveform_buffer self <> [] ->
   exists values raw_peak,
     snd (_send_waveform self) = [Write (WaveformEvent values raw_peak)] /\
     length values = 24%nat /\
     Forall (fun v => 0 <= v <= 1) values).
Proof.
  intros Hreach. pose proof (reachable_peak_level _ _ _ Hreach) as Hp.
  split; [by apply send_waveform_in_range|]. split.
  - intros. by apply callback_in_range.
  - intros Hb. destruct (send_waveform_emits self Hb) as (values & raw_peak & Hw & _).
    exists values, raw_peak. split; [exact Hw|].
    pose proof (send_waveform_in_range self Hp) as Hin.
    rewrite Hw in Hin. inversion Hin as [|? ? Hev _]; subst. exact Hev.
Qed.

Lemma waveform_values_in_range_witness :
  Forall waveform_in_range (snd (_send_waveform in_session)) /\
  (forall indata status now,
     Forall waveform_in_range (snd (callback in_session indata status now))) /\
  (_waveform_buffer in_session <> [] ->
   exists values raw_peak,
     snd (_send_waveform in_session) = [Write (WaveformEvent values raw_peak)] /\
     length values = 24%nat /\
     Forall (fun v => 0 <= v <= 1) values).
Proof.
  apply (waveform_values_in_range type_text truncate in_session).
  unfold in_session. apply feed_reachable, reach_start, reach_init.
Defined.

(** C3: when a recording recorder is fed blocks and then stopped, and the
    chunks it holds contain at least one frame, [stop] returns the total
    number of frames of all the chunks, in order, and the largest absolute
    sample value among them, and the container written at the path holds
    that number of frames. *)
Theorem stop_after_capture astype_int16 self blocks files wav_path :
  _recording self = true ->
  concatenate (_chunks self ++ map block_data blocks) <> [] ->
  let captured := _chunks self ++ map block_data blocks in
  let frames := list_sum (map (@length frame) captured) in
  let out := stop astype_int16 (feed self blocks) files wav_path in
  exists peak,
    snd out = Ok (frames, peak) /\
    max_abs peak (samples (concatenate captured)) /\
    exists w, snd (fst out) !! wav_path = Some w /\ length (data w) = frames.
Proof.
  intros Hr Hne captured frames out.
  destruct (feed_recording blocks self Hr) as (Hr' & Hc & _).
  destruct (stop_recording astype_int16 (feed self blocks) files wav_path Hr')
    as (peak & Hmax & Hres & Hfs & _).
  { by rewrite Hc. }
  rewrite Hc in Hmax, Hres, Hfs. exists peak. split; [exact Hres|].
  split; [exact Hmax|]. eexists. split.
  - unfold out. rewrite Hfs. apply lookup_insert_eq.
  - simpl. rewrite to_int16_length. apply concatenate_length.
Qed.

Lemma stop_after_capture_witness :
  let c1 : chunk := [(0.5, []); (-0.25, [])] in
  let c2 : chunk := [(0.125, []); (-0.75, [])] in
  let out := stop truncate (feed in_session [(c2, None, 0.01)]) ∅ "take.wav" in
  exists peak,
    snd out = Ok (4%nat, peak) /\
    max_abs peak (samples (concatenate [c1; c2])) /\
    exists w, snd (fst out) !! "take.wav" = Some w /\ length (data w) = 4%nat.
Proof.
  intros c1 c2.
  assert (Hr : _recording in_session = true).
  { apply feed_recording. reflexivity. }
  assert (Hc : _chunks in_session = [c1]).
  { unfold in_session.
    match goal with |- _chunks (feed ?s ?bs) = _ =>
      destruct (feed_recording bs s eq_refl) as (_ & -> & _) end.
    reflexivity. }
  pose proof (stop_after_capture truncate in_session [(c2, None, 0.01)] ∅
                "take.wav" Hr) as H.
  rewrite Hc in H. apply H. discriminate.
Defined.

(** C4: [start] on a recorder that is recording raises "already recording",
    and the recorder it leaves is the recorder it found: session buffer,
    waveform state and all other fields are untouched. *)
Theorem start_while_recording py_str sd now self device_name sample_rate channels :
  _recording self = true ->
  start py_str sd now self device_name sample_rate channels =
    (self, Raise AlreadyRecording).
Proof. intros Hr. unfold start. by rewrite Hr. Qed.

Lemma start_while_recording_witness :
  _recording in_session = true /\
  start type_text desk 1 in_session (JStr "Built-in Microphone") 48000 2 =
    (in_session, Raise AlreadyRecording).
Proof.
  assert (Hr : _recording in_session = true).
  { apply feed_recording. reflexivity. }
  split; [exact Hr|].
  exact (start_while_recording type_text desk 1 in_session
           (JStr "Built-in Microphone") 48000 2 Hr).
Defined.

(** C5: [stop] on an idle recorder, and [stop] on a recording recorder that
    has captured no chunk, return 0 frames and a peak of 0 and leave the
    files as they are; the idle recorder is left as it is, the recording one
    is left idle. *)
Theorem stop_without_audio astype_int16 self files wav_path :
  _recording self = false \/ _chunks self = [] ->
  let out := stop astype_int16 self files wav_path in
  snd out = Ok (0%nat, 0) /\
  snd (fst out) = files /\
  _recording (fst (fst out)) = false /\
  (_recording self = false -> fst (fst out) = self).
Proof.
  intros H. unfold stop. destruct (_recording self) eqn:Hr; simpl.
  - destruct H as [H|H]; [discriminate|]. rewrite H. simpl.
    repeat split; auto. discriminate.
  - auto.
Qed.

Lemma stop_without_audio_witness :
  let started := fst (start type_text desk 0 __init__ JNull 16000 1) in
  (stop truncate __init__ ∅ "take.wav" = (__init__, ∅, Ok (0%nat, 0))) /\
  (snd (stop truncate started ∅ "take.wav") = Ok (0%nat, 0) /\
   snd (fst (stop truncate started ∅ "take.wav")) = ∅).
Proof.
  intros started. split.
  - destruct (stop_without_audio truncate __init__ ∅ "take.wav" (or_introl eq_refl))
      as (H1 & H2 & _ & H4).
    specialize (H4 eq_refl).
    destruct (stop truncate __init__ ∅ "take.wav") as [[s f] r].
    simpl in *. by subst.
  - destruct (stop_without_audio truncate started ∅ "take.wav" (or_intror eq_refl))
      as (H1 & H2 & _).
    split; assumption.
Defined.

(** C6, as stated, fails: the empty name matches no input-capable device,
    yet [start] takes it for no name at all, opens the default device and
    leaves the recorder recording. *)
Lemma empty_device_name_is_no_name :
  no_input_device desk "" /\
  snd (start type_text desk 0 __init__ (JStr "") 16000 1) = Ok tt /\
  _recording (fst (start type_text desk 0 __init__ (JStr "") 16000 1)) = true.
Proof.
  split; [|split; reflexivity].
  unfold no_input_device, desk. simpl.
  repeat constructor; intros [_ H]; discriminate H.
Qed.

(** C6, amended: for every name that is not empty and is the name of no
    input-capable device, [start] on an idle recorder raises "device not
    found" and leaves the recorder as it found it: idle, no buffer reset,
    no stream opened. *)
Theorem start_unknown_device py_str sd now self device_name sample_rate channels :
  _recording self = false ->
  device_name <> "" ->
  no_input_device sd device_name ->
  start py_str sd now self (JStr device_name) sample_rate channels =
    (self, Raise (DeviceNotFound py_str (JStr device_name))).
Proof.
  intros Hr Hname Hnone. unfold start. rewrite Hr. simpl.
  destruct (String.eqb_spec device_name "") as [->|_]; [done|]. simpl.
  unfold _resolve_device. by rewrite resolve_from_none.
Qed.

Lemma start_unknown_device_witness :
  start type_text desk 0 __init__ (JStr "USB Microphone") 16000 1 =
    (__init__, Raise (RuntimeError "Audio device 'USB Microphone' not found")).
Proof.
  apply (start_unknown_device type_text desk 0 __init__ "USB Microphone" 16000 1).
  - reflexivity.
  - discriminate.
  - unfold no_input_device, desk. simpl.
    repeat constructor; intros [_ H]; discriminate H.
Defined.

(** The case the specification singles out: after [start], two blocks of
    [K] frames each, then [stop]: the count returned is [2 * K] and the
    container holds [2 * K] frames. *)
Lemma two_chunks_give_2K astype_int16 self c1 c2 s1 n1 s2 n2 K files wav_path :
  _recording self = true ->
  _chunks self = [] ->
  length c1 = K -> length c2 = K -> (0 < K)%nat ->
  let out := stop astype_int16 (feed self [(c1, s1, n1); (c2, s2, n2)])
               files wav_path in
  exists peak w,
    snd out = Ok ((2 * K)%nat, peak) /\
    snd (fst out) !! wav_path = Some w /\
    length (data w) = (2 * K)%nat.
Proof.
  intros Hr Hc H1 H2 HK out.
  destruct (feed_recording [(c1, s1, n1); (c2, s2, n2)] self Hr) as (Hr' & Hc' & _).
  rewrite Hc in Hc'. unfold block_data in Hc'. cbn [map fst app] in Hc'.
  destruct (stop_recording astype_int16 _ files wav_path Hr')
    as (peak & _ & Hres & Hfs & _).
  { rewrite Hc'. destruct c1; [simpl in H1; lia | discriminate]. }
  rewrite Hc' in Hres, Hfs.
  exists peak. eexists. split; [|split].
  - unfold out. rewrite Hres. do 2 f_equal. simpl. lia.
  - unfold out. rewrite Hfs. apply lookup_insert_eq.
  - simpl. rewrite to_int16_length. unfold concatenate. simpl.
    rewrite app_nil_r, length_app. lia.
Qed.

End RecorderClaims.

(** ** Properties of the protocol loop *)

Module WorkerFacts.
Import Recorder Worker Scenario.

Section Facts.

Variable json_loads : string -> option json.
Variable int_of_str : string -> result Z.
Variable py_str : json -> string.
Variable astype_int16 : R -> Z.
Variable sd : driver.
Variable stdout_encodes : string -> bool.
Variable encode_error : reply -> string.

Abbreviation _write_json := (_write_json stdout_encodes encode_error).
Abbreviation respond := (respond stdout_encodes encode_error).
Abbreviation dispatch :=
  (dispatch int_of_str py_str astype_int16 sd stdout_encodes encode_error).
Abbreviation main_step :=
  (main_step json_loads int_of_str py_str astype_int16 sd stdout_encodes
     encode_error).
Abbreviation main_loop :=
  (main_loop json_loads int_of_str py_str astype_int16 sd stdout_encodes
     encode_error).

(** A line the stream can encode is written; one it cannot is not, and the
    write raises. *)
Lemma write_json_ok m :
  writable stdout_encodes m = true -> _write_json m = Ok ().
Proof. intros H. unfold Worker._write_json. by rewrite H. Qed.

Lemma write_json_raises m :
  writable stdout_encodes m = false ->
  _write_json m = Raise (UnicodeEncodeError (encode_error m)).
Proof. intros H. unfold Worker._write_json. by rewrite H. Qed.

Lemma respond_ok st m :
  writable stdout_encodes m = true -> respond st m = (st, [Write m], Ok None).
Proof. intros H. unfold Worker.respond. by rewrite write_json_ok. Qed.

Lemma respond_raises st m :
  writable stdout_encodes m = false ->
  respond st m = (st, [], Raise (UnicodeEncodeError (encode_error m))).
Proof. intros H. unfold Worker.respond. by rewrite write_json_raises. Qed.

Lemma respond_cases st m :
  respond st m = (st, [Write m], Ok None) /\ writable stdout_encodes m = true \/
  respond st m = (st, [], Raise (UnicodeEncodeError (encode_error m))) /\
  writable stdout_encodes m = false.
Proof.
  destruct (writable stdout_encodes m) eqn:H.
  - left. by rewrite respond_ok.
  - right. by rewrite respond_raises.
Qed.

(** [int(v or default)] when [v] is null or zero. *)
Lemma int_or_falsy v default :
  truthy v = false -> int_or int_of_str v default = Ok default.
Proof. intros Hv. unfold int_or. by rewrite Hv. Qed.

Lemma defaulted_falsy message k :
  defaulted message k -> truthy (dict_get message k) = false.
Proof.
  unfold defaulted, dict_get.
  destruct (lookup_field message k) as [[| | z | [q| | |] | | |]|]; simpl;
    try done.
  - intros ->. reflexivity.
  - intros ->. reflexivity.
Qed.

(** A message type the loop does not know is logged, nothing else. *)
Lemma dispatch_unrecognized now st message :
  recognized (dict_get message "type") = false ->
  dispatch now st message =
    (st, [Log (LogUnknownType (dict_get message "type"))], Ok None).
Proof.
  unfold recognized. simpl. intros H.
  repeat (apply orb_false_elim in H; destruct H as [? H]).
  unfold Worker.dispatch.
  repeat match goal with Heq : eq_str _ _ = false |- _ => rewrite Heq; clear Heq end.
  reflexivity.
Qed.

(** Only a shutdown request makes the body of the loop return. *)
Lemma dispatch_returns now st message code :
  snd (dispatch now st message) = Ok (Some code) ->
  eq_str (dict_get message "type") "shutdown" = true /\ code = 0%Z.
Proof.
  unfold Worker.dispatch.
  destruct (eq_str (dict_get message "type") "shutdown"); simpl.
  - intros [= <-]. auto.
  - destruct (eq_str (dict_get message "type") "start").
    { destruct (int_or _ _ 16000); [|discriminate].
      destruct (int_or _ _ 1); [|discriminate].
      destruct (start _ _ _ _ _ _ _) as [r [[]|e]]; [|discriminate].
      by destruct (respond_cases {| recorder := r; files := files st |}
                     (Started (dict_get message "id"))) as [[-> _]|[-> _]]. }
    destruct (eq_str (dict_get message "type") "stop").
    { destruct (negb _); [discriminate|].
      destruct (stop _ _ _ _) as [[r fs] [[frames peak]|e]]; [|discriminate].
      by destruct (respond_cases {| recorder := r; files := fs |}
                     (Stopped (dict_get message "id")
                        (dict_get message "wav_path") frames peak))
        as [[-> _]|[-> _]]. }
    destruct (eq_str (dict_get message "type") "cancel"); [|discriminate].
    by destruct (respond_cases
                   {| recorder := cancel (recorder st); files := files st |}
                   (Canceled (dict_get message "id"))) as [[-> _]|[-> _]].
Qed.

(** One turn on a line that decodes to an object. *)
Lemma main_step_object now st line message :
  strip line <> "" ->
  json_loads (strip line) = Some (JObj message) ->
  main_step now st line =
    match dispatch now st message with
    | (st', written, Ok (Some code)) => (st', written, Return code)
    | (st', written, Ok None) => (st', written, Continue)
    | (st', written, Raise e) =>
        let failure := Error (dict_get message "id") (str_exn e) in
        if writable stdout_encodes failure then
          (st', written ++ [Log (LogTraceback e); Write failure], Continue)
        else
          (st', written ++ [Log (LogTraceback e)],
           Uncaught (UnicodeEncodeError (encode_error failure)))
    end.
Proof.
  intros Hne Hdec. unfold Worker.main_step.
  destruct (String.eqb_spec (strip line) "") as [|_]; [done|].
  rewrite Hdec.
  destruct (dispatch now st message) as [[st' written] [[code|]|e]];
    try reflexivity.
  unfold Worker._write_json. cbv zeta.
  by destruct (writable stdout_encodes _).
Qed.

Lemma main_step_blank now st line :
  strip line = "" -> main_step now st line = (st, [], Continue).
Proof. intros H. unfold Worker.main_step. by rewrite H. Qed.

Lemma main_step_non_json now st line :
  strip line <> "" ->
  json_loads (strip line) = None ->
  main_step now st line = (st, [Log (LogNonJson (strip line))], Continue).
Proof.
  intros Hne Hdec. unfold Worker.main_step.
  destruct (String.eqb_spec (strip line) "") as [|_]; [done|].
  by rewrite Hdec.
Qed.

(** A line that decodes to something else than an object ends the loop with
    an exception no [try] of the loop covers. *)
Lemma main_step_not_an_object now st line v :
  strip line <> "" ->
  json_loads (strip line) = Some v ->
  (forall message, v <> JObj message) ->
  main_step now st line =
    (st, [],
     Uncaught (AttributeError
       ("'" +:+ type_name v +:+ "' object has no attribute 'get'"))).
Proof.
  intros Hne Hdec Hv. unfold Worker.main_step.
  destruct (String.eqb_spec (strip line) "") as [|_]; [done|].
  rewrite Hdec. destruct v; try reflexivity. by destruct (Hv fields).
Qed.

(** The loop goes on after a turn that ends with [Continue]. *)
Lemma main_loop_continue now st line st' written rest :
  main_step now st line = (st', written, Continue) ->
  main_loop st (StdinLine now line :: rest) =
    (let '(st'', written', c) := main_loop st' rest in
     (st'', written ++ written', c)).
Proof. intros H. simpl. by rewrite H. Qed.

(** The protocol loop writes no waveform event and keeps the smoothed
    level of the recorder positive. *)
Lemma dispatch_level now st message :
  (0 < _peak_level (recorder st))%R ->
  (0 < _peak_level (recorder (fst (fst (dispatch now st message)))))%R /\
  Forall waveform_in_range (snd (fst (dispatch now st message))).
Proof.
  intros Hp. unfold Worker.dispatch.
  destruct (eq_str (dict_get message "type") "shutdown").
  { simpl. split; [exact Hp | repeat constructor]. }
  destruct (eq_str (dict_get message "type") "start").
  { destruct (int_or _ _ 16000) as [sample_rate|e]; [|by split].
    destruct (int_or _ _ 1) as [channels|e]; [|by split].
    pose proof (RecorderFacts.start_peak_level py_str sd now (recorder st)
                  (dict_get message "device_name") sample_rate channels Hp) as Hs.
    destruct (start _ _ _ _ _ _ _) as [r [[]|e]]; simpl in Hs;
      [|by split].
    by destruct (respond_cases {| recorder := r; files := files st |}
                   (Started (dict_get message "id"))) as [[-> _]|[-> _]];
      (split; [exact Hs | repeat constructor]). }
  destruct (eq_str (dict_get message "type") "stop").
  { destruct (negb _); [by split|].
    pose proof (RecorderFacts.stop_peak_level astype_int16 (recorder st) (files st)
                  (str py_str (dict_get message "wav_path"))) as Hs.
    destruct (stop _ _ _ _) as [[r fs] [[frames peak]|e]]; simpl in Hs;
      [|by simpl; rewrite Hs; split].
    by destruct (respond_cases {| recorder := r; files := fs |}
                   (Stopped (dict_get message "id")
                      (dict_get message "wav_path") frames peak))
      as [[-> _]|[-> _]]; simpl; rewrite Hs;
      (split; [exact Hp | repeat constructor]). }
  destruct (eq_str (dict_get message "type") "cancel");
    [|by split; [exact Hp | repeat constructor]].
  by destruct (respond_cases
                 {| recorder := cancel (recorder st); files := files st |}
                 (Canceled (dict_get message "id"))) as [[-> _]|[-> _]];
    simpl; (split; [exact Hp | repeat constructor]).
Qed.

Lemma main_step_level now st line :
  (0 < _peak_level (recorder st))%R ->
  (0 < _peak_level (recorder (fst (fst (main_step now st line)))))%R /\
  Forall waveform_in_range (snd (fst (main_step now st line))).
Proof.
  intros Hp. unfold Worker.main_step.
  destruct (String.eqb _ _); [by split|].
  destruct (json_loads _) as [v|]; [|split; [exact Hp | repeat constructor]].
  destruct v; try by split.
  pose proof (dispatch_level now st fields Hp) as [Hl Hw].
  destruct (dispatch now st fields) as [[st' written] [[code|]|e]]; simpl in *;
    try (split; assumption).
  destruct (Worker._write_json _ _ _); simpl; (split; [assumption|]);
    (apply Forall_app; split; [exact Hw | repeat constructor]).
Qed.

(** Every line the worker writes during a run meets what the specification
    asks of a waveform event, whatever the lines it reads and the blocks the
    driver hands it. *)
Lemma main_loop_in_range inputs : forall st,
  (0 < _peak_level (recorder st))%R ->
  Forall waveform_in_range (snd (fst (main_loop st inputs))).
Proof.
  induction inputs as [|[now line|indata status now] inputs IH]; intros st Hp.
  - constructor.
  - simpl. pose proof (main_step_level now st line Hp) as [Hl Hw].
    destruct (main_step now st line) as [[st' written] c]. simpl in Hl, Hw.
    specialize (IH st' Hl).
    destruct c; try exact Hw.
    destruct (main_loop st' inputs) as [[st'' written'] c']. simpl in *.
    apply Forall_app. by split.
  - simpl.
    pose proof (RecorderFacts.callback_peak_level (recorder st) indata status now Hp)
      as Hl.
    pose proof (RecorderFacts.callback_in_range (recorder st) indata status now Hp)
      as Hw.
    destruct (callback (recorder st) indata status now) as [r written].
    simpl in Hl, Hw.
    specialize (IH {| recorder := r; files := files st |} Hl).
    destruct (main_loop _ inputs) as [[st'' written'] c']. simpl in *.
    apply Forall_app. by split.
Qed.

Lemma main_in_range fs inputs :
  Forall waveform_in_range
    (snd (fst (Worker.main json_loads int_of_str py_str astype_int16 sd
                 stdout_encodes encode_error fs inputs))).
Proof.
  unfold Worker.main.
  pose proof (main_loop_in_range inputs {| recorder := __init__; files := fs |})
    as H.
  destruct (main_loop _ inputs) as [[st written] c]. simpl in *.
  constructor; [exact I|]. apply H. lra.
Qed.

End Facts.
End WorkerFacts.

Module WorkerClaims.
Import Recorder Worker Scenario Transcript WorkerFacts.

(** C7, as stated, fails. A line of white space, of spaces or of a
    no-break space, does not decode, and the loop skips it without a log
    entry. (And the loop can end on a request: a line that decodes to a
    value that is not an object, the text of an empty array here, makes
    [message.get] raise outside both [try] blocks; a request whose id the
    output stream cannot encode makes the write of its response raise, and
    then the write of the error line in the handler.) *)
Lemma blank_line_is_not_logged :
  decode [] (strip " ") = None /\
  main_step (decode []) no_int type_text truncate desk utf8_strict encode_text
    0 fresh " " = (fresh, [], Continue) /\
  main_step (decode [("[]", JArr [])]) no_int type_text truncate desk
    utf8_strict encode_text 0 fresh "[]" =
    (fresh, [],
     Uncaught (AttributeError "'list' object has no attribute 'get'")) /\
  main_step (decode []) no_int type_text truncate desk utf8_strict encode_text
    0 fresh no_break_space = (fresh, [], Continue) /\
  main_step (decode surrogate_lines) no_int type_text truncate desk
    utf8_strict encode_text 0 fresh surrogate_cancel_line =
    (fresh,
     [Log (LogTraceback
             (UnicodeEncodeError (encode_text (Canceled (JStr lone_surrogate)))))],
     Uncaught
       (UnicodeEncodeError
          (encode_text
             (Error (JStr lone_surrogate)
                (encode_text (Canceled (JStr lone_surrogate))))))).
Proof. repeat split. Qed.

(** C7, amended: on a line that is blank, that does not decode, or that
    decodes to an object other than a shutdown request and such that the
    output stream can encode the error line of an exception its handling
    raises, the turn of the loop ends with [Continue] and the loop goes on
    with the next input. A blank line is skipped in silence. A line that is
    not blank and does not decode is logged and changes nothing. A request
    of a type the loop does not know is logged and changes nothing. A
    request whose handling raises is answered, after what the handler
    wrote, by a logged trace and an error response that carries the request
    id and the text of the exception. *)
Theorem protocol_loop_survives
  json_loads int_of_str py_str astype_int16 sd stdout_encodes encode_error
  now st line :
  let l := strip line in
  let dispatch :=
    dispatch int_of_str py_str astype_int16 sd stdout_encodes encode_error in
  let main_loop :=
    main_loop json_loads int_of_str py_str astype_int16 sd stdout_encodes
      encode_error in
  let step :=
    main_step json_loads int_of_str py_str astype_int16 sd stdout_encodes
      encode_error now st line in
  l = "" \/ json_loads l = None \/
    (exists message,
       json_loads l = Some (JObj message) /\
       eq_str (dict_get message "type") "shutdown" = false /\
       forall st' written e,
         dispatch now st message = (st', written, Raise e) ->
         writable stdout_encodes (Error (dict_get message "id") (str_exn e))
           = true) ->
  snd step = Continue /\
  (forall rest,
     main_loop st (StdinLine now line :: rest) =
     (let '(st', written, c) := main_loop (fst (fst step)) rest in
      (st', snd (fst step) ++ written, c))) /\
  (l = "" -> step = (st, [], Continue)) /\
  (l <> "" -> json_loads l = None ->
   step = (st, [Log (LogNonJson l)], Continue)) /\
  (forall message,
     l <> "" -> json_loads l = Some (JObj message) ->
     (recognized (dict_get message "type") = false ->
      step = (st, [Log (LogUnknownType (dict_get message "type"))], Continue)) /\
     (forall st' written e,
        dispatch now st message = (st', written, Raise e) ->
        step =
          (st',
           written ++ [Log (LogTraceback e);
                       Write (Error (dict_get message "id") (str_exn e))],
           Continue))).
Proof.
  intros l dispatch main_loop step Hline.
  assert (Hraise : forall message st' written e,
             l <> "" -> json_loads l = Some (JObj message) ->
             dispatch now st message = (st', written, Raise e) ->
             step =
               (st',
                written ++ [Log (LogTraceback e);
                            Write (Error (dict_get message "id") (str_exn e))],
                Continue)).
  { intros message st' written e Hnb Hdec Hd.
    destruct Hline as [Hb|[Hnone|(message' & Hdec' & _ & Hw)]];
      [done | unfold l in *; congruence |].
    assert (message' = message) as -> by (unfold l in *; congruence).
    unfold step. rewrite (main_step_object _ _ _ _ _ _ _ _ _ _ _ Hnb Hdec).
    fold dispatch. rewrite Hd. cbv zeta. by rewrite (Hw _ _ _ Hd). }
  assert (Hcont : snd step = Continue).
  { destruct (String.eqb_spec l "") as [Hb|Hnb].
    - unfold step. by rewrite main_step_blank.
    - destruct Hline as [Hb|[Hnone|(message & Hdec & Hshut & Hw)]]; [done| |].
      + unfold step. by rewrite main_step_non_json.
      + destruct (dispatch now st message) as [[st' written] [[code|]|e]] eqn:Hd.
        * pose proof (dispatch_returns int_of_str py_str astype_int16 sd
                        stdout_encodes encode_error now st message code) as Hret.
          fold dispatch in Hret. rewrite Hd in Hret.
          destruct (Hret eq_refl) as [Hs _]. congruence.
        * unfold step. rewrite (main_step_object _ _ _ _ _ _ _ _ _ _ _ Hnb Hdec).
          fold dispatch. by rewrite Hd.
        * by rewrite (Hraise _ _ _ _ Hnb Hdec Hd). }
  split; [exact Hcont|]. split; [|split; [|split]].
  - intros rest. destruct step as [[st' written] c] eqn:Hstep. simpl in Hcont.
    subst c. by apply main_loop_continue.
  - intros Hb. by apply main_step_blank.
  - intros Hnb Hnone. by apply main_step_non_json.
  - intros message Hnb Hdec. split.
    + intros Hun. unfold step.
      rewrite (main_step_object _ _ _ _ _ _ _ _ _ _ _ Hnb Hdec).
      by rewrite dispatch_unrecognized.
    + intros st' written e Hd. by apply Hraise.
Qed.

Lemma protocol_loop_survives_witness :
  main_step (decode []) no_int type_text truncate desk utf8_strict encode_text
    0 fresh "  oops " =
    (fresh, [Log (LogNonJson "oops")], Continue).
Proof.
  apply (protocol_loop_survives (decode []) no_int type_text truncate desk
           utf8_strict encode_text 0 fresh "  oops ").
  - right. left. reflexivity.
  - discriminate.
  - reflexivity.
Defined.

(** C9: in a start request, a [sample_rate] that is missing, null or zero
    is replaced by 16000 and a [channels] that is missing, null or zero is
    replaced by 1; the recorder is started with the values that result. *)
Theorem start_request_defaults
  int_of_str py_str astype_int16 sd stdout_encodes encode_error now st message :
  eq_str (dict_get message "type") "start" = true ->
  (defaulted message "sample_rate" ->
   int_or int_of_str (dict_get message "sample_rate") 16000 = Ok 16000%Z) /\
  (defaulted message "channels" ->
   int_or int_of_str (dict_get message "channels") 1 = Ok 1%Z) /\
  (forall sample_rate channels,
     int_or int_of_str (dict_get message "sample_rate") 16000 = Ok sample_rate ->
     int_or int_of_str (dict_get message "channels") 1 = Ok channels ->
     dispatch int_of_str py_str astype_int16 sd stdout_encodes encode_error
       now st message =
       (let '(r, outcome) :=
          start py_str sd now (recorder st) (dict_get message "device_name")
            sample_rate channels in
        let st' := {| recorder := r; files := files st |} in
        match outcome with
        | Raise e => (st', [], Raise e)
        | Ok _ =>
            respond stdout_encodes encode_error st'
              (Started (dict_get message "id"))
        end)).
Proof.
  intros Htype. split; [|split].
  - intros Hd. by apply int_or_falsy, defaulted_falsy.
  - intros Hd. by apply int_or_falsy, defaulted_falsy.
  - intros sample_rate channels Hs Hc. unfold dispatch.
    destruct (dict_get message "type") as [| | | |t| |]; try discriminate.
    simpl in Htype. apply String.eqb_eq in Htype. subst t. simpl.
    rewrite Hs, Hc. reflexivity.
Qed.

Lemma start_request_defaults_witness :
  let st :=
    fst (fst (dispatch no_int type_text truncate desk utf8_strict encode_text
                0 fresh bare_start)) in
  _sample_rate (recorder st) = Some 16000%Z /\
  _channels (recorder st) = Some 1%Z /\
  snd (fst (dispatch no_int type_text truncate desk utf8_strict encode_text
              0 fresh bare_start)) =
    [Write (Started (JInt 1))].
Proof.
  destruct (start_request_defaults no_int type_text truncate desk utf8_strict
              encode_text 0 fresh bare_start eq_refl) as (Hs & Hc & Hd).
  rewrite (Hd 16000%Z 1%Z (Hs I) (Hc I)).
  repeat split.
Defined.

End WorkerClaims.

(** ** Properties of the client *)

Module ClientFacts.
Import Client.

(** A message whose type is the text [t] meets a predicate on types listed
    in [names] only if [t] is among them. *)
Lemma terminal_other_type names req_id (m : message) t :
  dict_get m "type" = JStr t ->
  existsb (String.eqb t) names = false ->
  terminal names req_id m = Ok false.
Proof. intros Ht Hn. unfold terminal. rewrite Ht. simpl. by rewrite Hn. Qed.

(** The wait passes over the messages its predicate rejects. *)
Lemma wait_skips predicate skipped : forall polls,
  Forall (fun m => eq_str (dict_get m "type") "eof" = false /\
                   predicate m = Ok false) skipped ->
  _wait_for_locked predicate (map Dequeued skipped ++ polls) =
  _wait_for_locked predicate polls.
Proof.
  induction skipped as [|m skipped IH]; intros polls Hall; simpl.
  - reflexivity.
  - inversion Hall as [|? ? [He Hp] Hrest]; subst.
    rewrite He, Hp. by apply IH.
Qed.

Section Reader.

Variable json_loads : string -> option json.
Variable cb : bool.
Variable loads_error : string -> option exn.

Abbreviation read_line := (read_line json_loads cb loads_error).

Lemma read_line_blank rd line : strip line = "" -> read_line rd line = Ok rd.
Proof. intros H. unfold Client.read_line. by rewrite H. Qed.

(** A line [json.loads] rejects with a [json.JSONDecodeError] is queued as a
    message of type [stdout]; *)
Lemma read_line_decode_error rd line :
  strip line <> "" ->
  json_loads (strip line) = None ->
  loads_error (strip line) = None ->
  read_line rd line =
    Ok {| queue := queue rd ++ [stdout_message (strip line)];
          handed := handed rd |}.
Proof.
  intros Hnb Hdec Herr. unfold Client.read_line.
  destruct (String.eqb_spec (strip line) "") as [|_]; [done|].
  by rewrite Hdec, Herr.
Qed.

(** on another exception of [json.loads] the reader task ends. *)
Lemma read_line_other_error rd line e :
  strip line <> "" ->
  json_loads (strip line) = None ->
  loads_error (strip line) = Some e ->
  read_line rd line = Raise e.
Proof.
  intros Hnb Hdec Herr. unfold Client.read_line.
  destruct (String.eqb_spec (strip line) "") as [|_]; [done|].
  by rewrite Hdec, Herr.
Qed.

End Reader.

End ClientFacts.

Module ClientClaims.
Import Client ClientFacts Scenario.

(** C8: when the wait dequeues the sentinel before any message its
    predicate accepts, it returns at once the made-up error response, whose
    text is "Audio worker exited unexpectedly" (the words of the claim,
    after the word "Audio"), and leaves the rest of the queue alone. *)
Theorem eof_ends_the_wait predicate skipped rest :
  Forall (fun m => eq_str (dict_get m "type") "eof" = false /\
                   predicate m = Ok false) skipped ->
  _wait_for_locked predicate (map Dequeued skipped ++ Dequeued eof :: rest) =
    (Ok (Some worker_exited), rest) /\
  dict_get worker_exited "type" = JStr "error" /\
  dict_get worker_exited "error" =
    JStr ("Audio " +:+ "worker exited unexpectedly").
Proof.
  intros Hall. split; [|split; reflexivity].
  rewrite wait_skips by exact Hall. reflexivity.
Qed.

Lemma eof_ends_the_wait_witness :
  _wait_for_locked (start_recording_predicate 2)
    [Dequeued (stdout_message "warming up");
     Dequeued [("type", JStr "started"); ("id", JInt 1)];
     Dequeued eof;
     Dequeued [("type", JStr "started"); ("id", JInt 2)]] =
  (Ok (Some worker_exited),
   [Dequeued [("type", JStr "started"); ("id", JInt 2)]]).
Proof.
  apply (eof_ends_the_wait (start_recording_predicate 2)
           [stdout_message "warming up";
            [("type", JStr "started"); ("id", JInt 1)]]
           [Dequeued [("type", JStr "started"); ("id", JInt 2)]]).
  repeat constructor.
Defined.

(** C10, as stated, fails: a line of white space does not decode, and the
    reader drops it; and the message queued for a line that does not decode
    carries the line without the white space around it, not the line as it
    was read. (And the handler of the reader catches
    [json.JSONDecodeError] only: on a line that makes [json.loads] raise
    another exception, the limit on the digits of an integer here, the
    reader task ends and nothing is queued.) *)
Lemma blank_line_is_discarded :
  decode [] (strip " ") = None /\
  read_line (decode []) true decode_errors_only
    {| queue := []; handed := [] |} " " =
    Ok {| queue := []; handed := [] |} /\
  read_line (decode []) true decode_errors_only
    {| queue := []; handed := [] |} " oops " =
    Ok {| queue := [[("type", JStr "stdout"); ("line", JStr "oops")]];
          handed := [] |} /\
  read_line (decode []) true decode_errors_only
    {| queue := []; handed := [] |} no_break_space =
    Ok {| queue := []; handed := [] |} /\
  _read_stdout (decode []) true digits_limit
    {| queue := []; handed := [] |} [long_number] =
    ({| queue := []; handed := [] |},
     Some (ValueError
       ("Exceeds the limit (4300 digits) for integer string conversion: " +:+
        "value has 5000 digits; use sys.set_int_max_str_digits() " +:+
        "to increase the limit"))).
Proof. repeat split; vm_compute; reflexivity. Qed.

(** C10, amended: for every line that is not blank and that [json.loads]
    rejects with a [json.JSONDecodeError], the reader puts on the queue a
    message of type "stdout" that carries the line stripped of the white
    space around it; that message meets none of the predicates the commands
    and the handshake wait with, so a wait passes over it. *)
Theorem non_json_line_is_queued json_loads cb loads_error rd line :
  strip line <> "" ->
  json_loads (strip line) = None ->
  loads_error (strip line) = None ->
  let m := stdout_message (strip line) in
  read_line json_loads cb loads_error rd line =
    Ok {| queue := queue rd ++ [m]; handed := handed rd |} /\
  (forall req_id,
     start_recording_predicate req_id m = Ok false /\
     stop_recording_predicate req_id m = Ok false /\
     cancel_recording_predicate req_id m = Ok false) /\
  ready_predicate m = Ok false /\
  (forall predicate polls,
     predicate m = Ok false ->
     _wait_for_locked predicate (Dequeued m :: polls) =
     _wait_for_locked predicate polls).
Proof.
  intros Hnb Hdec Herr m. split; [|split; [|split]].
  - by apply read_line_decode_error.
  - intros req_id. repeat split.
  - reflexivity.
  - intros predicate polls Hp. simpl. by rewrite Hp.
Qed.

Lemma non_json_line_is_queued_witness :
  read_line (decode []) true decode_errors_only
    {| queue := [eof]; handed := [] |} "Traceback: " =
    Ok {| queue := [eof; stdout_message "Traceback:"]; handed := [] |}.
Proof.
  apply (non_json_line_is_queued (decode []) true decode_errors_only
           {| queue := [eof]; handed := [] |} "Traceback: ").
  - discriminate.
  - reflexivity.
  - reflexivity.
Defined.

End ClientClaims.

(** ** More on the recorder: sessions, devices, the smoothing state *)

Module RecorderExtras.
Import Waveform WaveformFacts Recorder Scenario Transcript RecorderFacts.
Open Scope R_scope.

Section Extras.

Variable py_str : json -> string.
Variable astype_int16 : R -> Z.

Abbreviation start := (Recorder.start py_str).
Abbreviation stop := (Recorder.stop astype_int16).
Abbreviation reachable := (Recorder.reachable py_str astype_int16).

(** [cancel] discards the session whatever was captured: the recorder
    is idle, holds no chunk and no stream, and a [stop] that follows
    returns 0 frames and a peak of 0, writes no file and changes nothing. *)
Theorem cancel_discards_session self blocks files wav_path :
  let s := cancel (feed self blocks) in
  _recording s = false /\ _chunks s = [] /\ _stream s = None /\
  stop s files wav_path = (s, files, Ok (0%nat, 0)).
Proof. repeat split. Qed.

Lemma stop_leaves_idle self files wav_path :
  _recording (fst (fst (stop self files wav_path))) = false.
Proof.
  unfold Recorder.stop. destruct (_recording self) eqn:Hr; simpl; [|exact Hr].
  destruct (_chunks self); [reflexivity|]. by destruct (np_max _).
Qed.

(** X1: [stop] always leaves the recorder idle, and a second [stop] returns
    0 frames and a peak of 0 and changes neither the recorder nor the
    files: at most one container is written per session. *)
Theorem stop_twice self files wav_path wav_path' :
  let s := fst (fst (stop self files wav_path)) in
  let fs := snd (fst (stop self files wav_path)) in
  _recording s = false /\
  stop s fs wav_path' = (s, fs, Ok (0%nat, 0)).
Proof.
  unfold Recorder.stop. destruct (_recording self) eqn:Hr; simpl.
  - destruct (_chunks self); [by rewrite ?Hr|].
    destruct (np_max _); simpl; auto.
  - by rewrite Hr.
Qed.

Lemma resolve_from_spec devs device_name : forall i,
  match resolve_from devs (JStr device_name) i with
  | Some j =>
      exists k dev, j = (i + k)%nat /\ devs !! k = Some dev /\
        (0 < max_input_channels dev)%Z /\ name dev = device_name /\
        forall k' dev', (k' < k)%nat -> devs !! k' = Some dev' ->
          ~ ((0 < max_input_channels dev')%Z /\ name dev' = device_name)
  | None =>
      Forall (fun dev => ~ ((0 < max_input_channels dev)%Z /\
                            name dev = device_name)) devs
  end.
Proof.
  induction devs as [|dev devs IH]; intros i; simpl; [constructor|].
  destruct (Z.ltb_spec 0 (max_input_channels dev)) as [Hpos|Hnone]; simpl.
  - destruct (String.eqb_spec device_name (name dev)) as [->|Hneq].
    + exists 0%nat, dev. split; [lia|]. split; [reflexivity|].
      split; [exact Hpos|]. split; [reflexivity|]. intros k' dev' Hk. lia.
    + specialize (IH (S i)).
      destruct (resolve_from devs (JStr device_name) (S i)) as [j|].
      * destruct IH as (k & d & -> & Hk & Hp & Hn & Hfirst).
        exists (S k), d. split; [lia|]. split; [exact Hk|].
        split; [exact Hp|]. split; [exact Hn|].
        intros [|k'] dev' Hlt Hl; simpl in Hl.
        -- injection Hl as <-. intros [_ H]. by apply Hneq.
        -- apply (Hfirst k'); [lia | exact Hl].
      * constructor; [|exact IH]. intros [_ H]. by apply Hneq.
  - specialize (IH (S i)).
    destruct (resolve_from devs (JStr device_name) (S i)) as [j|].
    + destruct IH as (k & d & -> & Hk & Hp & Hn & Hfirst).
      exists (S k), d. split; [lia|]. split; [exact Hk|].
      split; [exact Hp|]. split; [exact Hn|].
      intros [|k'] dev' Hlt Hl; simpl in Hl.
      * injection Hl as <-. intros [H _]. lia.
      * apply (Hfirst k'); [lia | exact Hl].
    + constructor; [|exact IH]. intros [H _]. lia.
Qed.

(** X2: [_resolve_device] returns the index of the first device of the
    driver's list that takes input and bears exactly the name, and [None]
    when, and only when, no such device is listed. *)
Theorem resolve_device_first_match sd device_name :
  match _resolve_device (JStr device_name) sd with
  | Some i =>
      exists dev, query_devices sd !! i = Some dev /\
        (0 < max_input_channels dev)%Z /\ name dev = device_name /\
        forall j dev', (j < i)%nat -> query_devices sd !! j = Some dev' ->
          ~ ((0 < max_input_channels dev')%Z /\ name dev' = device_name)
  | None => no_input_device sd device_name
  end.
Proof.
  unfold _resolve_device, no_input_device.
  pose proof (resolve_from_spec (query_devices sd) device_name 0) as H.
  destruct (resolve_from _ _ 0) as [i|]; [|exact H].
  destruct H as (k & dev & -> & H). exists dev. exact H.
Qed.

(** X3: when opening the input stream raises, [start] lets the exception
    through after it has armed the session: the recorder is left recording,
    with empty buffers and the stream it had, so that a [start] that
    follows raises "already recording", until [cancel] or [stop] makes the
    recorder idle again. *)
Theorem start_open_failure sd now self device_name sample_rate channels e :
  _recording self = false ->
  (truthy device_name = true -> _resolve_device device_name sd <> None) ->
  open_stream sd (device_index sd device_name) sample_rate channels = Some e ->
  let s := fst (start sd now self device_name sample_rate channels) in
  snd (start sd now self device_name sample_rate channels) = Raise e /\
  _recording s = true /\ _chunks s = [] /\ _stream s = _stream self /\
  (forall sd' now' device_name' sample_rate' channels',
     start sd' now' s device_name' sample_rate' channels' =
       (s, Raise AlreadyRecording)) /\
  _recording (cancel s) = false.
Proof.
  intros Hr Hres Hopen. unfold device_index in Hopen. unfold Recorder.start.
  rewrite Hr. destruct (truthy device_name).
  - destruct (_resolve_device device_name sd) as [i|]; [|by destruct Hres].
    rewrite Hopen. repeat split.
  - rewrite Hopen. repeat split.
Qed.

(** X4: a block that reaches the callback after [stop] or [cancel] has made
    the recorder idle changes nothing and writes nothing but the status
    log: the chunk is not appended and no waveform event is sent. *)
Theorem late_block_is_ignored self files wav_path indata status now :
  let logged :=
    match status with
    | Some flags => [Log (LogStatus flags)]
    | None => []
    end in
  let stopped := fst (fst (stop self files wav_path)) in
  callback stopped indata status now = (stopped, logged) /\
  callback (cancel self) indata status now = (cancel self, logged).
Proof.
  split.
  - pose proof (stop_leaves_idle self files wav_path) as Hr.
    unfold callback. by rewrite Hr.
  - reflexivity.
Qed.

Lemma push_history_length history current_max :
  (length history <= PEAK_WINDOW_SIZE)%nat ->
  (length (push_history history current_max) <= PEAK_WINDOW_SIZE)%nat.
Proof.
  intros H. unfold push_history.
  destruct (Nat.ltb_spec PEAK_WINDOW_SIZE (length (history ++ [current_max])))
    as [Hlt|Hge]; [|exact Hge].
  rewrite length_app in Hlt. simpl in Hlt.
  destruct history as [|x history]; simpl in *.
  - unfold PEAK_WINDOW_SIZE in *. lia.
  - rewrite length_app. simpl. lia.
Qed.

(** X5: the rolling history of peaks never holds more than 90 entries. *)
Theorem peak_history_bounded self :
  reachable self -> (length (_peak_history self) <= 90)%nat.
Proof.
  induction 1 as [|sd now self dn sr ch _ IH|self indata status now _ IH
                 |self files wav_path _ IH|self _ IH].
  - simpl. lia.
  - unfold Recorder.start. destruct (_recording self); [exact IH|].
    destruct (truthy dn).
    + destruct (_resolve_device dn sd); [|exact IH].
      destruct (open_stream sd _ _ _); simpl; lia.
    + destruct (open_stream sd _ _ _); simpl; lia.
  - unfold callback. destruct (_recording self); [|exact IH].
    destruct (Rge_dec _ _); [|exact IH].
    unfold _send_waveform. simpl.
    destruct (_waveform_buffer self ++ [indata]); simpl; [exact IH|].
    by apply push_history_length.
  - unfold Recorder.stop. destruct (_recording self); simpl; [|exact IH].
    destruct (_chunks self); [exact IH|]. destruct (np_max _); exact IH.
  - exact IH.
Qed.







(** X7: while the recorder records, the chunks pending for the next
    waveform event are the most recent chunks of the session: the waveform
    never shows audio that [stop] would not save. *)
Theorem pending_is_recent self :
  reachable self ->
  _recording self = true ->
  exists older, _chunks self = older ++ _waveform_buffer self.
Proof.
  induction 1 as [|sd now self dn sr ch _ IH|self indata status now _ IH
                 |self files wav_path _ IH|self _ IH].
  - discriminate.
  - unfold Recorder.start.
    destruct (_recording self) eqn:Hr; [simpl; intros _; by apply IH|].
    destruct (truthy dn).
    + destruct (_resolve_device dn sd); [|simpl; congruence].
      destruct (open_stream sd _ _ _); simpl; intros _; by exists [].
    + destruct (open_stream sd _ _ _); simpl; intros _; by exists [].
  - unfold callback. destruct (_recording self) eqn:Hr; [|simpl; congruence].
    destruct (IH eq_refl) as [older Ho].
    destruct (Rge_dec _ _).
    + unfold _send_waveform. simpl.
      destruct (_waveform_buffer self ++ [indata]) eqn:Hb; simpl.
      * by destruct (_waveform_buffer self).
      * intros _. eexists. by rewrite app_nil_r.
    + simpl. intros _. exists older. by rewrite Ho, app_assoc.
  - pose proof (stop_leaves_idle self files wav_path) as Hr.
    intros H. congruence.
  - discriminate.
Qed.

Lemma smooth_floor peak_level history :
  0.005 <= peak_level -> 0.005 <= smooth peak_level (target_peak history).
Proof.
  intros Hp. unfold smooth. pose proof (target_peak_floor history). lra.
Qed.

(** The smoothed level never falls below the floor of the target. *)
Lemma reachable_level_floor self : reachable self -> 0.005 <= _peak_level self.
Proof.
  induction 1 as [|sd now self dn sr ch _ IH|self indata status now _ IH
                 |self files wav_path _ IH|self _ IH].
  - simpl. lra.
  - unfold Recorder.start. destruct (_recording self); [exact IH|].
    destruct (truthy dn).
    + destruct (_resolve_device dn sd); [|exact IH].
      destruct (open_stream sd _ _ _); simpl; lra.
    + destruct (open_stream sd _ _ _); simpl; lra.
  - unfold callback. destruct (_recording self); [|exact IH].
    destruct (Rge_dec _ _); [|exact IH].
    unfold _send_waveform. simpl.
    destruct (_waveform_buffer self ++ [indata]); simpl; [exact IH|].
    by apply smooth_floor.
  - by rewrite stop_peak_level.
  - exact IH.
Qed.

Lemma normalize_gain peak_level raw :
  0.005 <= peak_level ->
  Forall (fun v => 0 <= v) raw ->
  Forall2 (fun v r => v <= 170 * r /\ (r = 0 -> v = 0))
    (normalize peak_level raw) raw.
Proof.
  intros Hp. induction 1 as [|r raw Hr _ IH]; simpl; constructor; [|exact IH].
  assert (Hinv : 0 < / peak_level <= 200).
  { split; [apply Rinv_0_lt_compat; lra|].
    replace 200 with (/ 0.005) by lra. apply Rinv_le_contravar; lra. }
  split.
  - eapply Rle_trans; [apply Rmin_r|]. unfold Rdiv. nra.
  - intros ->. unfold Rdiv. rewrite !Rmult_0_l. apply Rmin_right. lra.
Qed.

(** X8: the smoothed level a recorder normalizes with is never below 0.005,
    so that a bar is drawn at most 170 times its raw value, and a bar whose
    raw value is 0 is drawn at 0: silence is never amplified into a full
    bar. *)
Theorem gain_is_bounded self :
  reachable self ->
  _waveform_buffer self <> [] ->
  let audio := np_abs (first_channel (concatenate (_waveform_buffer self))) in
  exists values raw_peak,
    snd (_send_waveform self) = [Write (WaveformEvent values raw_peak)] /\
    0.005 <= _peak_level (fst (_send_waveform self)) /\
    Forall2 (fun v r => v <= 170 * r /\ (r = 0 -> v = 0))
      values (raw_values audio).
Proof.
  intros Hreach Hb audio. pose proof (reachable_level_floor self Hreach) as Hp.
  unfold _send_waveform. subst audio.
  destruct (_waveform_buffer self) as [|c cs]; [done|]. cbn [fst snd _peak_level].
  eexists _, _. split; [reflexivity|]. split; [by apply smooth_floor|].
  apply normalize_gain; [by apply smooth_floor | apply raw_values_nonneg].
Qed.

(** A [start] that returns has armed a fresh session. *)
Lemma start_ok sd now self device_name sample_rate channels s :
  start sd now self device_name sample_rate channels = (s, Ok ()) ->
  _recording self = false /\
  _recording s = true /\ _chunks s = [] /\ _waveform_buffer s = [] /\
  _sample_rate s = Some sample_rate /\ _channels s = Some channels /\
  _stream s = Some {| stream_device := device_index sd device_name;
                      samplerate := sample_rate;
                      stream_channels := channels |}.
Proof.
  unfold Recorder.start, device_index.
  destruct (_recording self); [discriminate|].
  destruct (truthy device_name).
  - destruct (_resolve_device device_name sd); [|discriminate].
    destruct (open_stream sd _ _ _); [discriminate|].
    intros [= <-]. repeat split.
  - destruct (open_stream sd _ _ _); [discriminate|].
    intros [= <-]. repeat split.
Qed.

(** X9: the container [stop] writes holds the session and nothing else:
    after a [start] that returned, the blocks the callback received, in
    order, cast sample by sample, at the rate given to [start] (16000 when
    that rate is 0); the chunks of an earlier session are not in it, and no
    other file is touched. *)
Theorem container_holds_the_session
  sd now self device_name sample_rate channels s blocks files wav_path :
  start sd now self device_name sample_rate channels = (s, Ok ()) ->
  concatenate (map block_data blocks) <> [] ->
  let fs := snd (fst (stop (feed s blocks) files wav_path)) in
  fs !! wav_path =
    Some {| rate := if (sample_rate =? 0)%Z then 16000%Z else sample_rate;
            data := to_int16 astype_int16 (concatenate (map block_data blocks)) |} /\
  forall other, other <> wav_path -> fs !! other = files !! other.
Proof.
  intros Hs Hne fs.
  destruct (start_ok _ _ _ _ _ _ _ Hs) as (_ & Hr & Hc & _ & Hsr & _).
  destruct (feed_recording blocks s Hr) as (Hr' & Hc' & Hsr').
  rewrite Hc in Hc'. simpl in Hc'.
  destruct (stop_recording astype_int16 (feed s blocks) files wav_path Hr')
    as (peak & _ & _ & Hfs & _); [by rewrite Hc'|].
  subst fs. rewrite Hfs, Hc'. unfold container_rate. rewrite Hsr', Hsr. split.
  - by rewrite lookup_insert_eq.
  - intros other Ho. by rewrite lookup_insert_ne.
Qed.

End Extras.

(** The recorder of the scenario: recording, one block captured and still
    pending. *)
Lemma in_session_state :
  Recorder.reachable type_text truncate in_session /\
  _recording in_session = true /\
  _chunks in_session = [[(0.5, []); (-0.25, [])]] /\
  _waveform_buffer in_session = [[(0.5, []); (-0.25, [])]].
Proof.
  split.
  { unfold in_session. apply feed_reachable, reach_start, reach_init. }
  unfold in_session. cbn [feed]. unfold callback.
  cbn [fst Recorder.start _recording __init__ truthy open_stream desk
       _last_waveform_time].
  destruct (Rge_dec _ _) as [H|_].
  - unfold WAVEFORM_INTERVAL_S in H. lra.
  - repeat split.
Qed.

Lemma start_open_failure_witness :
  let s := fst (Recorder.start type_text jammed 0 __init__ JNull 16000 1) in
  _recording s = true /\
  Recorder.start type_text desk 1 s JNull 16000 1 = (s, Raise AlreadyRecording).
Proof.
  destruct (start_open_failure type_text jammed 0 __init__ JNull 16000 1
              (PortAudioError "Error opening InputStream: Device unavailable")
              eq_refl) as (_ & Hr & _ & _ & Hagain & _).
  - discriminate.
  - reflexivity.
  - split; [exact Hr | apply Hagain].
Defined.

Lemma peak_history_bounded_witness :
  (length (_peak_history in_session) <= 90)%nat.
Proof.
  apply (peak_history_bounded type_text truncate in_session).
  apply in_session_state.
Defined.


Lemma pending_is_recent_witness :
  exists older, _chunks in_session = older ++ _waveform_buffer in_session.
Proof.
  destruct in_session_state as (Hreach & Hr & _).
  exact (pending_is_recent type_text truncate in_session Hreach Hr).
Defined.

Lemma gain_is_bounded_witness :
  exists values raw_peak,
    snd (_send_waveform in_session) = [Write (WaveformEvent values raw_peak)] /\
    0.005 <= _peak_level (fst (_send_waveform in_session)) /\
    Forall2 (fun v r => v <= 170 * r /\ (r = 0 -> v = 0)) values
      (raw_values
         (np_abs (first_channel (concatenate (_waveform_buffer in_session))))).
Proof.
  destruct in_session_state as (Hreach & _ & _ & Hb).
  apply (gain_is_bounded type_text truncate in_session Hreach).
  rewrite Hb. discriminate.
Defined.

Lemma container_holds_the_session_witness :
  let s := fst (Recorder.start type_text desk 0 __init__ JNull 0 1) in
  let c : chunk := [(0.5, []); (-0.25, [])] in
  snd (fst (Recorder.stop truncate (feed s [(c, None, 0.01)]) ∅ "take.wav"))
    !! "take.wav" =
  Some {| rate := 16000; data := to_int16 truncate c |}.
Proof.
  intros s c.
  destruct (container_holds_the_session type_text truncate desk 0 __init__ JNull
              0 1 s [(c, None, 0.01)] ∅ "take.wav" eq_refl) as [H _].
  - discriminate.
  - rewrite H. reflexivity.
Defined.

End RecorderExtras.

(** ** More on the protocol loop: responses, shutdown, files *)

Module WorkerExtras.
Import Recorder Worker Scenario Transcript WorkerFacts.

Section Extras.

Variable json_loads : string -> option json.
Variable int_of_str : string -> result Z.
Variable py_str : json -> string.
Variable astype_int16 : R -> Z.
Variable sd : driver.
Variable stdout_encodes : string -> bool.
Variable encode_error : reply -> string.

Abbreviation respond := (Worker.respond stdout_encodes encode_error).
Abbreviation dispatch :=
  (Worker.dispatch int_of_str py_str astype_int16 sd stdout_encodes
     encode_error).
Abbreviation main_step :=
  (Worker.main_step json_loads int_of_str py_str astype_int16 sd
     stdout_encodes encode_error).
Abbreviation main_loop :=
  (Worker.main_loop json_loads int_of_str py_str astype_int16 sd
     stdout_encodes encode_error).

Lemma writes_app w1 w2 : writes (w1 ++ w2) = writes w1 ++ writes w2.
Proof.
  induction w1 as [|[m|l] w1 IH]; simpl; [reflexivity| |exact IH].
  by rewrite IH.
Qed.

(** A response is written whole and the body of the loop goes on, or
    nothing is written and the write raises. *)
Lemma respond_answer st m :
  (respond st m = (st, [Write m], Ok None) /\
   writable stdout_encodes m = true) \/
  exists e, respond st m = (st, [], Raise e).
Proof.
  destruct (respond_cases stdout_encodes encode_error st m) as [H|[H _]];
    [by left | right; eauto].
Qed.

(** The body of the loop on a start, stop or cancel request: it writes the
    response of the request and goes on, or it writes nothing and raises. *)
Lemma dispatch_request now st message t :
  dict_get message "type" = JStr t ->
  t = "start" \/ t = "stop" \/ t = "cancel" ->
  (exists st' m,
     dispatch now st message = (st', [Write m], Ok None) /\
     reply_id m = Some (dict_get message "id") /\
     answers t m = true /\
     writable stdout_encodes m = true) \/
  (exists st' e, dispatch now st message = (st', [], Raise e)).
Proof.
  intros Ht Hcase. unfold Worker.dispatch. rewrite Ht.
  destruct Hcase as [-> | [-> | ->]]; simpl.
  - destruct (int_or _ _ 16000); [|right; eauto].
    destruct (int_or _ _ 1); [|right; eauto].
    destruct (start _ _ _ _ _ _ _) as [r [[]|e]]; [|right; eauto].
    destruct (respond_answer {| recorder := r; files := files st |}
                (Started (dict_get message "id"))) as [[-> Hw]|[e ->]];
      [left; eexists _, _; by repeat split | right; eauto].
  - destruct (negb _); [right; eauto|].
    destruct (stop _ _ _ _) as [[r fs] [[frames peak]|e]]; [|right; eauto].
    destruct (respond_answer {| recorder := r; files := fs |}
                (Stopped (dict_get message "id") (dict_get message "wav_path")
                   frames peak)) as [[-> Hw]|[e ->]];
      [left; eexists _, _; by repeat split | right; eauto].
  - destruct (respond_answer
                {| recorder := cancel (recorder st); files := files st |}
                (Canceled (dict_get message "id"))) as [[-> Hw]|[e ->]];
      [left; eexists _, _; by repeat split | right; eauto].
Qed.

(** X10: a start, stop or cancel request gets at most one line on the
    output stream. Either exactly one line is written, which the stream can
    encode: the response of the type of the request or an error, carrying
    the id of the request ([null] when the request has none); and the loop
    goes on. Or the handling of the request raised, the stream cannot
    encode the error line of the exception, no line is written, and the
    loop is left by the exception of the write of the handler. *)
Theorem one_response_per_request now st line message t :
  strip line <> "" ->
  json_loads (strip line) = Some (JObj message) ->
  dict_get message "type" = JStr t ->
  t = "start" \/ t = "stop" \/ t = "cancel" ->
  let step := main_step now st line in
  (exists m,
     writes (snd (fst step)) = [m] /\
     reply_id m = Some (dict_get message "id") /\
     answers t m = true /\
     writable stdout_encodes m = true /\
     snd step = Continue) \/
  (exists e,
     let failure := Error (dict_get message "id") (str_exn e) in
     writable stdout_encodes failure = false /\
     writes (snd (fst step)) = [] /\
     snd step = Uncaught (UnicodeEncodeError (encode_error failure))).
Proof.
  intros Hnb Hdec Ht Hcase step. subst step.
  rewrite (main_step_object _ _ _ _ _ _ _ _ _ _ _ Hnb Hdec).
  destruct (dispatch_request now st message t Ht Hcase)
    as [(st' & m & -> & Hid & Hans & Hw)|(st' & e & ->)].
  - left. exists m. by repeat split.
  - cbv zeta.
    destruct (writable stdout_encodes (Error (dict_get message "id") (str_exn e)))
      eqn:Hw.
    + left. eexists. by repeat split.
    + right. exists e. by repeat split.
Qed.

(** X11: a shutdown request cancels the session, is answered by the
    acknowledgement, and makes [main] return 0 without reading what follows
    on the input stream; no file is written. *)
Theorem shutdown_ends_the_loop now st line message rest :
  strip line <> "" ->
  json_loads (strip line) = Some (JObj message) ->
  eq_str (dict_get message "type") "shutdown" = true ->
  main_loop st (StdinLine now line :: rest) =
    ({| recorder := cancel (recorder st); files := files st |},
     [Write ShutdownAck], Return 0).
Proof.
  intros Hnb Hdec Ht. simpl.
  rewrite (main_step_object _ _ _ _ _ _ _ _ _ _ _ Hnb Hdec).
  unfold Worker.dispatch. by rewrite Ht.
Qed.

(** X12: a stop request whose [wav_path] is missing, null or empty
    raises "Missing wav_path" before the recorder is touched: a session in
    progress goes on. The request is answered by the error line with that
    text and its id when the output stream can encode the line; when it
    cannot, the trace is logged, no line is written and the exception of
    the write of the handler leaves the loop. *)
Theorem stop_request_without_path now st line message :
  strip line <> "" ->
  json_loads (strip line) = Some (JObj message) ->
  eq_str (dict_get message "type") "stop" = true ->
  truthy (dict_get message "wav_path") = false ->
  let failure := Error (dict_get message "id") "Missing wav_path" in
  main_step now st line =
    if writable stdout_encodes failure then
      (st,
       [Log (LogTraceback (ValueError "Missing wav_path")); Write failure],
       Continue)
    else
      (st,
       [Log (LogTraceback (ValueError "Missing wav_path"))],
       Uncaught (UnicodeEncodeError (encode_error failure))).
Proof.
  intros Hnb Hdec Ht Hp.
  rewrite (main_step_object _ _ _ _ _ _ _ _ _ _ _ Hnb Hdec).
  unfold Worker.dispatch.
  destruct (dict_get message "type") as [| | | |t| |]; try discriminate.
  simpl in Ht. apply String.eqb_eq in Ht. subst t. simpl. by rewrite Hp.
Qed.

Lemma dispatch_files now st message :
  eq_str (dict_get message "type") "stop" = false ->
  files (fst (fst (dispatch now st message))) = files st.
Proof.
  intros Ht. unfold Worker.dispatch. rewrite Ht.
  destruct (eq_str _ "shutdown"); [reflexivity|].
  destruct (eq_str _ "start").
  { destruct (int_or _ _ 16000); [|reflexivity].
    destruct (int_or _ _ 1); [|reflexivity].
    destruct (start _ _ _ _ _ _ _) as [r [[]|e]]; [|reflexivity].
    by destruct (respond_answer {| recorder := r; files := files st |}
                   (Started (dict_get message "id"))) as [[-> _]|[e ->]]. }
  destruct (eq_str _ "cancel"); [|reflexivity].
  by destruct (respond_answer
                 {| recorder := cancel (recorder st); files := files st |}
                 (Canceled (dict_get message "id"))) as [[-> _]|[e ->]].
Qed.

Lemma main_step_files now st line :
  is_stop_request json_loads line = false ->
  files (fst (fst (main_step now st line))) = files st.
Proof.
  unfold is_stop_request, Worker.main_step.
  destruct (String.eqb (strip line) ""); [reflexivity|].
  destruct (json_loads (strip line)) as [[| | | | | |message]|]; try reflexivity.
  simpl. intros Ht.
  pose proof (dispatch_files now st message Ht) as Hf.
  destruct (dispatch now st message) as [[st' written] [[code|]|e]];
    try exact Hf.
  by destruct (Worker._write_json _ _ _).
Qed.

(** X13: the worker writes and changes files on stop requests only:
    whatever the lines read and the blocks captured, if no line is a stop
    request the files at the end of the run are those at its beginning; a
    session that is started and cancelled leaves no container. *)
Theorem files_change_only_on_stop inputs : forall st,
  Forall (not_a_stop_request json_loads) inputs ->
  files (fst (fst (main_loop st inputs))) = files st.
Proof.
  induction inputs as [|[now line|indata status now] inputs IH]; intros st Hall.
  - reflexivity.
  - inversion Hall as [|? ? Hline Hrest]; subst. simpl in Hline. simpl.
    pose proof (main_step_files now st line Hline) as Hf.
    destruct (main_step now st line) as [[st' written] c]. simpl in Hf.
    destruct c; try exact Hf.
    specialize (IH st' Hrest).
    destruct (main_loop st' inputs) as [[st'' written'] c']. simpl in *.
    congruence.
  - inversion Hall as [|? ? _ Hrest]; subst. simpl.
    destruct (callback (recorder st) indata status now) as [r written].
    specialize (IH {| recorder := r; files := files st |} Hrest).
    destruct (main_loop _ inputs) as [[st'' written'] c']. simpl in *.
    exact IH.
Qed.

Lemma responses_app ms1 ms2 :
  responses (ms1 ++ ms2) = responses ms1 ++ responses ms2.
Proof.
  induction ms1 as [|m ms1 IH]; simpl; [reflexivity|].
  destruct m; simpl; by rewrite ?IH.
Qed.

(** The capture callback writes waveform events and log entries only. *)
Lemma callback_responses self indata status now :
  responses (writes (snd (callback self indata status now))) = [].
Proof.
  unfold callback.
  assert (Hlog : responses (writes
            match status with
            | Some flags => [Log (LogStatus flags)]
            | None => []
            end) = []) by (by destruct status).
  destruct (_recording self); [|exact Hlog].
  destruct (Rge_dec _ _); [|exact Hlog].
  unfold _send_waveform. cbn [_waveform_buffer].
  destruct (_waveform_buffer self ++ [indata]); cbn [snd];
    rewrite writes_app, responses_app, Hlog; reflexivity.
Qed.

(** The loop on a run of driver blocks: the callback is fed each block. *)
Lemma main_loop_blocks blocks : forall st rest,
  exists wb,
    responses (writes wb) = [] /\
    main_loop st (map block_input blocks ++ rest) =
      (let '(st', written, c) :=
         main_loop {| recorder := feed (recorder st) blocks; files := files st |}
           rest in
       (st', wb ++ written, c)).
Proof.
  induction blocks as [|[[indata status] now] blocks IH]; intros st rest.
  - exists []. split; [reflexivity|]. simpl.
    destruct st as [r fs]. simpl. by destruct (main_loop _ rest) as [[? ?] ?].
  - simpl.
    pose proof (callback_responses (recorder st) indata status now) as Hcb.
    destruct (callback (recorder st) indata status now) as [r w]. simpl in *.
    destruct (IH {| recorder := r; files := files st |} rest) as (wb & Hwb & ->).
    exists (w ++ wb). split.
    + by rewrite writes_app, responses_app, Hcb, Hwb.
    + simpl. destruct (main_loop _ rest) as [[st' written] c].
      by rewrite app_assoc.
Qed.

Lemma dispatch_start now st message sample_rate channels :
  eq_str (dict_get message "type") "start" = true ->
  int_or int_of_str (dict_get message "sample_rate") 16000 = Ok sample_rate ->
  int_or int_of_str (dict_get message "channels") 1 = Ok channels ->
  dispatch now st message =
    (let '(r, outcome) :=
       start py_str sd now (recorder st) (dict_get message "device_name")
         sample_rate channels in
     let st' := {| recorder := r; files := files st |} in
     match outcome with
     | Raise e => (st', [], Raise e)
     | Ok _ => respond st' (Started (dict_get message "id"))
     end).
Proof.
  intros Ht Hs Hc. unfold Worker.dispatch.
  destruct (dict_get message "type") as [| | | |t| |]; try discriminate.
  simpl in Ht. apply String.eqb_eq in Ht. subst t. simpl.
  by rewrite Hs, Hc.
Qed.

Lemma dispatch_stop now st message :
  eq_str (dict_get message "type") "stop" = true ->
  truthy (dict_get message "wav_path") = true ->
  dispatch now st message =
    (let '(r, fs, outcome) :=
       stop astype_int16 (recorder st) (files st)
         (str py_str (dict_get message "wav_path")) in
     let st' := {| recorder := r; files := fs |} in
     match outcome with
     | Raise e => (st', [], Raise e)
     | Ok (frames, peak) =>
         respond st'
           (Stopped (dict_get message "id") (dict_get message "wav_path")
              frames peak)
     end).
Proof.
  intros Ht Hp. unfold Worker.dispatch.
  destruct (dict_get message "type") as [| | | |t| |]; try discriminate.
  simpl in Ht. apply String.eqb_eq in Ht. subst t. simpl.
  by rewrite Hp.
Qed.

(** X14: a whole session through the protocol, with request ids and a
    path the output stream can encode. When the worker reads a start
    request that succeeds, the driver then hands it blocks holding at
    least one frame, and the worker reads a stop request with a path and
    then the end of its input, the responses it has written (the waveform
    events set aside) are: ready, started with the id of the start request,
    stopped with the id and the path of the stop request, the total number
    of frames of the blocks and their largest absolute sample; the
    container at the path holds that number of frames, the recorder is
    idle and [main] returns 0. *)
Theorem session_round_trip
  fs now1 line1 start_msg sample_rate channels s1 blocks now2 line2 stop_msg :
  strip line1 <> "" ->
  json_loads (strip line1) = Some (JObj start_msg) ->
  eq_str (dict_get start_msg "type") "start" = true ->
  int_or int_of_str (dict_get start_msg "sample_rate") 16000 = Ok sample_rate ->
  int_or int_of_str (dict_get start_msg "channels") 1 = Ok channels ->
  start py_str sd now1 __init__ (dict_get start_msg "device_name")
    sample_rate channels = (s1, Ok ()) ->
  encodable stdout_encodes (dict_get start_msg "id") = true ->
  Waveform.concatenate (map block_data blocks) <> [] ->
  strip line2 <> "" ->
  json_loads (strip line2) = Some (JObj stop_msg) ->
  eq_str (dict_get stop_msg "type") "stop" = true ->
  truthy (dict_get stop_msg "wav_path") = true ->
  encodable stdout_encodes (dict_get stop_msg "id") = true ->
  encodable stdout_encodes (dict_get stop_msg "wav_path") = true ->
  let run :=
    Worker.main json_loads int_of_str py_str astype_int16 sd stdout_encodes
      encode_error fs
      (StdinLine now1 line1 :: map block_input blocks ++ [StdinLine now2 line2]) in
  let frames := list_sum (map (@length Waveform.frame) (map block_data blocks)) in
  exists peak w,
    responses (writes (snd (fst run))) =
      [Ready; Started (dict_get start_msg "id");
       Stopped (dict_get stop_msg "id") (dict_get stop_msg "wav_path")
         frames peak] /\
    max_abs peak (samples (Waveform.concatenate (map block_data blocks))) /\
    files (fst (fst run)) !! str py_str (dict_get stop_msg "wav_path") = Some w /\
    length (data w) = frames /\
    _recording (recorder (fst (fst run))) = false /\
    snd run = Return 0.
Proof.
  intros Hnb1 Hdec1 Ht1 Hsr Hch Hstart Hid1 Hne Hnb2 Hdec2 Ht2 Hpath Hid2 Hwav
    run frames.
  destruct (RecorderExtras.start_ok _ _ _ _ _ _ _ _ Hstart)
    as (_ & Hr1 & Hc1 & _).
  destruct (RecorderFacts.feed_recording blocks s1 Hr1) as (Hr & Hc & _).
  rewrite Hc1 in Hc. simpl in Hc.
  destruct (RecorderFacts.stop_recording astype_int16 (feed s1 blocks) fs
              (str py_str (dict_get stop_msg "wav_path")) Hr)
    as (peak & Hmax & Hres & Hfs & Hidle); [by rewrite Hc|].
  rewrite Hc in Hmax, Hres, Hfs.
  exists peak. eexists.
  subst run. unfold Worker.main. cbn [Worker.main_loop].
  rewrite (main_step_object _ _ _ _ _ _ _ _ _ _ _ Hnb1 Hdec1).
  rewrite (dispatch_start _ _ _ _ _ Ht1 Hsr Hch). cbn [recorder files].
  rewrite Hstart. cbv zeta. cbv iota. cbv beta.
  rewrite respond_ok by exact Hid1.
  destruct (main_loop_blocks blocks {| recorder := s1; files := fs |}
              [StdinLine now2 line2]) as (wb & Hwb & ->).
  cbn [recorder files Worker.main_loop].
  rewrite (main_step_object _ _ _ _ _ _ _ _ _ _ _ Hnb2 Hdec2).
  rewrite (dispatch_stop _ _ _ Ht2 Hpath). cbn [recorder files].
  destruct (stop astype_int16 (feed s1 blocks) fs _) as [[r fs'] outcome].
  cbn [fst snd] in Hres, Hfs, Hidle. subst outcome fs'.
  rewrite respond_ok
    by (unfold writable, encodable in *; cbn [reply_texts];
        rewrite forallb_app; by rewrite Hid2, Hwav).
  cbn [fst snd recorder files].
  cbn [writes responses app].
  rewrite writes_app, responses_app, Hwb. cbn [writes responses app].
  subst frames.
  split; [reflexivity|]. split; [exact Hmax|].
  split; [apply lookup_insert_eq|]. split; [|by split].
  cbn [data]. rewrite RecorderFacts.to_int16_length.
  apply RecorderFacts.concatenate_length.
Qed.

(** X15: every waveform event a run of [main] writes carries 24 values
    between 0 and 1, whatever the lines it reads and the blocks the driver
    hands it, in whatever order. *)
Theorem run_waveforms_in_range fs inputs :
  Forall waveform_in_range
    (snd (fst (Worker.main json_loads int_of_str py_str astype_int16 sd
                 stdout_encodes encode_error fs inputs))).
Proof.
  unfold Worker.main.
  pose proof (WorkerFacts.main_loop_in_range json_loads int_of_str py_str
                astype_int16 sd stdout_encodes encode_error inputs
                {| recorder := __init__; files := fs |})
    as H.
  destruct (Worker.main_loop _ _ _ _ _ _ _ _ inputs) as [[st written] c].
  simpl in *.
  constructor; [exact I|]. apply H. lra.
Qed.

End Extras.

Lemma one_response_per_request_witness :
  let step :=
    Worker.main_step (decode session_lines) no_int type_text truncate desk
      utf8_strict encode_text 0 fresh cancel_line in
  (exists m,
     writes (snd (fst step)) = [m] /\
     reply_id m = Some (JInt 4) /\
     answers "cancel" m = true /\
     writable utf8_strict m = true /\
     snd step = Continue) \/
  (exists e,
     let failure := Error (JInt 4) (str_exn e) in
     writable utf8_strict failure = false /\
     writes (snd (fst step)) = [] /\
     snd step = Uncaught (UnicodeEncodeError (encode_text failure))).
Proof.
  apply (one_response_per_request (decode session_lines) no_int type_text
           truncate desk utf8_strict encode_text 0 fresh cancel_line
           [("type", JStr "cancel"); ("id", JInt 4)] "cancel").
  - discriminate.
  - reflexivity.
  - reflexivity.
  - right. right. reflexivity.
Defined.

Lemma shutdown_ends_the_loop_witness :
  Worker.main_loop (decode session_lines) no_int type_text truncate desk
    utf8_strict encode_text fresh
    [StdinLine 0 shutdown_line; StdinLine 1 start_line] =
  ({| recorder := cancel __init__; files := ∅ |}, [Write ShutdownAck], Return 0).
Proof.
  apply (shutdown_ends_the_loop (decode session_lines) no_int type_text
           truncate desk utf8_strict encode_text 0 fresh shutdown_line
           [("type", JStr "shutdown")] [StdinLine 1 start_line]).
  - discriminate.
  - reflexivity.
  - reflexivity.
Defined.

Lemma stop_request_without_path_witness :
  Worker.main_step (decode session_lines) no_int type_text truncate desk
    utf8_strict encode_text 0 fresh bare_stop_line =
  (fresh,
   [Log (LogTraceback (ValueError "Missing wav_path"));
    Write (Error (JInt 3) "Missing wav_path")],
   Continue).
Proof.
  apply (stop_request_without_path (decode session_lines) no_int type_text
           truncate desk utf8_strict encode_text 0 fresh bare_stop_line
           [("type", JStr "stop"); ("id", JInt 3)]).
  - discriminate.
  - reflexivity.
  - reflexivity.
  - reflexivity.
Defined.

Lemma files_change_only_on_stop_witness :
  files (fst (fst (Worker.main_loop (decode session_lines) no_int type_text
                     truncate desk utf8_strict encode_text fresh
                     [StdinLine 0 start_line;
                      DriverBlock [(0.5%R, [])] None 0.01%R;
                      StdinLine 1 cancel_line]))) = ∅.
Proof.
  apply (files_change_only_on_stop (decode session_lines) no_int type_text
           truncate desk utf8_strict encode_text _ fresh).
  repeat constructor.
Defined.

Lemma session_round_trip_witness :
  let run :=
    Worker.main (decode session_lines) no_int type_text truncate desk
      utf8_strict encode_text ∅
      [StdinLine 0 start_line;
       DriverBlock [(0.5%R, []); ((-0.25)%R, [])] None 0.01%R;
       StdinLine 1 stop_line] in
  exists peak w,
    responses (writes (snd (fst run))) =
      [Ready; Started (JInt 1); Stopped (JInt 2) (JStr "take.wav") 2 peak] /\
    max_abs peak [0.5%R; (-0.25)%R] /\
    files (fst (fst run)) !! "take.wav" = Some w /\
    length (data w) = 2 /\
    _recording (recorder (fst (fst run))) = false /\
    snd run = Return 0.
Proof.
  apply (session_round_trip (decode session_lines) no_int type_text truncate
           desk utf8_strict encode_text ∅ 0%R start_line
           [("type", JStr "start"); ("id", JInt 1)]
           16000 1
           (fst (start type_text desk 0 __init__ JNull 16000 1))
           [([(0.5%R, []); ((-0.25)%R, [])], None, 0.01%R)]
           1%R stop_line
           [("type", JStr "stop"); ("id", JInt 2); ("wav_path", JStr "take.wav")]);
    try reflexivity; discriminate.
Defined.

End WorkerExtras.

(** ** The client: writing, tearing down, reading results *)

Module SupervisorFacts.
Import Client Supervisor.

Lemma write_loop_from len turns : forall total,
  let '(r, n) := write_loop len total turns in
  (total <= n)%Z /\
  match r with
  | Returns _ => (len <= n)%Z
  | Raises (TimeoutError msg) =>
      (n < len)%Z /\ msg = "Timed out writing to audio worker stdin"
  | Raises (Exn e) =>
      (n < len)%Z /\
      (e = RuntimeError "Failed to write to audio worker stdin" \/
       In (Broke e) turns)
  | Raises _ => False
  end.
Proof.
  induction turns as [|turn turns IH]; intros total; simpl.
  - destruct (Z.leb_spec len total); simpl; [lia|]. by repeat split; try lia.
  - destruct (Z.leb_spec len total); simpl; [lia|].
    destruct turn as [| |written|e]; simpl; try (by repeat split; try lia).
    + destruct (Z.leb_spec written 0); simpl;
        [split; [lia|]; split; [lia|]; by left|].
      specialize (IH (total + written)%Z).
      destruct (write_loop len (total + written) turns) as [r n].
      destruct IH as [Hn Hr]. split; [lia|].
      destruct r as [|[msg| | |e]]; try exact Hr.
      destruct Hr as [Hlt [He|Hin]]; (split; [exact Hlt|]); auto.
    + split; [lia|]. split; [lia|]. right. by left.
Qed.

(** X16: [_write_line] fails its assertion, with nothing written, when the
    client holds no process. With a process it returns only when the pipe
    has taken the whole line; it raises a timeout (the deadline passed, or
    the pipe stayed full), a runtime error (a write of no byte) or what
    [select] or [os.write] raised, a broken pipe for one; and when it
    raises, the pipe has taken less than the line, so the worker may be
    left with a truncated line. *)
Theorem write_line_all_or_raise self len turns :
  let '(r, n) := _write_line self len turns in
  (0 <= n)%Z /\
  match r with
  | Returns _ => _proc self <> None /\ (len <= n)%Z
  | Raises AssertionError => _proc self = None /\ n = 0%Z
  | Raises (TimeoutError msg) =>
      _proc self <> None /\ (n < len)%Z /\
      msg = "Timed out writing to audio worker stdin"
  | Raises (Exn e) =>
      _proc self <> None /\ (n < len)%Z /\
      (e = RuntimeError "Failed to write to audio worker stdin" \/
       In (Broke e) turns)
  | Raises (FileNotFoundError _) => False
  end.
Proof.
  unfold _write_line. destruct (_proc self) as [worker|]; [|by repeat split].
  pose proof (write_loop_from len turns 0) as H.
  destruct (write_loop len 0 turns) as [r n]. destruct H as [Hn Hr].
  split; [exact Hn|].
  destruct r as [|[msg| | |e]]; try done.
Qed.

Section Results.

Variable int_of_str : string -> result Z.
Variable float_of_str : string -> result pyfloat.

Hypothesis int_of_str_raises :
  forall s e, int_of_str s = Raise e -> exists msg, e = ValueError msg.
Hypothesis float_of_str_raises :
  forall s e, float_of_str s = Raise e -> exists msg, e = ValueError msg.

Lemma py_int_raises v e :
  Worker.py_int int_of_str v = Raise e ->
  caught e = true \/ exists msg, e = OverflowError msg.
Proof.
  destruct v as [| | |[q| | |]| | |]; simpl; intros H; try discriminate;
    try (injection H as <-; auto; right; eauto).
  destruct (int_of_str_raises _ _ H) as [msg ->]. by left.
Qed.

Lemma py_float_raises v e :
  py_float float_of_str v = Raise e ->
  caught e = true \/ exists msg, e = OverflowError msg.
Proof.
  destruct v as [| |z| | | |]; simpl; intros H; try discriminate;
    try (injection H as <-; auto).
  - destruct (_ <=? _)%Z; [|discriminate]. injection H as <-. right. eauto.
  - destruct (float_of_str_raises _ _ H) as [msg ->]. by left.
Qed.

(** X17: the end of [stop_recording]. Frames and peak that are missing,
    null or zero give 0 and 0.0. When either conversion raises a type or
    value error the result is 0 and 0.0 for both, whatever the other field
    holds. The only exception that gets out is the overflow error of an
    infinite frame count or of an integer beyond the range of a float. *)
Theorem stopped_result_defaults (m : message) :
  (truthy (dict_get m "frames") = false ->
   truthy (dict_get m "peak") = false ->
   stopped_result int_of_str float_of_str m = Returns (0%Z, PFin 0)) /\
  (forall e,
     Worker.int_or int_of_str (dict_get m "frames") 0 = Raise e ->
     caught e = true ->
     stopped_result int_of_str float_of_str m = Returns (0%Z, PFin 0)) /\
  (forall n e,
     Worker.int_or int_of_str (dict_get m "frames") 0 = Ok n ->
     py_float float_of_str
       (if truthy (dict_get m "peak") then dict_get m "peak"
        else JFloat (PFin 0)) = Raise e ->
     caught e = true ->
     stopped_result int_of_str float_of_str m = Returns (0%Z, PFin 0)) /\
  match stopped_result int_of_str float_of_str m with
  | Returns _ | Raises (Exn (OverflowError _)) => True
  | Raises _ => False
  end.
Proof.
  unfold stopped_result, Worker.int_or. repeat split.
  - intros -> ->. reflexivity.
  - intros e -> ->. reflexivity.
  - intros n e -> -> ->. reflexivity.
  - destruct (Worker.py_int _ _) as [n|e] eqn:Hi.
    + destruct (py_float _ _) as [p|e] eqn:Hf; [exact I|].
      destruct (py_float_raises _ _ Hf) as [->|[msg ->]]; exact I.
    + destruct (py_int_raises _ _ Hi) as [->|[msg ->]]; exact I.
Qed.

End Results.

Lemma stopped_result_defaults_witness :
  stopped_result Scenario.no_int no_float
    [("type", JStr "stopped"); ("id", JInt 3); ("frames", JArr [JInt 480]);
     ("peak", JFloat (PFin (7 # 10)))] = Returns (0%Z, PFin 0) /\
  stopped_result Scenario.no_int no_float
    [("type", JStr "stopped"); ("id", JInt 3); ("frames", JInt 480);
     ("peak", JStr "loud")] = Returns (0%Z, PFin 0).
Proof.
  assert (Hi : forall s e, Scenario.no_int s = Raise e ->
                           exists msg, e = ValueError msg)
    by (intros s e [= <-]; eauto).
  assert (Hf : forall s e, no_float s = Raise e ->
                           exists msg, e = ValueError msg)
    by (intros s e [= <-]; eauto).
  split.
  - destruct (stopped_result_defaults Scenario.no_int no_float Hi Hf
      [("type", JStr "stopped"); ("id", JInt 3); ("frames", JArr [JInt 480]);
       ("peak", JFloat (PFin (7 # 10)))]) as (_ & H & _).
    eapply H; reflexivity.
  - destruct (stopped_result_defaults Scenario.no_int no_float Hi Hf
      [("type", JStr "stopped"); ("id", JInt 3); ("frames", JInt 480);
       ("peak", JStr "loud")]) as (_ & _ & H & _).
    eapply H; reflexivity.
Defined.

End SupervisorFacts.

(** ** The client: teardown *)

Module TeardownExtras.
Import Supervisor.

(** X18: a teardown begins by closing the input of the worker and ends by
    closing its output, and it spends at most 4 seconds waiting for the
    process, 3 when it is forced; a process found dead at every poll is
    sent no signal and waited for at no time. *)
Theorem teardown_is_bounded force t :
  (exists middle, escalate force t = CloseStdin :: middle ++ [CloseStdout]) /\
  waiting (escalate force t) <= 4 /\
  (force = true -> waiting (escalate force t) <= 3) /\
  ((forall site, alive t site = false) ->
   escalate force t = [CloseStdin; CloseStdout]).
Proof.
  split; [|unfold escalate; split; [|split]].
  - exists (removelast (tl (escalate force t))). unfold escalate.
    destruct (negb force && alive t BeforeWait), (alive t BeforeTerminate),
      (terminate_raises t), (alive t BeforeKill), (kill_raises t),
      (alive t InHandler); reflexivity.
  - destruct (negb force && alive t BeforeWait), (alive t BeforeTerminate),
      (terminate_raises t), (alive t BeforeKill), (kill_raises t),
      (alive t InHandler); simpl; lia.
  - intros ->. simpl.
    destruct (alive t BeforeTerminate), (terminate_raises t),
      (alive t BeforeKill), (kill_raises t), (alive t InHandler); simpl; lia.
  - intros Hdead. rewrite !Hdead, andb_false_r. reflexivity.
Qed.

(** X19: the signals of a teardown escalate: [terminate] is sent at most
    once and before any [kill], [kill] at most twice (the second time when
    the first raised); and when the process is alive at the poll before
    [terminate], [terminate] is the first signal it gets. *)
Theorem teardown_escalates force t :
  In (signals (escalate force t))
    [[]; [Terminate]; [Terminate; Kill]; [Terminate; Kill; Kill];
     [Kill]; [Kill; Kill]] /\
  (alive t BeforeTerminate = true ->
   exists later, signals (escalate force t) = Terminate :: later).
Proof.
  unfold escalate. split.
  - destruct (negb force && alive t BeforeWait), (alive t BeforeTerminate),
      (terminate_raises t), (alive t BeforeKill), (kill_raises t),
      (alive t InHandler); simpl; tauto.
  - intros ->.
    destruct (negb force && alive t BeforeWait), (terminate_raises t),
      (alive t BeforeKill), (kill_raises t), (alive t InHandler); simpl;
      eexists; reflexivity.
Qed.

Lemma teardown_is_bounded_witness :
  waiting (escalate true stubborn) <= 3 /\
  escalate false meek = [CloseStdin; CloseStdout].
Proof.
  destruct (teardown_is_bounded true stubborn) as (_ & _ & H3 & _).
  destruct (teardown_is_bounded false meek) as (_ & _ & _ & Hdead).
  split; [by apply H3 | by apply Hdead].
Defined.

Lemma teardown_escalates_witness :
  exists later, signals (escalate true stubborn) = Terminate :: later.
Proof.
  apply (proj2 (teardown_escalates true stubborn)). reflexivity.
Defined.

End TeardownExtras.

(** ** The client: workers and request ids over a run of calls *)

Module SupervisorExtras.
Import Client Supervisor.

Lemma launched_workers_app l1 l2 :
  launched_workers (l1 ++ l2) = launched_workers l1 ++ launched_workers l2.
Proof.
  induction l1 as [|[w|w f a|w r] l1 IH]; simpl; by rewrite ?IH.
Qed.

Lemma torn_workers_app l1 l2 :
  torn_workers (l1 ++ l2) = torn_workers l1 ++ torn_workers l2.
Proof.
  induction l1 as [|[w|w f a|w r] l1 IH]; simpl; by rewrite ?IH.
Qed.

Lemma sent_app l1 l2 : sent (l1 ++ l2) = sent l1 ++ sent l2.
Proof.
  induction l1 as [|[w|w f a|w r] l1 IH]; simpl; by rewrite ?IH.
Qed.

Lemma launches_app l1 l2 : launches (l1 ++ l2) = launches l1 + launches l2.
Proof. unfold launches. by rewrite launched_workers_app, length_app. Qed.

(** A wait raises only what its predicate raises. *)
Lemma wait_raises predicate polls e :
  fst (_wait_for_locked predicate polls) = Raise e ->
  exists m, predicate m = Raise e.
Proof.
  induction polls as [|[|m] polls IH]; simpl; try discriminate.
  destruct (eq_str _ _); [discriminate|].
  destruct (predicate m) as [[|]|e'] eqn:Hp; simpl; try discriminate.
  - exact IH.
  - intros [= <-]. eauto.
Qed.

Lemma terminal_raises names req_id m e :
  terminal names req_id m = Raise e -> exists msg, e = TypeError msg.
Proof.
  unfold terminal, in_str_set.
  destruct (dict_get m "type"); try discriminate;
    try (intros [= <-]; eauto).
  destruct (existsb _ _); discriminate.
Qed.

Lemma ready_predicate_raises m e :
  ready_predicate m = Raise e -> exists msg, e = TypeError msg.
Proof.
  unfold ready_predicate, in_str_set.
  destruct (dict_get m "type"); try discriminate; intros [= <-]; eauto.
Qed.

Section Run.

Variable py_str : json -> string.
Variable int_of_str : string -> result Z.
Variable float_of_str : string -> result pyfloat.
Variable tear : nat -> teardown.
Variable dumps_len : request -> Z.
Variable worker_path : string.

Abbreviation _stop_locked := (Supervisor._stop_locked tear).
Abbreviation launch := (Supervisor.launch py_str tear).
Abbreviation _ensure_running_locked :=
  (Supervisor._ensure_running_locked py_str tear worker_path).
Abbreviation send := (Supervisor.send dumps_len).
Abbreviation try_start := (Supervisor.try_start py_str tear dumps_len worker_path).
Abbreviation start_recording :=
  (Supervisor.start_recording py_str tear dumps_len worker_path).
Abbreviation stop_recording :=
  (Supervisor.stop_recording py_str int_of_str float_of_str tear dumps_len
     worker_path).
Abbreviation cancel_recording := (Supervisor.cancel_recording py_str dumps_len).
Abbreviation after :=
  (Supervisor.after py_str int_of_str float_of_str tear dumps_len worker_path).
Abbreviation run :=
  (Supervisor.run py_str int_of_str float_of_str tear dumps_len worker_path).

(** What a teardown leaves. *)
Lemma stop_locked_spec force self :
  _proc (_stop_locked force self) = None /\
  _next_id (_stop_locked force self) = _next_id self /\
  sent (log (_stop_locked force self)) = sent (log self) /\
  launched_workers (log (_stop_locked force self)) =
    launched_workers (log self) /\
  torn_workers (log (_stop_locked force self)) =
    torn_workers (log self) ++
    match _proc self with Some worker => [worker] | None => [] end.
Proof.
  unfold Supervisor._stop_locked. destruct (_proc self) as [worker|] eqn:Hp; simpl.
  - rewrite sent_app, launched_workers_app, torn_workers_app. simpl.
    by rewrite !app_nil_r.
  - by rewrite Hp, app_nil_r.
Qed.

Lemma stop_locked_one_worker force self :
  one_worker self -> one_worker (_stop_locked force self).
Proof.
  intros [Hl Hp]. unfold one_worker.
  destruct (stop_locked_spec force self) as (-> & _ & _ & Hlw & ->).
  unfold launches in *. rewrite Hlw. split; [exact Hl|].
  destruct (_proc self) as [worker|].
  - destruct Hp as [-> ->]. by rewrite seq_S.
  - by rewrite app_nil_r.
Qed.

(** What a launch leaves. *)
Lemma launch_spec self handshake :
  let self' := fst (launch self handshake) in
  _next_id self' = _next_id self /\
  sent (log self') = sent (log self) /\
  launched_workers (log self') =
    launched_workers (log self) ++ [launches (log self)] /\
  match snd (launch self handshake) with
  | Done =>
      _proc self' = Some (launches (log self)) /\
      torn_workers (log self') = torn_workers (log self)
  | Propagated e =>
      _proc self' = Some (launches (log self)) /\
      torn_workers (log self') = torn_workers (log self) /\
      exists msg, e = TypeError msg
  | Failed e =>
      _proc self' = None /\
      torn_workers (log self') = torn_workers (log self) ++ [launches (log self)] /\
      exists msg, e = TimeoutError msg \/ e = Exn (RuntimeError msg)
  end.
Proof.
  unfold Supervisor.launch.
  destruct (fst (_wait_for_locked ready_predicate handshake))
    as [[ready|]|e] eqn:Hw.
  - destruct (eq_str (dict_get ready "type") "ready"); simpl.
    + rewrite sent_app, launched_workers_app, torn_workers_app. simpl.
      by rewrite !app_nil_r.
    + rewrite !sent_app, !launched_workers_app, !torn_workers_app. simpl.
      rewrite !app_nil_r. repeat split; eauto.
  - simpl. rewrite !sent_app, !launched_workers_app, !torn_workers_app. simpl.
    rewrite !app_nil_r. repeat split; eauto.
  - simpl. rewrite sent_app, launched_workers_app, torn_workers_app. simpl.
    rewrite !app_nil_r. repeat split.
    destruct (wait_raises _ _ _ Hw) as [m Hm].
    by apply ready_predicate_raises in Hm.
Qed.

Lemma launch_one_worker self handshake :
  one_worker self -> _proc self = None ->
  one_worker (fst (launch self handshake)).
Proof.
  intros [Hl Hp] Hnone. rewrite Hnone in Hp.
  pose proof (launch_spec self handshake) as (_ & _ & Hlw & Hcase).
  unfold one_worker, launches in *.
  remember (length (launched_workers (log self))) as n eqn:Hn.
  assert (Hlen : length (launched_workers (log (fst (launch self handshake)))) = S n).
  { rewrite Hlw, length_app, <- Hn. simpl. lia. }
  rewrite Hlen. split; [by rewrite Hlw, Hl, seq_S|].
  destruct (snd (launch self handshake)).
  - destruct Hcase as [-> ->]. by rewrite Hp.
  - destruct Hcase as (-> & -> & _). by rewrite Hp, seq_S.
  - destruct Hcase as (-> & -> & _). by rewrite Hp.
Qed.

(** What [_ensure_running_locked] leaves. *)
Lemma ensure_spec self es :
  let self' := fst (_ensure_running_locked self es) in
  _next_id self' = _next_id self /\
  sent (log self') = sent (log self) /\
  launches (log self) <= launches (log self') <= launches (log self) + 2 /\
  (is_running self (running es) = true ->
   _ensure_running_locked self es = (self, Returns ())) /\
  match snd (_ensure_running_locked self es) with
  | Returns _ => is_Some (_proc self')
  | Raises (Exn (TypeError _)) => True
  | Raises _ => _proc self' = None
  end.
Proof.
  unfold Supervisor._ensure_running_locked.
  destruct (is_running self (running es)) eqn:Hrun.
  { simpl. repeat split; try lia.
    unfold is_running in Hrun. destruct (_proc self); [eauto|discriminate]. }
  pose proof (stop_locked_spec true self) as (Hp0 & Hid0 & Hs0 & Hl0 & _).
  assert (Hn0 : launches (log (_stop_locked true self)) = launches (log self))
    by (unfold launches; by rewrite Hl0).
  destruct (worker_file es); simpl.
  2: { repeat split; try done; lia. }
  pose proof (launch_spec (_stop_locked true self) (handshake1 es))
    as (Hid1 & Hs1 & Hl1 & Hc1).
  destruct (launch (_stop_locked true self) (handshake1 es)) as [s1 l1].
  simpl in Hid1, Hs1, Hl1, Hc1.
  assert (Hn1 : launches (log s1) = S (launches (log self))).
  { unfold launches in *. rewrite Hl1, length_app. simpl. lia. }
  destruct l1 as [|e1|e1]; simpl.
  - destruct Hc1 as [Hp1 _]. repeat split; try congruence; try lia.
    rewrite Hp1. eauto.
  - pose proof (launch_spec s1 (handshake2 es)) as (Hid2 & Hs2 & Hl2 & Hc2).
    destruct (launch s1 (handshake2 es)) as [s2 l2].
    simpl in Hid2, Hs2, Hl2, Hc2.
    assert (Hn2 : launches (log s2) = S (S (launches (log self)))).
    { unfold launches in *. rewrite Hl2, length_app. simpl. lia. }
    destruct l2 as [|e2|e2]; simpl.
    + destruct Hc2 as [Hp2 _]. repeat split; try congruence; try lia.
      rewrite Hp2. eauto.
    + destruct Hc2 as (Hp2 & _ & msg & [->| ->]);
        repeat split; try congruence; lia.
    + destruct Hc2 as (_ & _ & msg & ->). repeat split; try congruence; lia.
  - destruct Hc1 as (_ & _ & msg & ->). repeat split; try congruence; lia.
Qed.

Lemma ensure_one_worker self es :
  one_worker self -> one_worker (fst (_ensure_running_locked self es)).
Proof.
  intros Hw. unfold Supervisor._ensure_running_locked.
  destruct (is_running self (running es)); [exact Hw|].
  pose proof (stop_locked_one_worker true self Hw) as Hw0.
  pose proof (stop_locked_spec true self) as (Hp0 & _).
  destruct (worker_file es); simpl; [|exact Hw0].
  pose proof (launch_one_worker _ (handshake1 es) Hw0 Hp0) as Hw1.
  pose proof (launch_spec (_stop_locked true self) (handshake1 es))
    as (_ & _ & _ & Hc1).
  destruct (launch (_stop_locked true self) (handshake1 es)) as [s1 l1].
  simpl in Hw1, Hc1.
  destruct l1 as [|e1|e1]; simpl; try exact Hw1.
  destruct Hc1 as (Hp1 & _).
  pose proof (launch_one_worker _ (handshake2 es) Hw1 Hp1) as Hw2.
  destruct (launch s1 (handshake2 es)) as [s2 l2]. simpl in Hw2.
  destruct l2; exact Hw2.
Qed.

(** X20: [_ensure_running_locked] returns at once, touching nothing, when
    the worker is alive. Otherwise it launches at most two workers; when it
    returns a worker is in place; when it raises a timeout, a runtime error
    or the missing file, no worker is left behind (a type error of the
    handshake gets out with the worker in place). It takes no request id
    and writes no request. *)
Theorem ensure_running_outcome self es :
  let self' := fst (_ensure_running_locked self es) in
  (is_running self (running es) = true ->
   _ensure_running_locked self es = (self, Returns ())) /\
  launches (log self') <= launches (log self) + 2 /\
  _next_id self' = _next_id self /\
  sent (log self') = sent (log self) /\
  match snd (_ensure_running_locked self es) with
  | Returns _ => is_Some (_proc self')
  | Raises (Exn (TypeError _)) => True
  | Raises _ => _proc self' = None
  end.
Proof.
  pose proof (ensure_spec self es) as (Hid & Hs & Hl & Hrun & Hr).
  repeat split; try assumption. lia.
Qed.

(** What taking the lock and writing a request leaves. *)
Lemma send_spec self r x :
  let self' := fst (send self r x) in
  _proc self' = _proc self /\
  _next_id self' = _next_id self /\
  launched_workers (log self') = launched_workers (log self) /\
  torn_workers (log self') = torn_workers (log self) /\
  match snd (send self r x) with
  | Returns _ =>
      exists worker, _proc self = Some worker /\
                     log self' = log self ++ [Sent worker r]
  | Raises _ => self' = self
  end.
Proof.
  unfold Supervisor.send, _write_line.
  destruct (lock x); simpl; [|by repeat split].
  destruct (_proc self) as [worker|] eqn:Hp; simpl; [|by repeat split].
  destruct (fst (write_loop _ 0 (turns x))); simpl; [|by repeat split].
  rewrite launched_workers_app, torn_workers_app. simpl.
  rewrite !app_nil_r. repeat split. eauto.
Qed.

Lemma fresh_ids_same self self' :
  sent (log self') = sent (log self) ->
  _next_id self' = _next_id self ->
  fresh_ids self -> fresh_ids self'.
Proof. unfold fresh_ids. by intros -> ->. Qed.

Lemma one_worker_same self self' :
  _proc self' = _proc self ->
  launched_workers (log self') = launched_workers (log self) ->
  torn_workers (log self') = torn_workers (log self) ->
  one_worker self -> one_worker self'.
Proof. unfold one_worker, launches. by intros -> -> ->. Qed.

(** Taking the next id and writing a request that carries it. *)
Lemma request_fresh_ids self r x :
  request_id r = _next_id self ->
  fresh_ids self -> fresh_ids (fst (send (take_id self) r x)).
Proof.
  intros Hid (Hsorted & Hbelow & Hone).
  pose proof (send_spec (take_id self) r x) as (_ & Hn & _ & _ & Hcase).
  destruct (snd (send (take_id self) r x)).
  - destruct Hcase as (worker & _ & Hlog). unfold fresh_ids.
    rewrite Hlog, Hn, sent_app. simpl. rewrite map_app. simpl.
    split; [|split; [|lia]].
    + clear Hlog Hn. induction (sent (log self)) as [|r0 rs IH]; simpl.
      * repeat constructor.
      * inversion Hsorted; subst. inversion Hbelow; subst.
        constructor; [by apply IH|].
        apply Forall_app. split; [assumption|].
        constructor; [lia|constructor].
    + apply Forall_app. split.
      * eapply Forall_impl; [exact Hbelow|]. simpl. intros; lia.
      * constructor; [lia|constructor].
  - rewrite Hcase. unfold fresh_ids. simpl. split; [exact Hsorted|].
    split; [|lia]. eapply Forall_impl; [exact Hbelow|]. simpl. intros; lia.
Qed.

Lemma request_one_worker self r x :
  one_worker self -> one_worker (fst (send (take_id self) r x)).
Proof.
  pose proof (send_spec (take_id self) r x) as (Hp & _ & Hl & Ht & _).
  by apply one_worker_same.
Qed.

(** Where the body of [start_recording] leaves the client: after
    [_ensure_running_locked], or after the request. *)
Lemma try_start_state self device_name sample_rate channels a :
  let ensured := fst (_ensure_running_locked self (ensure a)) in
  let requested :=
    fst (send (take_id ensured)
           (StartRequest (_next_id ensured) device_name sample_rate channels)
           (talk a)) in
  (fst (try_start self device_name sample_rate channels a) = ensured /\
   exists e, snd (try_start self device_name sample_rate channels a) = Raises e) \/
  fst (try_start self device_name sample_rate channels a) = requested.
Proof.
  unfold Supervisor.try_start.
  destruct (_ensure_running_locked self (ensure a)) as [s1 [[]|e]]; simpl;
    [|left; eauto].
  destruct (send _ _ _) as [s2 [[]|e]]; simpl; [|by right].
  destruct (await _ _ _ _ _); by right.
Qed.

Lemma try_start_spec self device_name sample_rate channels a :
  let self' := fst (try_start self device_name sample_rate channels a) in
  (_next_id self <= _next_id self' <= _next_id self + 1)%Z /\
  launches (log self') <= launches (log self) + 2 /\
  match snd (try_start self device_name sample_rate channels a) with
  | Returns _ =>
      exists worker,
        _proc self' = Some worker /\
        last (log self') =
          Some (Sent worker
                  (StartRequest (_next_id self' - 1) device_name sample_rate
                     channels))
  | Raises _ => True
  end.
Proof.
  pose proof (ensure_spec self (ensure a)) as (Hid & _ & Hl & _ & _).
  unfold Supervisor.try_start.
  destruct (_ensure_running_locked self (ensure a)) as [s1 [[]|e]];
    simpl in *; [|split; [lia|split; [lia|exact I]]].
  pose proof (send_spec (take_id s1)
                (StartRequest (_next_id s1) device_name sample_rate channels)
                (talk a)) as (Hp & Hn & Hlw & _ & Hcase).
  destruct (send _ _ _) as [s2 [[]|e]]; simpl in *.
  - destruct Hcase as (worker & Hw & Hlog).
    assert (Hlaunch : launches (log s2) = launches (log s1))
      by (unfold launches; by rewrite Hlw).
    destruct (await _ _ _ _ _); simpl; (split; [lia|split; [lia|]]);
      [|exact I].
    exists worker. split; [congruence|].
    rewrite Hlog, last_snoc, Hn. do 3 f_equal. lia.
  - subst s2. simpl. split; [lia|split; [lia|exact I]].
Qed.

(** X21: [start_recording] tries at most twice: it takes at most two
    request ids and launches at most four workers. When it returns, a
    worker is in place and the last thing the client did is to write it the
    start request with the latest id and the arguments of the call. When it
    raises, the worker has been torn down: no worker is in place. *)
Theorem start_recording_outcome self device_name sample_rate channels first second :
  let self' :=
    fst (start_recording self device_name sample_rate channels first second) in
  (_next_id self <= _next_id self' <= _next_id self + 2)%Z /\
  launches (log self') <= launches (log self) + 4 /\
  match snd (start_recording self device_name sample_rate channels first second)
  with
  | Returns _ =>
      exists worker,
        _proc self' = Some worker /\
        last (log self') =
          Some (Sent worker
                  (StartRequest (_next_id self' - 1) device_name sample_rate
                     channels))
  | Raises _ => _proc self' = None
  end.
Proof.
  unfold Supervisor.start_recording.
  pose proof (try_start_spec self device_name sample_rate channels first)
    as (Hid1 & Hl1 & Hr1).
  destruct (try_start self device_name sample_rate channels first)
    as [s1 [[]|e1]]; simpl in *.
  { split; [lia|split; [lia|exact Hr1]]. }
  pose proof (stop_locked_spec true s1) as (_ & Hid1' & _ & Hlw1 & _).
  assert (Hn1 : launches (log (_stop_locked true s1)) = launches (log s1))
    by (unfold launches; by rewrite Hlw1).
  pose proof (try_start_spec (_stop_locked true s1) device_name sample_rate
                channels second) as (Hid2 & Hl2 & Hr2).
  destruct (try_start (_stop_locked true s1) device_name sample_rate channels
              second) as [s2 [[]|e2]]; simpl in *.
  { split; [lia|split; [lia|exact Hr2]]. }
  pose proof (stop_locked_spec true s2) as (Hp & Hid2' & _ & Hlw2 & _).
  assert (Hn2 : launches (log (_stop_locked true s2)) = launches (log s2))
    by (unfold launches; by rewrite Hlw2).
  split; [lia|split; [lia|exact Hp]].
Qed.

Lemma stop_recording_state self wav_path a :
  let ensured := fst (_ensure_running_locked self (ensure a)) in
  fst (stop_recording self wav_path a) = ensured \/
  fst (stop_recording self wav_path a) =
    fst (send (take_id ensured) (StopRequest (_next_id ensured) wav_path)
           (talk a)).
Proof.
  unfold Supervisor.stop_recording.
  destruct (_ensure_running_locked self (ensure a)) as [s1 [[]|e]]; simpl;
    [|by left].
  destruct (send _ _ _) as [s2 [[]|e]]; simpl; [|by right].
  destruct (await _ _ _ _ _); by right.
Qed.

Lemma cancel_recording_state self poll_is_none x :
  fst (cancel_recording self poll_is_none x) = self \/
  fst (cancel_recording self poll_is_none x) =
    fst (send (take_id self) (CancelRequest (_next_id self)) x).
Proof.
  unfold Supervisor.cancel_recording.
  destruct (negb _); [by left|].
  destruct (send _ _ _) as [s2 [[]|e]]; simpl; [|by right].
  destruct (await _ _ _ _ _); by right.
Qed.

Lemma ensure_fresh_ids self es :
  fresh_ids self -> fresh_ids (fst (_ensure_running_locked self es)).
Proof.
  pose proof (ensure_spec self es) as (Hid & Hs & _). by apply fresh_ids_same.
Qed.

Lemma stop_locked_fresh_ids force self :
  fresh_ids self -> fresh_ids (_stop_locked force self).
Proof.
  pose proof (stop_locked_spec force self) as (_ & Hid & Hs & _).
  by apply fresh_ids_same.
Qed.

Lemma try_start_keeps self device_name sample_rate channels a :
  one_worker self /\ fresh_ids self ->
  one_worker (fst (try_start self device_name sample_rate channels a)) /\
  fresh_ids (fst (try_start self device_name sample_rate channels a)).
Proof.
  intros [Hw Hf].
  pose proof (ensure_one_worker self (ensure a) Hw) as Hw1.
  pose proof (ensure_fresh_ids self (ensure a) Hf) as Hf1.
  destruct (try_start_state self device_name sample_rate channels a)
    as [[-> _]| ->]; [by split|].
  split; [by apply request_one_worker | by apply request_fresh_ids].
Qed.

(** Every call keeps the workers and the request ids in order. *)
Lemma after_keeps self c :
  one_worker self /\ fresh_ids self ->
  one_worker (after self c) /\ fresh_ids (after self c).
Proof.
  intros [Hw Hf]. destruct c as [es|force|dn sr ch first second|wav_path a|alive x];
    simpl.
  - split; [by apply ensure_one_worker | by apply ensure_fresh_ids].
  - split; [by apply stop_locked_one_worker | by apply stop_locked_fresh_ids].
  - unfold Supervisor.start_recording.
    pose proof (try_start_keeps self dn sr ch first (conj Hw Hf)) as [Hw1 Hf1].
    destruct (try_start self dn sr ch first) as [s1 [[]|e1]]; simpl in *;
      [by split|].
    pose proof (try_start_keeps (_stop_locked true s1) dn sr ch second
                  (conj (stop_locked_one_worker true s1 Hw1)
                        (stop_locked_fresh_ids true s1 Hf1))) as [Hw2 Hf2].
    destruct (try_start (_stop_locked true s1) dn sr ch second)
      as [s2 [[]|e2]]; simpl in *; [by split|].
    split; [by apply stop_locked_one_worker | by apply stop_locked_fresh_ids].
  - pose proof (ensure_one_worker self (ensure a) Hw) as Hw1.
    pose proof (ensure_fresh_ids self (ensure a) Hf) as Hf1.
    destruct (stop_recording_state self wav_path a) as [-> | ->]; [by split|].
    split; [by apply request_one_worker | by apply request_fresh_ids].
  - destruct (cancel_recording_state self alive x) as [-> | ->]; [by split|].
    split; [by apply request_one_worker | by apply request_fresh_ids].
Qed.

Lemma fold_after_keeps calls : forall self,
  one_worker self /\ fresh_ids self ->
  one_worker (fold_left after calls self) /\
  fresh_ids (fold_left after calls self).
Proof.
  induction calls as [|c calls IH]; intros self H; simpl; [exact H|].
  by apply IH, after_keeps.
Qed.

Lemma init_keeps : one_worker __init__ /\ fresh_ids __init__.
Proof.
  split.
  - by split.
  - split; [constructor|]. split; [constructor|]. simpl. lia.
Qed.

(** X22: whatever calls are made on a client and whatever they meet, its
    workers are in order: every worker it has launched has been torn down,
    in the order of the launches, except the one in place, which is the
    last launched. At most one worker is alive on behalf of a client, and
    none is forgotten. *)
Theorem one_worker_at_a_time calls : one_worker (run calls).
Proof. apply (fold_after_keeps calls __init__ init_keeps). Qed.

(** X23: whatever calls are made on a client and whatever they meet, the
    requests it has written carry ids that grow strictly from 1: no id is
    used twice, also across the retries of [start_recording] and the
    replacement of a worker. *)
Theorem request_ids_are_fresh calls : fresh_ids (run calls).
Proof. apply (fold_after_keeps calls __init__ init_keeps). Qed.

(** X24: [cancel_recording] never launches a worker and never tears one
    down; when no worker is in place, or the worker in place has exited, it
    does nothing at all: no id is taken and nothing is written, as often as
    it is called. *)
Theorem cancel_recording_is_light self poll_is_none x :
  let self' := fst (cancel_recording self poll_is_none x) in
  _proc self' = _proc self /\
  launched_workers (log self') = launched_workers (log self) /\
  torn_workers (log self') = torn_workers (log self) /\
  (is_running self poll_is_none = false ->
   cancel_recording self poll_is_none x = (self, Returns ()) /\
   cancel_recording self' poll_is_none x = (self, Returns ())).
Proof.
  split; [|split; [|split]].
  - destruct (cancel_recording_state self poll_is_none x) as [-> | ->];
      [reflexivity|].
    by destruct (send_spec (take_id self) (CancelRequest (_next_id self)) x)
      as (-> & _).
  - destruct (cancel_recording_state self poll_is_none x) as [-> | ->];
      [reflexivity|].
    by destruct (send_spec (take_id self) (CancelRequest (_next_id self)) x)
      as (_ & _ & -> & _).
  - destruct (cancel_recording_state self poll_is_none x) as [-> | ->];
      [reflexivity|].
    by destruct (send_spec (take_id self) (CancelRequest (_next_id self)) x)
      as (_ & _ & _ & -> & _).
  - intros Hrun. unfold Supervisor.cancel_recording. rewrite Hrun. simpl.
    by rewrite Hrun.
Qed.

(** X25: [stop_recording] takes at most one request id and launches at
    most two workers. Unlike [start_recording] it tears nothing down when
    it fails: when the worker is alive at the call, the same worker is in
    place afterwards, whatever happened. When it returns, the last thing
    the client did is to write the worker in place the stop request with
    the latest id and the path of the call. *)
Theorem stop_recording_outcome self wav_path a :
  let self' := fst (stop_recording self wav_path a) in
  (_next_id self <= _next_id self' <= _next_id self + 1)%Z /\
  launches (log self') <= launches (log self) + 2 /\
  (is_running self (running (ensure a)) = true ->
   _proc self' = _proc self /\
   torn_workers (log self') = torn_workers (log self) /\
   launched_workers (log self') = launched_workers (log self)) /\
  match snd (stop_recording self wav_path a) with
  | Returns _ =>
      exists worker,
        _proc self' = Some worker /\
        last (log self') =
          Some (Sent worker (StopRequest (_next_id self' - 1) wav_path))
  | Raises _ => True
  end.
Proof.
  pose proof (ensure_spec self (ensure a)) as (Hid & _ & Hl & Hrun & _).
  unfold Supervisor.stop_recording.
  destruct (_ensure_running_locked self (ensure a)) as [s1 [[]|e]] eqn:He;
    simpl in *.
  2: { split; [lia|split; [lia|split; [|exact I]]].
       intros Hr. specialize (Hrun Hr). by injection Hrun as ->. }
  pose proof (send_spec (take_id s1) (StopRequest (_next_id s1) wav_path)
                (talk a)) as (Hp & Hn & Hlw & Htw & Hcase).
  assert (Hkeep : is_running self (running (ensure a)) = true ->
                  s1 = self) by (intros Hr; specialize (Hrun Hr); congruence).
  destruct (send _ _ _) as [s2 [[]|e]]; simpl in *.
  - destruct Hcase as (worker & Hw & Hlog).
    assert (Hlaunch : launches (log s2) = launches (log s1))
      by (unfold launches; by rewrite Hlw).
    assert (Hsame : is_running self (running (ensure a)) = true ->
              _proc s2 = _proc self /\
              torn_workers (log s2) = torn_workers (log self) /\
              launched_workers (log s2) = launched_workers (log self)).
    { intros Hr. rewrite <- (Hkeep Hr). auto. }
    destruct (await _ _ _ _ _) as [m|e]; simpl;
      (split; [lia|split; [lia|split; [exact Hsame|]]]); [|exact I].
    destruct (stopped_result _ _ m); [|exact I].
    exists worker. split; [congruence|].
    rewrite Hlog, last_snoc, Hn. do 3 f_equal. lia.
  - subst s2. simpl. split; [lia|split; [lia|split; [|exact I]]].
    intros Hr. by rewrite (Hkeep Hr).
Qed.

End Run.

Lemma ensure_running_outcome_witness :
  let self :=
    fst (Supervisor._ensure_running_locked Scenario.type_text (fun _ => meek)
           "audio_worker.py" __init__ (ensure (first_call []))) in
  _proc self = Some 0 /\
  Supervisor._ensure_running_locked Scenario.type_text (fun _ => meek)
    "audio_worker.py" self (ensure (later_call [])) = (self, Returns ()).
Proof.
  intros self. split; [reflexivity|].
  apply (ensure_running_outcome Scenario.type_text (fun _ => meek)
           "audio_worker.py" self (ensure (later_call []))).
  reflexivity.
Defined.

Lemma start_recording_outcome_witness :
  let out :=
    Supervisor.start_recording Scenario.type_text (fun _ => meek) twenty
      "audio_worker.py" __init__ None 16000 1 mute_call
      (first_call [("type", JStr "started"); ("id", JInt 1)]) in
  snd out = Returns () /\
  exists worker,
    _proc (fst out) = Some worker /\
    last (log (fst out)) =
      Some (Sent worker (StartRequest (_next_id (fst out) - 1) None 16000 1)).
Proof.
  intros out. split; [reflexivity|].
  pose proof (start_recording_outcome Scenario.type_text (fun _ => meek) twenty
                "audio_worker.py" __init__ None 16000 1 mute_call
                (first_call [("type", JStr "started"); ("id", JInt 1)]))
    as (_ & _ & H).
  exact H.
Defined.

Lemma cancel_recording_is_light_witness :
  Supervisor.cancel_recording Scenario.type_text twenty __init__ true
    (answered []) = (__init__, Returns ()).
Proof.
  destruct (cancel_recording_is_light Scenario.type_text twenty __init__ true
              (answered [])) as (_ & _ & _ & H).
  apply H. reflexivity.
Defined.

Lemma stop_recording_outcome_witness :
  let self :=
    fst (Supervisor._ensure_running_locked Scenario.type_text (fun _ => meek)
           "audio_worker.py" __init__ (ensure (first_call []))) in
  let out :=
    Supervisor.stop_recording Scenario.type_text Scenario.no_int no_float
      (fun _ => meek) twenty "audio_worker.py" self "take.wav"
      (later_call [("type", JStr "error"); ("id", JInt 1);
                   ("error", JStr "Missing wav_path")]) in
  snd out = Raises (Exn (RuntimeError "Missing wav_path")) /\
  _proc (fst out) = _proc self.
Proof.
  intros self out. split; [reflexivity|].
  destruct (stop_recording_outcome Scenario.type_text Scenario.no_int no_float
              (fun _ => meek) twenty "audio_worker.py" self "take.wav"
              (later_call [("type", JStr "error"); ("id", JInt 1);
                           ("error", JStr "Missing wav_path")]))
    as (_ & _ & H & _).
  apply H. reflexivity.
Defined.

End SupervisorExtras.

(** ** The client: the reader task and the waits it feeds *)

Module ReaderExtras.
Import Client ClientFacts.

Section Reader.

Variable json_loads : string -> option json.
Variable cb : bool.
Variable loads_error : string -> option exn.

Abbreviation read_line := (Client.read_line json_loads cb loads_error).
Abbreviation _read_stdout := (Client._read_stdout json_loads cb loads_error).
Abbreviation queued := (Client.queued json_loads).
Abbreviation waveform_of := (Client.waveform_of json_loads).

Lemma read_line_spec rd line rd' :
  read_line rd line = Ok rd' ->
  queue rd' = queue rd ++ queued line /\
  handed rd' = handed rd ++ (if cb then waveform_of line else []).
Proof.
  unfold Client.read_line, Client.queued, Client.waveform_of. cbv zeta.
  destruct (String.eqb _ _).
  { intros [= <-]. destruct cb; by rewrite !app_nil_r. }
  destruct (json_loads _) as [v|].
  - destruct v as [| | | | | |msg]; try discriminate.
    destruct (eq_str (dict_get msg "type") "waveform") eqn:Ht;
      intros [= <-]; simpl; destruct cb; by rewrite ?app_nil_r.
  - destruct (loads_error _); [discriminate|].
    intros [= <-]. simpl. destruct cb; by rewrite ?app_nil_r.
Qed.

Lemma read_stdout_spec lines : forall rd rd',
  _read_stdout rd lines = (rd', None) ->
  queue rd' = queue rd ++ concat (map queued lines) ++ [eof] /\
  handed rd' =
    handed rd ++ (if cb then concat (map waveform_of lines) else []).
Proof.
  induction lines as [|line lines IH]; intros rd rd'; simpl.
  - intros [= <-]. simpl. destruct cb; by rewrite ?app_nil_r.
  - destruct (read_line rd line) as [rd1|e] eqn:Hline; [|discriminate].
    intros Hrest.
    destruct (read_line_spec _ _ _ Hline) as (Hq1 & Hh1).
    destruct (IH _ _ Hrest) as (Hq & Hh).
    split.
    + by rewrite Hq, Hq1, !app_assoc.
    + rewrite Hh, Hh1. destruct cb; by rewrite ?app_nil_r, ?app_assoc.
Qed.




Lemma wait_to_the_sentinel predicate (q : list message) :
  fst (_wait_for_locked predicate (map Dequeued (q ++ [eof]))) <> Ok None.
Proof.
  induction q as [|m q IH]; simpl; [discriminate|].
  destruct (eq_str _ _); [discriminate|].
  destruct (predicate m) as [[|]|e]; simpl; try discriminate. exact IH.
Qed.

(** X27: once the reader task has run to the end of the output of the
    worker, a wait that goes through the queue does not time out, whatever
    its predicate: it returns a message the predicate accepts or the
    made-up error for the exit of the worker, or it raises what the
    predicate raised. *)
Theorem finished_reader_ends_waits rd lines rd' predicate :
  _read_stdout rd lines = (rd', None) ->
  fst (_wait_for_locked predicate (map Dequeued (queue rd'))) <> Ok None.
Proof.
  intros Hr. destruct (read_stdout_spec _ _ _ Hr) as (-> & _).
  rewrite app_assoc. apply wait_to_the_sentinel.
Qed.

(** X28: a line that decodes to a value that is not an object ends the
    reader task with an exception: the queue stays as it was, the lines
    that follow are not read and the sentinel is never put, so that the
    waits that follow have only their deadline to end them. *)
Theorem reader_dies_on_non_object rd line v lines :
  strip line <> "" ->
  json_loads (strip line) = Some v ->
  (forall msg, v <> JObj msg) ->
  _read_stdout rd (line :: lines) =
    (rd, Some (AttributeError
       ("'" +:+ Worker.type_name v +:+ "' object has no attribute 'get'"))).
Proof.
  intros Hnb Hdec Hv. simpl. unfold Client.read_line.
  destruct (String.eqb_spec (strip line) "") as [|_]; [done|].
  rewrite Hdec. destruct v; try reflexivity. by destruct (Hv fields).
Qed.

End Reader.


Lemma finished_reader_ends_waits_witness :
  fst (_wait_for_locked (stop_recording_predicate 9)
         (map Dequeued
            [stdout_message "oops";
             [("type", JStr "cancel"); ("id", JInt 4)]; eof])) <> Ok None.
Proof.
  apply (finished_reader_ends_waits (Scenario.decode Transcript.session_lines)
           true Scenario.decode_errors_only {| queue := []; handed := [] |}
           [" oops"; Transcript.cancel_line]
           {| queue := [stdout_message "oops";
                        [("type", JStr "cancel"); ("id", JInt 4)]; eof];
              handed := [] |}).
  reflexivity.
Defined.

Lemma reader_dies_on_non_object_witness :
  Client._read_stdout (Scenario.decode Transcript.session_lines) true
    Scenario.decode_errors_only
    {| queue := []; handed := [] |} ["[1, 2]"; Transcript.cancel_line] =
  ({| queue := []; handed := [] |},
   Some (AttributeError "'list' object has no attribute 'get'")).
Proof.
  apply (reader_dies_on_non_object (Scenario.decode Transcript.session_lines)
           true Scenario.decode_errors_only {| queue := []; handed := [] |}
           "[1, 2]" (JArr [JInt 1; JInt 2]) [Transcript.cancel_line]).
  - discriminate.
  - reflexivity.
  - discriminate.
Defined.

End ReaderExtras.
